(** * Project configuration resolution (core/dbt/config/project.py)

    A shallow embedding of the project loader: the raw project tree as read
    by the YAML loader, the preprocessing pass, the defaulting rules of
    [from_project_config], the canonical serialisation [to_project_config],
    the scoped variable provider and the version gate. *)

From Stdlib Require Import String Ascii ZArith QArith List Bool Lia.
From Stdlib Require Import SpecFloat DecimalString.
Import ListNotations.
Close Scope Q_scope.
Open Scope string_scope.
Open Scope list_scope.

(** ** Values of the loader

    What [yaml.safe_load] hands over: scalars, sequences and mappings with
    string keys. A mapping keeps its insertion order, as a Python dict does.
    [VAlias up] is the one way such a tree can fail to be a tree: the child
    is the container [up] levels above it (a YAML alias to an enclosing
    anchor), so the structure refers to itself. A float comes with the
    identity of its object ([obj]): a container compares its items by
    identity before it compares them by value, and a NaN is the one value
    on which the two tests disagree. *)

Unset Elimination Schemes.
Inductive value : Type :=
| VNone
| VBool (b : bool)
| VInt (z : Z)
| VFloat (f : spec_float) (obj : nat)
| VStr (s : string)
| VList (l : list value)
| VDict (d : list (string * value))
| VAlias (up : nat).
Set Elimination Schemes.

Definition pydict : Type := list (string * value).

Section ValueInduction.
Variable P : value -> Prop.
Hypothesis HNone : P VNone.
Hypothesis HBool : forall b, P (VBool b).
Hypothesis HInt : forall z, P (VInt z).
Hypothesis HFloat : forall f obj, P (VFloat f obj).
Hypothesis HStr : forall s, P (VStr s).
Hypothesis HList : forall l, Forall P l -> P (VList l).
Hypothesis HDict : forall d, Forall (fun kv => P (snd kv)) d -> P (VDict d).
Hypothesis HAlias : forall up, P (VAlias up).

Fixpoint value_ind (v : value) : P v :=
  match v with
  | VNone => HNone
  | VBool b => HBool b
  | VInt z => HInt z
  | VFloat f obj => HFloat f obj
  | VStr s => HStr s
  | VList l =>
      HList l ((fix items (l : list value) : Forall P l :=
                  match l with
                  | [] => Forall_nil P
                  | x :: l' => Forall_cons x (value_ind x) (items l')
                  end) l)
  | VDict d =>
      HDict d ((fix entries (d : pydict) : Forall (fun kv => P (snd kv)) d :=
                  match d with
                  | [] => Forall_nil _
                  | kv :: d' =>
                      Forall_cons (P := fun kv => P (snd kv)) kv
                        (value_ind (snd kv)) (entries d')
                  end) d)
  | VAlias up => HAlias up
  end.
End ValueInduction.

(** A tree without alias nodes is an ordinary finite tree. *)
Fixpoint acyclic (v : value) : bool :=
  match v with
  | VList l => forallb acyclic l
  | VDict d => forallb (fun kv => acyclic (snd kv)) d
  | VAlias _ => false
  | _ => true
  end.

Fixpoint value_depth (v : value) : nat :=
  match v with
  | VList l => S (fold_right (fun x acc => Nat.max (value_depth x) acc) 0 l)
  | VDict d => S (fold_right (fun kv acc => Nat.max (value_depth (snd kv)) acc) 0 d)
  | _ => 0
  end.

(** ** Python's [==] on loader values

    Numbers compare by value across bool, int and float ([True == 1],
    [2.0 == 2]); a float is the dyadic rational its bits denote, a NaN
    differs from everything, itself included. Sequences compare element by
    element, mappings key by key whatever the insertion order, and both
    take two items for equal when they are one object ([x is y or x == y]),
    so that a sequence holding a NaN is equal to itself and to any sequence
    holding that same NaN object there. An alias node compares equal to
    nothing: the interpreter does not return from comparing a structure
    that contains itself, and nothing here compares one. *)

Inductive number : Type :=
| NumQ (q : Q)
| NumInf (negative : bool)
| NumNaN.

Definition float_number (f : spec_float) : number :=
  match f with
  | S754_zero _ => NumQ 0%Q
  | S754_infinity s => NumInf s
  | S754_nan => NumNaN
  | S754_finite s m e =>
      let mag : Q :=
        match e with
        | Z0 => inject_Z (Zpos m)
        | Zpos p => inject_Z (Zpos m * 2 ^ Zpos p)%Z
        | Zneg p => Qmake (Zpos m) (2 ^ p)%positive
        end in
      NumQ (if s then Qopp mag else mag)
  end.

Definition as_number (v : value) : option number :=
  match v with
  | VBool b => Some (NumQ (if b then 1%Q else 0%Q))
  | VInt z => Some (NumQ (inject_Z z))
  | VFloat f _ => Some (float_number f)
  | _ => None
  end.

Definition number_eqb (a b : number) : bool :=
  match a, b with
  | NumQ x, NumQ y => Qeq_bool x y
  | NumInf s, NumInf t => Bool.eqb s t
  | _, _ => false
  end.

Fixpoint dict_get (k : string) (d : pydict) : option value :=
  match d with
  | [] => None
  | (k', v) :: d' => if String.eqb k k' then Some v else dict_get k d'
  end.

(** [x is y], where it can differ from [x == y]: the two are one NaN
    object. Any other object is equal to itself, so that for it the
    identity test of a container adds nothing to the comparison by value. *)
Definition same_nan (a b : value) : bool :=
  match a, b with
  | VFloat S754_nan i, VFloat S754_nan j => Nat.eqb i j
  | _, _ => false
  end.

Fixpoint py_eq (a b : value) : bool :=
  match a, b with
  | VNone, VNone => true
  | VStr s, VStr t => String.eqb s t
  | VList l, VList m =>
      (fix items (l m : list value) : bool :=
         match l, m with
         | [], [] => true
         | x :: l', y :: m' => (same_nan x y || py_eq x y) && items l' m'
         | _, _ => false
         end) l m
  | VDict d, VDict e =>
      Nat.eqb (List.length d) (List.length e) &&
      (fix entries (d : pydict) : bool :=
         match d with
         | [] => true
         | (k, x) :: d' =>
             match dict_get k e with
             | Some y => same_nan x y || py_eq x y
             | None => false
             end && entries d'
         end) d
  | _, _ =>
      match as_number a, as_number b with
      | Some x, Some y => number_eqb x y
      | _, _ => false
      end
  end.

Definition py_ne (a b : value) : bool := negb (py_eq a b).

(** [x is y or x == y], the test a container applies to its items. *)
Definition item_eq (x y : value) : bool := same_nan x y || py_eq x y.

(** [d.get(k, default)], [d[k] = v] and [d.update(e)]. *)
Definition dict_get_default (k : string) (default : value) (d : pydict) : value :=
  match dict_get k d with
  | Some v => v
  | None => default
  end.

Fixpoint dict_set (k : string) (v : value) (d : pydict) : pydict :=
  match d with
  | [] => [(k, v)]
  | (k', v') :: d' =>
      if String.eqb k k' then (k, v) :: d' else (k', v') :: dict_set k v d'
  end.

Definition dict_update (d e : pydict) : pydict :=
  fold_left (fun acc kv => dict_set (fst kv) (snd kv) acc) e d.

Definition dict_keys (d : pydict) : list string := map fst d.

(** ** Exceptions and fallible results

    The exception classes the module raises or catches. A [DbtProjectError]
    carries its message and the optional [path] and [project] attributes; a
    [ValidationError] is the schema validator's failure. *)

Inductive exn : Type :=
| DbtProjectError (msg : string) (path : option string) (project : option value)
| ValidationError (message : string) (relative_path : list string)
| RecursionException (msg : string)
| SemverException (msg : string)
| RuntimeException (msg : string)
| TypeError (msg : string)
| OtherException (msg : string).

Inductive result (A : Type) : Type :=
| Ok (a : A)
| Raise (e : exn).
Arguments Ok {A} a.
Arguments Raise {A} e.

Definition bind {A B : Type} (r : result A) (k : A -> result B) : result B :=
  match r with
  | Ok a => k a
  | Raise e => Raise e
  end.

Declare Scope result_scope.
Delimit Scope result_scope with result.
Notation "x <- r ;; k" := (bind r (fun x => k))
  (at level 61, r at next level, right associativity) : result_scope.
Notation "r ;;; k" := (bind r (fun _ => k))
  (at level 61, right associativity) : result_scope.
Open Scope result_scope.

(** [try: r except E: raise h(e)], with [h] answering [Some] on the
    exceptions the clause catches. *)
Definition try_except {A : Type} (r : result A) (h : exn -> option exn) : result A :=
  match r with
  | Ok a => Ok a
  | Raise e =>
      match h e with
      | Some e' => Raise e'
      | None => Raise e
      end
  end.

Fixpoint mapM {A B : Type} (f : A -> result B) (l : list A) : result (list B) :=
  match l with
  | [] => Ok []
  | x :: l' => y <- f x ;; ys <- mapM f l' ;; Ok (y :: ys)
  end.

(** ** Text

    [str()] and [repr()] as the message templates use them. *)

Definition nl : string := String (ascii_of_nat 10) "".
Definition dquote : string := String (ascii_of_nat 34) "".

Fixpoint contains_char (c : ascii) (s : string) : bool :=
  match s with
  | EmptyString => false
  | String c' s' => Ascii.eqb c c' || contains_char c s'
  end.

Fixpoint escape_str (quote : ascii) (s : string) : string :=
  match s with
  | EmptyString => ""
  | String c s' =>
      (if Ascii.eqb c "\"%char then "\\"
       else if Ascii.eqb c quote then String "\"%char (String quote "")
       else if Ascii.eqb c (ascii_of_nat 10) then "\n"
       else if Ascii.eqb c (ascii_of_nat 13) then "\r"
       else if Ascii.eqb c (ascii_of_nat 9) then "\t"
       else String c "") ++ escape_str quote s'
  end.

(** [repr(s)]: single quotes, unless the text holds a single quote and no
    double quote. Control characters other than newline, carriage return
    and tab are kept as they are. *)
Definition repr_str (s : string) : string :=
  let q : ascii :=
    if contains_char "'"%char s && negb (contains_char (ascii_of_nat 34) s)
    then ascii_of_nat 34 else "'"%char in
  String q (escape_str q s ++ String q "").

Definition str_int (z : Z) : string := NilZero.string_of_int (Z.to_int z).

(** [', '.join(items)] *)
Definition join_comma (items : list string) : string := String.concat ", " items.

(** [str(xs)] for a list of strings, as [format] renders [version_spec]. *)
Definition str_list_of_str (xs : list string) : string :=
  "[" ++ join_comma (map repr_str xs) ++ "]".

(** ** Collaborators

    The module imports its collaborators from the rest of the package
    (dbt.semver, dbt.version, dbt.contracts, dbt.clients, hologram and the
    selectors module). Their types come first, the contract and project
    records are built over them, and their operations follow. *)

Class ExternalTypes : Type := {
  VersionSpecifier : Type;   (* dbt.semver.VersionSpecifier *)
  Quoting : Type;            (* the quoting block of the contract *)
  QueryComment : Type;       (* dbt.contracts.connection.QueryComment *)
  PackageConfig : Type;      (* dbt.contracts.project.PackageConfig *)
  SelectorConfig : Type      (* .selectors.SelectorConfig *)
}.

(** The value of [cfg.query_comment]:
    [Union[QueryComment, NoValue, str, None]]. *)
Inductive cfg_query_comment `{ExternalTypes} : Type :=
| QCNone
| QCStr (s : string)
| QCNoValue
| QCObject (q : QueryComment).

(** [dbt.contracts.project.Project], the checked form of the project
    mapping: what [ProjectContract.from_dict] returns. Optional fields are
    [None] when the mapping does not set them. The config version is the
    number the validator let through, as it stands: the loader compares it
    by value and hands it on. *)
Record ProjectContract `{ExternalTypes} : Type := {
  cfg_name : string;
  cfg_version : value;
  cfg_project_root : option string;
  cfg_profile : option string;
  cfg_source_paths : option (list string);
  cfg_macro_paths : option (list string);
  cfg_data_paths : option (list string);
  cfg_test_paths : option (list string);
  cfg_analysis_paths : option (list string);
  cfg_docs_paths : option (list string);
  cfg_asset_paths : option (list string);
  cfg_target_path : option string;
  cfg_snapshot_paths : option (list string);
  cfg_clean_targets : option (list string);
  cfg_log_path : option string;
  cfg_modules_path : option string;
  cfg_quoting : option Quoting;
  cfg_on_run_start : option (list string);
  cfg_on_run_end : option (list string);
  cfg_models : pydict;
  cfg_seeds : pydict;
  cfg_snapshots : pydict;
  cfg_sources : pydict;
  cfg_vars : option pydict;
  cfg_query_comment_ : cfg_query_comment;
  cfg_config_version : value
}.

(** [VarProvider]: tied to one project, holding its [vars] mapping. *)
Record VarProvider : Type := { vars_of : pydict }.

(** The [Project] dataclass. *)
Record Project `{ExternalTypes} : Type := {
  project_name : string;
  version : value;
  project_root : string;
  profile_name : option string;
  source_paths : list string;
  macro_paths : list string;
  data_paths : list string;
  test_paths : list string;
  analysis_paths : list string;
  docs_paths : list string;
  asset_paths : list string;
  target_path : string;
  snapshot_paths : list string;
  clean_targets : list string;
  log_path : string;
  modules_path : string;
  quoting : pydict;
  models : pydict;
  on_run_start : list string;
  on_run_end : list string;
  seeds : pydict;
  snapshots : pydict;
  sources : pydict;
  vars : VarProvider;
  dbt_version : list VersionSpecifier;
  packages : PackageConfig;
  selectors : SelectorConfig;
  query_comment : QueryComment;
  config_version : value
}.

(** The [PartialProject] dataclass. [config_version] holds whatever the
    raw mapping had under the key. *)
Record PartialProject : Type := {
  pp_config_version : value;
  pp_profile_name : value;
  pp_project_name : value;
  pp_project_root : string;
  pp_project_dict : pydict;
  pp_verify_version : bool
}.

Class Externals `{ExternalTypes} : Type := {
  (* dbt.semver, dbt.version *)
  from_version_string : value -> result VersionSpecifier;
  to_version_string : VersionSpecifier -> string;
  versions_compatible : list VersionSpecifier -> bool;
  get_installed_version : VersionSpecifier;
  (* hologram and dbt.contracts *)
  ProjectContract_from_dict : value -> result ProjectContract;
  validator_error_message : exn -> string;
  Quoting_to_dict : Quoting -> pydict;
  QueryComment_new : option string -> QueryComment;
  QueryComment_bool : QueryComment -> bool;
  QueryComment_to_dict : QueryComment -> value;
  NoValue_bool : bool;
  PackageConfig_from_dict : value -> result PackageConfig;
  PackageConfig_to_dict : PackageConfig -> pydict;
  (* .selectors *)
  selector_config_from_data : value -> result SelectorConfig;
  selector_data_from_root : string -> result value;
  (* dbt.clients.system, dbt.clients.yaml_helper, os.path *)
  resolve_path_from_base : string -> string -> string;
  path_exists : string -> bool;
  load_file_contents : string -> result string;
  load_yaml_text : string -> result value;
  os_path_normpath : string -> string;
  os_path_join : string -> string -> string;
  (* the interpreter *)
  float_repr : spec_float -> string;
  recursion_limit : nat
}.

(** [DbtProjectYamlRenderer], as far as the loader uses it: its [version]
    attribute and the three [render_data] entry points (its own, and those
    of the package and selector renderers it hands out). Each reads the
    version the loader has set. *)
Record DbtProjectYamlRenderer : Type := {
  renderer_version : value;
  render_data : value -> value -> result value;
  package_render_data : value -> value -> result value;
  selector_render_data : value -> value -> result value
}.

(** The [IsFQNResource] protocol. *)
Record IsFQNResource : Type := {
  fqn : list string;
  resource_type : string;
  package_name : string
}.

(** A class as [isinstance] sees it: its name and the names of the
    classes it derives from, directly or not. *)
Record pyclass : Type := {
  cls_name : string;
  cls_ancestors : list string
}.

Definition issubclass (c d : pyclass) : bool :=
  String.eqb (cls_name c) (cls_name d) ||
  existsb (String.eqb (cls_name d)) (cls_ancestors c).

(** The class [Project] itself. *)
Definition ProjectClass : pyclass :=
  {| cls_name := "Project"; cls_ancestors := ["object"] |}.

(** An object whose class is [Project] or derives from it: its class and
    the fields of the dataclass. *)
Record instance `{ExternalTypes} : Type := {
  class_of : pyclass;
  state : Project
}.

(** Anything [__eq__] can be handed: such an object, or an object of
    another kind (a loader value), which is an instance of none of these
    classes. *)
Inductive pyobject `{ExternalTypes} : Type :=
| ObjInstance (o : instance)
| ObjValue (v : value).

Definition isinstance `{ExternalTypes} (o : pyobject) (c : pyclass) : bool :=
  match o with
  | ObjInstance i => issubclass (class_of i) c
  | ObjValue _ => false
  end.

(** ** Message templates *)

Definition INVALID_VERSION_ERROR (package installed version_spec : string) : string :=
  "This version of dbt is not supported with the '" ++ package ++ "' package." ++ nl ++
  "  Installed version of dbt: " ++ installed ++ nl ++
  "  Required version of dbt for '" ++ package ++ "': " ++ version_spec ++ nl ++
  "Check the requirements for the '" ++ package ++
  "' package, or run dbt again with --no-version-check" ++ nl.

Definition IMPOSSIBLE_VERSION_ERROR (package version_spec : string) : string :=
  "The package version requirement can never be satisfied for the '" ++ package ++ nl ++
  "package." ++ nl ++
  "  Required versions of dbt for '" ++ package ++ "': " ++ version_spec ++ nl ++
  "Check the requirements for the '" ++ package ++
  "' package, or run dbt again with --no-version-check" ++ nl.

Definition MALFORMED_PACKAGE_ERROR (error : string) : string :=
  "The packages.yml file in this project is malformed. Please double check" ++ nl ++
  "the contents of this file and fix any errors before retrying." ++ nl ++
  nl ++
  "You can find more information on the syntax for this file here:" ++ nl ++
  "https://docs.getdbt.com/docs/package-management" ++ nl ++
  nl ++
  "Validator Error:" ++ nl ++
  error ++ nl.

(** ** Small helpers *)

Definition _list_if_none (val : value) : value :=
  match val with
  | VNone => VList []
  | _ => val
  end.

Definition _dict_if_none (val : value) : value :=
  match val with
  | VNone => VDict []
  | _ => val
  end.

Definition _list_if_none_or_string (val : value) : value :=
  let val := _list_if_none val in
  match val with
  | VStr _ => VList [val]
  | _ => val
  end.

Definition _all_source_paths
    (source_paths data_paths snapshot_paths analysis_paths macro_paths : list string)
    : list string :=
  source_paths ++ data_paths ++ snapshot_paths ++ analysis_paths ++ macro_paths.

Definition value_or {T : Type} (val : option T) (default : T) : T :=
  match val with
  | None => default
  | Some v => v
  end.

(** [s.split(',')] *)
Fixpoint split_on (c : ascii) (s : string) : list string :=
  match s with
  | EmptyString => [""]
  | String c' s' =>
      if Ascii.eqb c' c then "" :: split_on c s'
      else match split_on c s' with
           | h :: t => String c' h :: t
           | [] => [String c' ""]
           end
  end.

(** ** Key paths and the traversal *)

Inductive pathkey : Type :=
| KStr (s : string)
| KIdx (i : nat).

Definition keypath : Type := list pathkey.

Definition pathkey_eqb (a b : pathkey) : bool :=
  match a, b with
  | KStr s, KStr t => String.eqb s t
  | KIdx i, KIdx j => Nat.eqb i j
  | _, _ => false
  end.

Fixpoint keypath_eqb (p q : keypath) : bool :=
  match p, q with
  | [], [] => true
  | a :: p', b :: q' => pathkey_eqb a b && keypath_eqb p' q'
  | _, _ => false
  end.

Fixpoint mapM_indexed (f : nat -> value -> result value) (idx : nat) (l : list value)
    : result (list value) :=
  match l with
  | [] => Ok []
  | v :: l' => y <- f idx v ;; ys <- mapM_indexed f (S idx) l' ;; Ok (y :: ys)
  end.

Fixpoint mapM_items (f : string -> value -> result value) (d : pydict) : result pydict :=
  match d with
  | [] => Ok []
  | (k, v) :: d' => y <- f k v ;; ys <- mapM_items f d' ;; Ok ((k, y) :: ys)
  end.

Definition cycle_in_deep_map : exn := RecursionException "Cycle detected in deep_map".

(** Modelled from the spec: [deep_map] of dbt.utils, which is not part of
    this module. It visits every node of a nested mapping or sequence with
    the path of keys and indices from the root; at each node the function
    is applied to the node's value before the traversal goes on into the
    result, and a node met again while it is still on the active path (an
    alias to an enclosing container) raises the recursion error. [depth] is
    the nesting the interpreter still allows: going past it raises the same
    error, and it is what makes the descent into a transformed value well
    founded. *)
Fixpoint _deep_map (depth : nat) (func : value -> keypath -> value)
    (val : value) (keypath : keypath) : result value :=
  match depth with
  | O => Raise cycle_in_deep_map
  | S depth =>
      match val with
      | VAlias _ => Raise cycle_in_deep_map
      | _ =>
          match func val keypath with
          | VList l =>
              l' <- mapM_indexed
                      (fun idx v => _deep_map depth func v (keypath ++ [KIdx idx])) 0 l ;;
              Ok (VList l')
          | VDict d =>
              d' <- mapM_items
                      (fun k v => _deep_map depth func v (keypath ++ [KStr k])) d ;;
              Ok (VDict d')
          | VAlias _ => Raise cycle_in_deep_map
          | atom => Ok atom
          end
      end
  end.

(** Modelled from the spec: [MultiDict] of dbt.utils, which is not part of
    this module: an overlay of mappings in which the source added last wins
    for a colliding key and a key held by one source only passes through.
    It keeps the sources themselves and looks a name up on demand. *)
Record MultiDict : Type := { md_sources : list value }.

Definition MultiDict_add (m : MultiDict) (source : value) : MultiDict :=
  {| md_sources := md_sources m ++ [source] |}.

Definition not_a_mapping : exn := TypeError "source of the overlay is not a mapping".

(** [name in entry] and [entry[name]] for one source of the overlay. The
    buckets the spec describes are mappings, and it says nothing of a
    source of another kind: here such a source cannot be read. *)
Definition entry_contains (name : string) (entry : value) : result bool :=
  match entry with
  | VDict d => Ok (match dict_get name d with Some _ => true | None => false end)
  | _ => Raise not_a_mapping
  end.

Definition entry_getitem (name : string) (entry : value) : result value :=
  match entry with
  | VDict d =>
      match dict_get name d with
      | Some v => Ok v
      | None => Raise (OtherException ("KeyError: " ++ name))
      end
  | _ => Raise not_a_mapping
  end.

Fixpoint lookup_sources (name : string) (entries : list value) : result value :=
  match entries with
  | [] => Raise (OtherException ("KeyError: " ++ name))
  | entry :: rest =>
      found <- entry_contains name entry ;;
      if found then entry_getitem name entry else lookup_sources name rest
  end.

Definition MultiDict_getitem (m : MultiDict) (name : string) : result value :=
  lookup_sources name (rev (md_sources m)).

Definition iter_keys (entry : value) : result (list string) :=
  match entry with
  | VDict d => Ok (dict_keys d)
  | _ => Raise not_a_mapping
  end.

(** The keys of the overlay, each once: those of the last source first. *)
Fixpoint keyset (entries : list value) (seen : list string) : result (list string) :=
  match entries with
  | [] => Ok seen
  | entry :: rest =>
      ks <- iter_keys entry ;;
      keyset rest
        (fold_left (fun acc k => if existsb (String.eqb k) acc then acc else acc ++ [k])
                   ks seen)
  end.

Definition MultiDict_keys (m : MultiDict) : result (list string) :=
  keyset (rev (md_sources m)) [].

Section Loader.
Context `{E : Externals}.

(** [repr(v)]; [around] names the enclosing containers, innermost first,
    for the way Python prints a structure that contains itself. *)
Fixpoint py_repr (around : list string) (v : value) : string :=
  match v with
  | VNone => "None"
  | VBool true => "True"
  | VBool false => "False"
  | VInt z => str_int z
  | VFloat f _ => float_repr f
  | VStr s => repr_str s
  | VList l => "[" ++ join_comma (map (py_repr ("[...]" :: around)) l) ++ "]"
  | VDict d =>
      "{" ++ join_comma
               (map (fun kv => (repr_str (fst kv) ++ ": " ++
                                py_repr ("{...}" :: around) (snd kv))%string) d) ++ "}"
  | VAlias up => nth up around "..."
  end.

Definition py_str (v : value) : string :=
  match v with
  | VStr s => s
  | _ => py_repr [] v
  end.

Definition _load_yaml (path : string) : result value :=
  contents <- load_file_contents path ;;
  load_yaml_text contents.

Definition package_data_from_root (project_root : string) : result value :=
  let package_filepath := resolve_path_from_base "packages.yml" project_root in
  if path_exists package_filepath then _load_yaml package_filepath
  else Ok VNone.

Definition package_config_from_data (packages_data : value) : result PackageConfig :=
  let packages_data :=
    match packages_data with
    | VNone => VDict [("packages", VList [])]
    | _ => packages_data
    end in
  try_except (PackageConfig_from_dict packages_data)
    (fun e => match e with
              | ValidationError message _ =>
                  Some (DbtProjectError (MALFORMED_PACKAGE_ERROR message) None None)
              | _ => None
              end).

(** What a [for] loop over [v] yields, for a [v] that is not a string
    ([_parse_versions] splits a string before it loops); [root] is the
    mapping [v] was read from, which an alias at that level stands for. *)
Definition iterate (root : pydict) (v : value) : result (list value) :=
  match v with
  | VList l => Ok l
  | VDict d => Ok (map VStr (dict_keys d))
  | VAlias O => Ok (map VStr (dict_keys root))
  | _ => Raise (TypeError "object is not iterable")
  end.

Definition _parse_versions (root : pydict) (versions : value)
    : result (list VersionSpecifier) :=
  versions <- match versions with
              | VStr s => Ok (map VStr (split_on ","%char s))
              | _ => iterate root versions
              end ;;
  mapM from_version_string versions.

Definition _raw_project_from (project_root : string) : result pydict :=
  let project_root := os_path_normpath project_root in
  let project_yaml_filepath := os_path_join project_root "dbt_project.yml" in
  if negb (path_exists project_yaml_filepath) then
    Raise (DbtProjectError
             ("no dbt_project.yml found at expected path " ++ project_yaml_filepath)
             None None)
  else
    project_dict <- _load_yaml project_yaml_filepath ;;
    match project_dict with
    | VDict d => Ok d
    | _ => Raise (DbtProjectError "dbt_project.yml does not parse to a dictionary"
                    None None)
    end.

Definition cfg_query_comment_bool (c : cfg_query_comment) : bool :=
  match c with
  | QCNone => false
  | QCStr s => negb (String.eqb s "")
  | QCNoValue => NoValue_bool
  | QCObject q => QueryComment_bool q
  end.

Definition _query_comment_from_cfg (cfg_query_comment : cfg_query_comment)
    : QueryComment :=
  if negb (cfg_query_comment_bool cfg_query_comment) then QueryComment_new (Some "")
  else match cfg_query_comment with
       | QCStr s => QueryComment_new (Some s)
       | QCNoValue => QueryComment_new None
       | QCObject q => q
       | QCNone => QueryComment_new (Some "")
       end.

(** *** VarProvider *)

Definition vars_for (self : VarProvider) (node : IsFQNResource) (adapter_type : string)
    : MultiDict :=
  let merged := {| md_sources := [VDict (vars_of self)] |} in
  MultiDict_add merged
    (dict_get_default (package_name node) (VDict []) (vars_of self)).

Definition VarProvider_to_dict (self : VarProvider) : pydict := vars_of self.

(** *** The version gate *)

Definition validate_version (required : list VersionSpecifier) (project_name : string)
    : result unit :=
  let installed := get_installed_version in
  if negb (versions_compatible required) then
    Raise (DbtProjectError
             (IMPOSSIBLE_VERSION_ERROR project_name
                (str_list_of_str (map to_version_string required)))
             None None)
  else if negb (versions_compatible (installed :: required)) then
    Raise (DbtProjectError
             (INVALID_VERSION_ERROR project_name (to_version_string installed)
                (str_list_of_str (map to_version_string required)))
             None None)
  else Ok tt.

(** *** Preprocessing *)

Definition deep_map (func : value -> keypath -> value) (val : value) : result value :=
  _deep_map recursion_limit func val [].

(** The table [_preprocess] builds, in the order it fills it. *)
Definition handlers : list (keypath * (value -> value)) :=
  [ ([KStr "on-run-start"], _list_if_none_or_string);
    ([KStr "on-run-end"], _list_if_none_or_string) ] ++
  flat_map (fun k =>
              [ ([KStr k], _dict_if_none);
                ([KStr k; KStr "vars"], _dict_if_none);
                ([KStr k; KStr "pre-hook"], _list_if_none_or_string);
                ([KStr k; KStr "post-hook"], _list_if_none_or_string) ])
           ["models"; "seeds"; "snapshots"] ++
  [ ([KStr "seeds"; KStr "column_types"], _dict_if_none) ].

Fixpoint handler_at (table : list (keypath * (value -> value))) (keypath : keypath)
    : option (value -> value) :=
  match table with
  | [] => None
  | (p, h) :: rest => if keypath_eqb keypath p then Some h else handler_at rest keypath
  end.

Definition converter (val : value) (keypath : keypath) : value :=
  match handler_at handlers keypath with
  | Some handler => handler val
  | None => val
  end.

Definition _preprocess (project_dict : pydict) : result value :=
  deep_map converter (VDict project_dict).

(** *** Project *)

Definition all_source_paths (self : Project) : list string :=
  _all_source_paths (source_paths self) (data_paths self) (snapshot_paths self)
    (analysis_paths self) (macro_paths self).

(** [except ValidationError as e: raise DbtProjectError(validator_error_message(e))] *)
Definition wrap_validation_error {A : Type} (r : result A) : result A :=
  try_except r
    (fun e => match e with
              | ValidationError _ _ =>
                  Some (DbtProjectError (validator_error_message e) None None)
              | _ => None
              end).

Definition _get_required_version (rendered_project : pydict) (verify_version : bool)
    : result (list VersionSpecifier) :=
  let dbt_raw_version :=
    match dict_get_default "require-dbt-version" VNone rendered_project with
    | VNone => VStr ">=0.0.0"
    | required => required
    end in
  dbt_version <- try_except (_parse_versions rendered_project dbt_raw_version)
                   (fun e => match e with
                             | SemverException msg => Some (DbtProjectError msg None None)
                             | _ => None
                             end) ;;
  (if verify_version then
     match dict_get "name" rendered_project with
     | None =>
         Raise (DbtProjectError
                  ("Required " ++ dquote ++ "name" ++ dquote ++
                   " field not present in project") None None)
     | Some name => validate_version dbt_version (py_str name)
     end
   else Ok tt) ;;;
  Ok dbt_version.

Definition opt_str (s : option string) : value :=
  match s with
  | Some s => VStr s
  | None => VNone
  end.

Definition str_list (l : list string) : value := VList (map VStr l).

(** The literal is deep-copied before anything is added to it: the copy
    has containers of its own and the very scalar objects of the fields. *)
Definition to_project_config (self : Project) (with_packages : bool) : pydict :=
  let result : pydict :=
    [ ("name", VStr (project_name self));
      ("version", version self);
      ("project-root", VStr (project_root self));
      ("profile", opt_str (profile_name self));
      ("source-paths", str_list (source_paths self));
      ("macro-paths", str_list (macro_paths self));
      ("data-paths", str_list (data_paths self));
      ("test-paths", str_list (test_paths self));
      ("analysis-paths", str_list (analysis_paths self));
      ("docs-paths", str_list (docs_paths self));
      ("asset-paths", str_list (asset_paths self));
      ("target-path", VStr (target_path self));
      ("snapshot-paths", str_list (snapshot_paths self));
      ("clean-targets", str_list (clean_targets self));
      ("log-path", VStr (log_path self));
      ("quoting", VDict (quoting self));
      ("models", VDict (models self));
      ("on-run-start", str_list (on_run_start self));
      ("on-run-end", str_list (on_run_end self));
      ("seeds", VDict (seeds self));
      ("snapshots", VDict (snapshots self));
      ("sources", VDict (sources self));
      ("vars", VDict (VarProvider_to_dict (vars self)));
      ("require-dbt-version", str_list (map to_version_string (dbt_version self)));
      ("config-version", config_version self) ] in
  let result :=
    if QueryComment_bool (query_comment self)
    then dict_set "query-comment" (QueryComment_to_dict (query_comment self)) result
    else result in
  let result :=
    if with_packages then dict_update result (PackageConfig_to_dict (packages self))
    else result in
  result.

Definition validate (self : Project) : result unit :=
  wrap_validation_error
    (ProjectContract_from_dict (VDict (to_project_config self false))) ;;;
  Ok tt.

Definition from_project_config (project_dict : pydict)
    (packages_dict selectors_dict : value)
    (required_dbt_version : option (list VersionSpecifier)) : result Project :=
  dbt_version <- match required_dbt_version with
                 | None => _get_required_version project_dict false
                 | Some v => Ok v
                 end ;;
  project_dict' <- try_except (_preprocess project_dict)
                     (fun e => match e with
                               | RecursionException _ =>
                                   Some (DbtProjectError
                                           "Cycle detected: Project input has a reference to itself"
                                           None (Some (VDict project_dict)))
                               | _ => None
                               end) ;;
  cfg <- wrap_validation_error (ProjectContract_from_dict project_dict') ;;
  let name := cfg_name cfg in
  let version := cfg_version cfg in
  project_root <- match cfg_project_root cfg with
                  | None => Raise (DbtProjectError "cfg must have a project root!" None None)
                  | Some r => Ok r
                  end ;;
  let profile_name := cfg_profile cfg in
  let source_paths := value_or (cfg_source_paths cfg) ["models"] in
  let macro_paths := value_or (cfg_macro_paths cfg) ["macros"] in
  let data_paths := value_or (cfg_data_paths cfg) ["data"] in
  let test_paths := value_or (cfg_test_paths cfg) ["test"] in
  let analysis_paths := value_or (cfg_analysis_paths cfg) [] in
  let snapshot_paths := value_or (cfg_snapshot_paths cfg) ["snapshots"] in
  let all_source_paths :=
    _all_source_paths source_paths data_paths snapshot_paths analysis_paths macro_paths in
  let docs_paths := value_or (cfg_docs_paths cfg) all_source_paths in
  let asset_paths := value_or (cfg_asset_paths cfg) [] in
  let target_path := value_or (cfg_target_path cfg) "target" in
  let clean_targets := value_or (cfg_clean_targets cfg) [target_path] in
  let log_path := value_or (cfg_log_path cfg) "logs" in
  let modules_path := value_or (cfg_modules_path cfg) "dbt_modules" in
  let quoting : pydict :=
    match cfg_quoting cfg with
    | Some q => Quoting_to_dict q
    | None => []
    end in
  (if py_ne (cfg_config_version cfg) (VInt 2) then
     Raise (ValidationError
              ("Got unsupported config_version=" ++ py_str (cfg_config_version cfg)) [])
   else Ok tt) ;;;
  let models := cfg_models cfg in
  let seeds := cfg_seeds cfg in
  let snapshots := cfg_snapshots cfg in
  let sources := cfg_sources cfg in
  let vars_dict : pydict :=
    match cfg_vars cfg with
    | None => []
    | Some d => d
    end in
  let vars_value := {| vars_of := vars_dict |} in
  let on_run_start := value_or (cfg_on_run_start cfg) [] in
  let on_run_end := value_or (cfg_on_run_end cfg) [] in
  let query_comment := _query_comment_from_cfg (cfg_query_comment_ cfg) in
  packages <- wrap_validation_error (package_config_from_data packages_dict) ;;
  selectors <- wrap_validation_error (selector_config_from_data selectors_dict) ;;
  let project :=
    {| project_name := name;
       version := version;
       project_root := project_root;
       profile_name := profile_name;
       source_paths := source_paths;
       macro_paths := macro_paths;
       data_paths := data_paths;
       test_paths := test_paths;
       analysis_paths := analysis_paths;
       docs_paths := docs_paths;
       asset_paths := asset_paths;
       target_path := target_path;
       snapshot_paths := snapshot_paths;
       clean_targets := clean_targets;
       log_path := log_path;
       modules_path := modules_path;
       quoting := quoting;
       models := models;
       on_run_start := on_run_start;
       on_run_end := on_run_end;
       seeds := seeds;
       snapshots := snapshots;
       sources := sources;
       vars := vars_value;
       dbt_version := dbt_version;
       packages := packages;
       selectors := selectors;
       query_comment := query_comment;
       config_version := cfg_config_version cfg |} in
  validate project ;;;
  Ok project.

Definition __eq__ (self : instance) (other : pyobject) : bool :=
  match other with
  | ObjInstance o =>
      if negb (isinstance other (class_of self) &&
               isinstance (ObjInstance self) (class_of o))
      then false
      else py_eq (VDict (to_project_config (state self) true))
                 (VDict (to_project_config (state o) true))
  | ObjValue _ => false
  end.

(** [except DbtProjectError as exc: if exc.path is None: exc.path = ...; raise] *)
Definition with_project_path {A : Type} (project_root : string) (r : result A)
    : result A :=
  try_except r
    (fun e => match e with
              | DbtProjectError msg None project =>
                  Some (DbtProjectError msg
                          (Some (os_path_join project_root "dbt_project.yml")) project)
              | _ => None
              end).

Definition render_from_dict (project_root : string) (project_dict : pydict)
    (packages_dict selectors_dict : value) (renderer : DbtProjectYamlRenderer)
    (verify_version : bool) : result Project :=
  rendered_project <- render_data renderer (renderer_version renderer)
                        (VDict project_dict) ;;
  rendered_project <- match rendered_project with
                      | VDict d => Ok (dict_set "project-root" (VStr project_root) d)
                      | _ => Raise (TypeError "object does not support item assignment")
                      end ;;
  rendered_packages <- package_render_data renderer (renderer_version renderer)
                         packages_dict ;;
  rendered_selectors <- selector_render_data renderer (renderer_version renderer)
                          selectors_dict ;;
  with_project_path project_root
    (dbt_version <- _get_required_version rendered_project verify_version ;;
     from_project_config rendered_project rendered_packages rendered_selectors
       (Some dbt_version)).

Definition render (self : PartialProject) (renderer : DbtProjectYamlRenderer)
    : result Project :=
  packages_dict <- package_data_from_root (pp_project_root self) ;;
  selectors_dict <- selector_data_from_root (pp_project_root self) ;;
  render_from_dict (pp_project_root self) (pp_project_dict self) packages_dict
    selectors_dict renderer (pp_verify_version self).

Definition invalid_config_version (config_version : value) (project_root : string)
    : exn :=
  DbtProjectError
    ("Invalid config version: " ++ py_str config_version ++ ", expected 2")
    (Some (os_path_join project_root "dbt_project.yml")) None.

Definition partial_load (project_root : string) (verify_version : bool)
    : result PartialProject :=
  let project_root := os_path_normpath project_root in
  project_dict <- _raw_project_from project_root ;;
  let project_name := dict_get_default "name" VNone project_dict in
  let profile_name := dict_get_default "profile" VNone project_dict in
  let config_version := dict_get_default "config-version" (VInt 1) project_dict in
  if py_ne config_version (VInt 2) then
    Raise (invalid_config_version config_version project_root)
  else
    Ok {| pp_config_version := config_version;
          pp_profile_name := profile_name;
          pp_project_name := project_name;
          pp_project_root := project_root;
          pp_project_dict := project_dict;
          pp_verify_version := verify_version |}.

Definition set_version (renderer : DbtProjectYamlRenderer) (v : value)
    : DbtProjectYamlRenderer :=
  {| renderer_version := v;
     render_data := render_data renderer;
     package_render_data := package_render_data renderer;
     selector_render_data := selector_render_data renderer |}.

Definition from_project_root (project_root : string)
    (renderer : DbtProjectYamlRenderer) (verify_version : bool) : result Project :=
  partial <- partial_load project_root verify_version ;;
  let renderer := set_version renderer (pp_config_version partial) in
  render partial renderer.
End Loader.

(** ** A reference version-range model

    Modelled from the spec: the version ranges of dbt.semver, which is not
    part of this module. A range constraint is an operator and a version
    triple; a set of constraints is satisfiable when the regions its
    operators allow have a version in common, and a concrete version is
    compatible with a set when it lies in every constraint's region. *)
Module Semver.

Inductive matcher : Type := GT | GE | LT | LE | EQ.

Record version : Type := { major : nat; minor : nat; patch : nat }.

Record specifier : Type := { op : matcher; ver : version }.

Definition version_compare (a b : version) : comparison :=
  match Nat.compare (major a) (major b) with
  | Eq => match Nat.compare (minor a) (minor b) with
          | Eq => Nat.compare (patch a) (patch b)
          | c => c
          end
  | c => c
  end.

Definition version_leb (a b : version) : bool :=
  match version_compare a b with
  | Gt => false
  | _ => true
  end.

Definition version_ltb (a b : version) : bool :=
  match version_compare a b with
  | Lt => true
  | _ => false
  end.

Definition version_eqb (a b : version) : bool :=
  match version_compare a b with
  | Eq => true
  | _ => false
  end.

(** [v] lies in the region the constraint allows. *)
Definition satisfies (v : version) (s : specifier) : bool :=
  match op s with
  | GT => version_ltb (ver s) v
  | GE => version_leb (ver s) v
  | LT => version_ltb v (ver s)
  | LE => version_leb v (ver s)
  | EQ => version_eqb v (ver s)
  end.

Definition zero : version := {| major := 0; minor := 0; patch := 0 |}.

Definition next (v : version) : version :=
  {| major := major v; minor := minor v; patch := S (patch v) |}.

(** The least version a constraint can allow. *)
Definition lower_end (s : specifier) : version :=
  match op s with
  | GT => next (ver s)
  | GE | EQ => ver s
  | LT | LE => zero
  end.

Definition version_max (a b : version) : version :=
  if version_leb a b then b else a.

Definition highest_lower_end (specs : list specifier) : version :=
  fold_right (fun s acc => version_max (lower_end s) acc) zero specs.

(** The regions are intervals, so they meet exactly when the highest of
    their lower ends lies in all of them. *)
Definition versions_compatible (specs : list specifier) : bool :=
  forallb (satisfies (highest_lower_end specs)) specs.

Definition matcher_string (m : matcher) : string :=
  match m with
  | GT => ">" | GE => ">=" | LT => "<" | LE => "<=" | EQ => "="
  end.

Definition str_nat (n : nat) : string := NilZero.string_of_uint (Nat.to_uint n).

Definition to_version_string (s : specifier) : string :=
  matcher_string (op s) ++ str_nat (major (ver s)) ++ "." ++
  str_nat (minor (ver s)) ++ "." ++ str_nat (patch (ver s)).

(** Reading ["<op>major.minor.patch"]; a missing patch counts as 0. *)
Definition split_matcher (s : string) : matcher * string :=
  match s with
  | String ">" (String "=" r) => (GE, r)
  | String "<" (String "=" r) => (LE, r)
  | String ">" r => (GT, r)
  | String "<" r => (LT, r)
  | String "=" r => (EQ, r)
  | _ => (EQ, s)
  end.

Definition parse_nat (s : string) : option nat :=
  match s with
  | EmptyString => None
  | _ => option_map Nat.of_uint (NilZero.uint_of_string s)
  end.

Definition parse (s : string) : option specifier :=
  let (m, rest) := split_matcher s in
  match map parse_nat (split_on "."%char rest) with
  | [Some a; Some b; Some c] =>
      Some {| op := m; ver := {| major := a; minor := b; patch := c |} |}
  | [Some a; Some b] =>
      Some {| op := m; ver := {| major := a; minor := b; patch := 0 |} |}
  | _ => None
  end.

Definition from_version_string (v : value) : result specifier :=
  match v with
  | VStr s =>
      match parse s with
      | Some spec => Ok spec
      | None => Raise (SemverException ("Could not parse version " ++ dquote ++ s ++ dquote))
      end
  | _ => Raise (TypeError "expected string or bytes-like object")
  end.

Definition exactly (a b c : nat) : specifier :=
  {| op := EQ; ver := {| major := a; minor := b; patch := c |} |}.

End Semver.

(** ** Reference collaborators

    Stand-ins for the collaborators, small enough to run: the version
    ranges above, a validator that reads the contract's fields off the
    mapping, and a disk given as a table from paths to parsed documents
    (a file's text is identified with its path). The validator asks of a
    project name what the contract's pattern asks (a letter or underscore,
    then letters, digits and underscores) and takes for a config version
    an integer or a float that denotes one. *)
Module Reference.

Record query_comment_obj : Type := { comment : string; append : bool }.

#[export] Instance types : ExternalTypes := {|
  VersionSpecifier := Semver.specifier;
  Quoting := pydict;
  QueryComment := query_comment_obj;
  PackageConfig := list value;
  SelectorConfig := pydict
|}.

Definition not_of_type (key type : string) : exn :=
  ValidationError ("value is not of type '" ++ type ++ "'") [key].

Definition required_str (key : string) (d : pydict) : result string :=
  match dict_get key d with
  | Some (VStr s) => Ok s
  | Some _ => Raise (not_of_type key "string")
  | None => Raise (ValidationError ("'" ++ key ++ "' is a required property") [])
  end.

Definition optional_str (nullable : bool) (key : string) (d : pydict)
    : result (option string) :=
  match dict_get key d with
  | None => Ok None
  | Some VNone => if nullable then Ok None else Raise (not_of_type key "string")
  | Some (VStr s) => Ok (Some s)
  | Some _ => Raise (not_of_type key "string")
  end.

Definition as_str (key : string) (v : value) : result string :=
  match v with
  | VStr s => Ok s
  | _ => Raise (not_of_type key "string")
  end.

Definition optional_str_list (key : string) (d : pydict) : result (option (list string)) :=
  match dict_get key d with
  | None | Some VNone => Ok None
  | Some (VList l) => l' <- mapM (as_str key) l ;; Ok (Some l')
  | Some _ => Raise (not_of_type key "array")
  end.

Definition dict_or_empty (key : string) (d : pydict) : result pydict :=
  match dict_get key d with
  | None => Ok []
  | Some (VDict m) => Ok m
  | Some _ => Raise (not_of_type key "object")
  end.

Definition optional_dict (key : string) (d : pydict) : result (option pydict) :=
  match dict_get key d with
  | None | Some VNone => Ok None
  | Some (VDict m) => Ok (Some m)
  | Some _ => Raise (not_of_type key "object")
  end.

Definition read_version (d : pydict) : result value :=
  match dict_get "version" d with
  | Some (VStr s) => Ok (VStr s)
  | Some (VFloat f obj) => Ok (VFloat f obj)
  | Some _ => Raise (not_of_type "version" "string")
  | None => Raise (ValidationError "'version' is a required property" [])
  end.

Definition is_whole (f : spec_float) : bool :=
  match float_number f with
  | NumQ q => Pos.eqb (Qden (Qred q)) 1
  | _ => false
  end.

Definition read_config_version (d : pydict) : result value :=
  match dict_get "config-version" d with
  | None => Ok (VInt 1)
  | Some (VInt z) => Ok (VInt z)
  | Some (VFloat f obj) =>
      if is_whole f then Ok (VFloat f obj)
      else Raise (not_of_type "config-version" "integer")
  | Some _ => Raise (not_of_type "config-version" "integer")
  end.

Definition is_letter (c : ascii) : bool :=
  let n := nat_of_ascii c in
  (65 <=? n)%nat && (n <=? 90)%nat || (97 <=? n)%nat && (n <=? 122)%nat ||
  Nat.eqb n 95.

Definition is_digit (c : ascii) : bool :=
  let n := nat_of_ascii c in (48 <=? n)%nat && (n <=? 57)%nat.

Fixpoint all_chars (p : ascii -> bool) (s : string) : bool :=
  match s with
  | EmptyString => true
  | String c s' => p c && all_chars p s'
  end.

Definition name_pattern : string := "^[^\d\W]\w*$".

Definition matches_name_pattern (s : string) : bool :=
  match s with
  | EmptyString => false
  | String c s' => is_letter c && all_chars (fun c => is_letter c || is_digit c) s'
  end.

Definition read_name (d : pydict) : result string :=
  name <- required_str "name" d ;;
  if matches_name_pattern name then Ok name
  else Raise (ValidationError
                (repr_str name ++ " does not match " ++ repr_str name_pattern) ["name"]).

Definition read_query_comment (d : pydict) : result cfg_query_comment :=
  match dict_get "query-comment" d with
  | None => Ok QCNoValue
  | Some VNone => Ok QCNone
  | Some (VStr s) => Ok (QCStr s)
  | Some (VDict m) =>
      c <- required_str "comment" m ;;
      Ok (QCObject {| comment := c;
                      append := match dict_get "append" m with
                                | Some (VBool b) => b
                                | _ => false
                                end |})
  | Some _ => Raise (not_of_type "query-comment" "object")
  end.

Definition from_dict (v : value) : result ProjectContract :=
  match v with
  | VDict d =>
      name <- read_name d ;;
      version <- read_version d ;;
      project_root <- optional_str true "project-root" d ;;
      profile <- optional_str true "profile" d ;;
      source_paths <- optional_str_list "source-paths" d ;;
      macro_paths <- optional_str_list "macro-paths" d ;;
      data_paths <- optional_str_list "data-paths" d ;;
      test_paths <- optional_str_list "test-paths" d ;;
      analysis_paths <- optional_str_list "analysis-paths" d ;;
      docs_paths <- optional_str_list "docs-paths" d ;;
      asset_paths <- optional_str_list "asset-paths" d ;;
      target_path <- optional_str true "target-path" d ;;
      snapshot_paths <- optional_str_list "snapshot-paths" d ;;
      clean_targets <- optional_str_list "clean-targets" d ;;
      log_path <- optional_str true "log-path" d ;;
      modules_path <- optional_str true "modules-path" d ;;
      quoting <- optional_dict "quoting" d ;;
      on_run_start <- optional_str_list "on-run-start" d ;;
      on_run_end <- optional_str_list "on-run-end" d ;;
      models <- dict_or_empty "models" d ;;
      seeds <- dict_or_empty "seeds" d ;;
      snapshots <- dict_or_empty "snapshots" d ;;
      sources <- dict_or_empty "sources" d ;;
      vars <- optional_dict "vars" d ;;
      query_comment <- read_query_comment d ;;
      config_version <- read_config_version d ;;
      Ok {| cfg_name := name;
            cfg_version := version;
            cfg_project_root := project_root;
            cfg_profile := profile;
            cfg_source_paths := source_paths;
            cfg_macro_paths := macro_paths;
            cfg_data_paths := data_paths;
            cfg_test_paths := test_paths;
            cfg_analysis_paths := analysis_paths;
            cfg_docs_paths := docs_paths;
            cfg_asset_paths := asset_paths;
            cfg_target_path := target_path;
            cfg_snapshot_paths := snapshot_paths;
            cfg_clean_targets := clean_targets;
            cfg_log_path := log_path;
            cfg_modules_path := modules_path;
            cfg_quoting := quoting;
            cfg_on_run_start := on_run_start;
            cfg_on_run_end := on_run_end;
            cfg_models := models;
            cfg_seeds := seeds;
            cfg_snapshots := snapshots;
            cfg_sources := sources;
            cfg_vars := vars;
            cfg_query_comment_ := query_comment;
            cfg_config_version := config_version |}
  | _ => Raise (ValidationError "value is not of type 'object'" [])
  end.

(** ['at path {}: {}'] for a validation error, [str(exc)] otherwise. *)
Definition error_message (e : exn) : string :=
  match e with
  | ValidationError message path =>
      "at path [" ++ String.concat "][" (map repr_str path) ++ "]: " ++ message
  | DbtProjectError msg _ _ | RecursionException msg | SemverException msg
  | RuntimeException msg | TypeError msg | OtherException msg => msg
  end.

Definition packages_from_dict (v : value) : result (list value) :=
  match v with
  | VDict d =>
      match dict_get "packages" d with
      | Some (VList l) => Ok l
      | Some _ => Raise (not_of_type "packages" "array")
      | None => Raise (ValidationError "'packages' is a required property" [])
      end
  | _ => Raise (ValidationError "value is not of type 'object'" [])
  end.

Definition selectors_from_data (v : value) : result pydict :=
  match v with
  | VNone => Ok []
  | VDict d => Ok d
  | _ => Raise (ValidationError "value is not of type 'object'" [])
  end.

Definition disk : Type := list (string * value).

Fixpoint read_disk (files : disk) (path : string) : result value :=
  match files with
  | [] => Raise (OtherException ("No such file: " ++ path))
  | (p, doc) :: rest => if String.eqb p path then Ok doc else read_disk rest path
  end.

(** Only whole numbers are printed; this stand-in does not format
    fractions. *)
Definition print_float (f : spec_float) : string :=
  match f with
  | S754_zero s => if s then "-0.0" else "0.0"
  | S754_infinity s => if s then "-inf" else "inf"
  | S754_nan => "nan"
  | S754_finite s m e =>
      match float_number f with
      | NumQ (Qmake n 1) => str_int n ++ ".0"
      | _ => if (0 <=? e)%Z then str_int ((if s then -1 else 1) * Zpos m * 2 ^ e) ++ ".0"
             else "<float>"
      end
  end.

#[export] Instance externals (files : disk) : Externals := {|
  from_version_string := Semver.from_version_string;
  to_version_string := Semver.to_version_string;
  versions_compatible := Semver.versions_compatible;
  get_installed_version := Semver.exactly 0 18 1;
  ProjectContract_from_dict := from_dict;
  validator_error_message := error_message;
  Quoting_to_dict := fun q => q;
  QueryComment_new := fun c =>
    {| comment := match c with Some s => s | None => "default" end; append := false |};
  QueryComment_bool := fun _ => true;
  QueryComment_to_dict := fun q =>
    VDict [("comment", VStr (comment q)); ("append", VBool (append q))];
  NoValue_bool := true;
  PackageConfig_from_dict := packages_from_dict;
  PackageConfig_to_dict := fun l => [("packages", VList l)];
  selector_config_from_data := selectors_from_data;
  selector_data_from_root := fun _ => Ok VNone;
  resolve_path_from_base := fun p base => (base ++ "/" ++ p)%string;
  path_exists := fun p => existsb (fun kv => String.eqb (fst kv) p) files;
  load_file_contents := fun p => Ok p;
  load_yaml_text := read_disk files;
  os_path_normpath := fun p => p;
  os_path_join := fun a b => (a ++ "/" ++ b)%string;
  float_repr := print_float;
  recursion_limit := 1000
|}.

End Reference.

(** ** Vocabulary of the statements *)

(** [x] occurs in [s] as a contiguous piece. *)
Definition occurs_in (x s : string) : Prop :=
  exists before after : string, s = (before ++ x ++ after)%string.

(** [str(exc)] *)
Definition exn_message (e : exn) : string :=
  match e with
  | DbtProjectError msg _ _ | ValidationError msg _ | RecursionException msg
  | SemverException msg | RuntimeException msg | TypeError msg
  | OtherException msg => msg
  end.

(** The rules of preprocessing, as the specification words them: a null
    becomes an empty sequence and a string a one-element sequence; a null
    becomes an empty mapping. *)
Definition hook_rule (v : value) : value :=
  match v with
  | VNone => VList []
  | VStr s => VList [VStr s]
  | _ => v
  end.

Definition mapping_rule (v : value) : value :=
  match v with
  | VNone => VDict []
  | _ => v
  end.

Definition one_of (keys : list string) (k : string) : bool :=
  existsb (String.eqb k) keys.

(** An entry [key] of the per-resource-type block [block]. *)
Definition block_entry (block key : string) (v : value) : value :=
  if String.eqb key "vars" then mapping_rule v
  else if one_of ["pre-hook"; "post-hook"] key then hook_rule v
  else if String.eqb block "seeds" && String.eqb key "column_types" then mapping_rule v
  else v.

(** An entry [key] of the project mapping. *)
Definition top_entry (key : string) (v : value) : value :=
  if one_of ["on-run-start"; "on-run-end"] key then hook_rule v
  else if one_of ["models"; "seeds"; "snapshots"] key then
    match v with
    | VNone => VDict []
    | VDict block =>
        VDict (map (fun kv => (fst kv, block_entry key (fst kv) (snd kv))) block)
    | _ => v
    end
  else v.

Definition preprocessed (project_dict : pydict) : pydict :=
  map (fun kv => (fst kv, top_entry (fst kv) (snd kv))) project_dict.

(** A path is quiet when no rule is registered at it or below it. *)
Definition quiet (kp : keypath) : Prop :=
  forall (ext : keypath) (w : value), converter w (kp ++ ext) = w.

(** The overlay reads, name by name, as the mapping [d] does. *)
Definition resolves_to (m : MultiDict) (d : pydict) : Prop :=
  forall name : string, MultiDict_getitem m name = entry_getitem name (VDict d).

Definition is_DbtProjectError (e : exn) : bool :=
  match e with
  | DbtProjectError _ _ _ => true
  | _ => false
  end.

(** The collaborators with another installed version. *)
Definition with_installed `{T : ExternalTypes} (E : Externals) (installed : VersionSpecifier)
    : Externals :=
  {| from_version_string := from_version_string;
     to_version_string := to_version_string;
     versions_compatible := versions_compatible;
     get_installed_version := installed;
     ProjectContract_from_dict := ProjectContract_from_dict;
     validator_error_message := validator_error_message;
     Quoting_to_dict := Quoting_to_dict;
     QueryComment_new := QueryComment_new;
     QueryComment_bool := QueryComment_bool;
     QueryComment_to_dict := QueryComment_to_dict;
     NoValue_bool := NoValue_bool;
     PackageConfig_from_dict := PackageConfig_from_dict;
     PackageConfig_to_dict := PackageConfig_to_dict;
     selector_config_from_data := selector_config_from_data;
     selector_data_from_root := selector_data_from_root;
     resolve_path_from_base := resolve_path_from_base;
     path_exists := path_exists;
     load_file_contents := load_file_contents;
     load_yaml_text := load_yaml_text;
     os_path_normpath := os_path_normpath;
     os_path_join := os_path_join;
     float_repr := float_repr;
     recursion_limit := recursion_limit |}.

Section Vocabulary.
Context `{E : Externals}.

(** The two errors of the version gate. *)
Definition impossible_version_error (required : list VersionSpecifier) (name : string)
    : exn :=
  DbtProjectError
    (IMPOSSIBLE_VERSION_ERROR name (str_list_of_str (map to_version_string required)))
    None None.

Definition invalid_version_error (installed : VersionSpecifier)
    (required : list VersionSpecifier) (name : string) : exn :=
  DbtProjectError
    (INVALID_VERSION_ERROR name (to_version_string installed)
       (str_list_of_str (map to_version_string required)))
    None None.

(** The error [from_project_config] raises for a self-referential input. *)
Definition cycle_detected (project_dict : pydict) : exn :=
  DbtProjectError "Cycle detected: Project input has a reference to itself"
    None (Some (VDict project_dict)).

(** The error both the schema check of the input and the self-check of the
    assembled project raise for a validator failure [e]. *)
Definition schema_error (e : exn) : exn :=
  DbtProjectError (validator_error_message e) None None.

(** The first step of [from_project_config]: the required versions, read
    from the mapping unless the caller hands them over. *)
Definition required_version_stage (project_dict : pydict)
    (required_dbt_version : option (list VersionSpecifier))
    : result (list VersionSpecifier) :=
  match required_dbt_version with
  | None => _get_required_version project_dict false
  | Some v => Ok v
  end.

(** The project [from_project_config] assembles from the checked contract
    and the parsed collaborator values, before it validates it. *)
Definition assembled (cfg : ProjectContract) (root : string)
    (required : list VersionSpecifier) (pkgs : PackageConfig) (sels : SelectorConfig)
    : Project :=
  let source_paths := value_or (cfg_source_paths cfg) ["models"] in
  let macro_paths := value_or (cfg_macro_paths cfg) ["macros"] in
  let data_paths := value_or (cfg_data_paths cfg) ["data"] in
  let analysis_paths := value_or (cfg_analysis_paths cfg) [] in
  let snapshot_paths := value_or (cfg_snapshot_paths cfg) ["snapshots"] in
  let target_path := value_or (cfg_target_path cfg) "target" in
  {| project_name := cfg_name cfg;
     version := cfg_version cfg;
     project_root := root;
     profile_name := cfg_profile cfg;
     source_paths := source_paths;
     macro_paths := macro_paths;
     data_paths := data_paths;
     test_paths := value_or (cfg_test_paths cfg) ["test"];
     analysis_paths := analysis_paths;
     docs_paths :=
       value_or (cfg_docs_paths cfg)
         (_all_source_paths source_paths data_paths snapshot_paths analysis_paths
            macro_paths);
     asset_paths := value_or (cfg_asset_paths cfg) [];
     target_path := target_path;
     snapshot_paths := snapshot_paths;
     clean_targets := value_or (cfg_clean_targets cfg) [target_path];
     log_path := value_or (cfg_log_path cfg) "logs";
     modules_path := value_or (cfg_modules_path cfg) "dbt_modules";
     quoting := match cfg_quoting cfg with
                | Some q => Quoting_to_dict q
                | None => []
                end;
     models := cfg_models cfg;
     on_run_start := value_or (cfg_on_run_start cfg) [];
     on_run_end := value_or (cfg_on_run_end cfg) [];
     seeds := cfg_seeds cfg;
     snapshots := cfg_snapshots cfg;
     sources := cfg_sources cfg;
     vars := {| vars_of := match cfg_vars cfg with
                           | None => []
                           | Some d => d
                           end |};
     dbt_version := required;
     packages := pkgs;
     selectors := sels;
     query_comment := _query_comment_from_cfg (cfg_query_comment_ cfg);
     config_version := cfg_config_version cfg |}.

(** The error of the config-version check inside [from_project_config]. *)
Definition unsupported_config_version (cfg : ProjectContract) : exn :=
  ValidationError ("Got unsupported config_version=" ++ py_str (cfg_config_version cfg)) [].

End Vocabulary.

(** ** Sample inputs *)
Module Inputs.
Import Reference.

(** The least a project mapping must hold to resolve. *)
Definition minimal_project : pydict :=
  [("name", VStr "p"); ("version", VStr "1.0"); ("project-root", VStr "/r");
   ("config-version", VInt 2)].

(** A config-version 1 project with and without a project root. *)
Definition v1_project : pydict :=
  [("name", VStr "p"); ("version", VStr "1.0"); ("project-root", VStr "/r");
   ("config-version", VInt 1)].

Definition rootless_v1_project : pydict :=
  [("name", VStr "p"); ("version", VStr "1.0"); ("config-version", VInt 1)].

(** A config-version 1 project whose required version does not parse. *)
Definition bogus_version_v1_project : pydict :=
  v1_project ++ [("require-dbt-version", VStr "bogus")].

(** A project mapping whose name is not an identifier. *)
Definition misnamed_mapping : pydict :=
  [("name", VStr "my-project"); ("version", VStr "1.0"); ("project-root", VStr "/r");
   ("config-version", VInt 2)].

(** The binary64 float 2.0, and a project file that gives it as its
    config version. *)
Definition float_two : spec_float := S754_finite false 4503599627370496 (-51).

Definition float_two_project : pydict :=
  [("name", VStr "p"); ("config-version", VFloat float_two 0)].

(** A project mapping that resolves, with that float as its config
    version. *)
Definition float_two_mapping : pydict :=
  [("name", VStr "p"); ("version", VStr "1.0"); ("project-root", VStr "/r");
   ("config-version", VFloat float_two 0)].

(** A project whose [models] block holds itself. *)
Definition self_referential_project : pydict :=
  minimal_project ++ [("models", VDict [("again", VAlias 0)])].

(** A project mapping with nulls and bare strings where the loader wants
    containers. *)
Definition unprocessed_project : pydict :=
  [("on-run-start", VStr "grant select"); ("on-run-end", VNone);
   ("models", VNone);
   ("seeds", VDict [("vars", VNone); ("pre-hook", VStr "s"); ("column_types", VNone);
                    ("quote_columns", VBool true)]);
   ("snapshots", VDict [("column_types", VNone); ("post-hook", VList [VStr "t"])]);
   ("sources", VNone); ("name", VStr "p")].

(** Global variables [a] and [b] and a bucket for the package [pkg]. *)
Definition scoped_vars : pydict :=
  [("a", VInt 1); ("b", VInt 2); ("pkg", VDict [("b", VInt 9)])].

(** A resolved project, and the same project with its modules directory
    moved. *)
Definition sample_project : @Project Reference.types :=
  {| project_name := "p";
     version := VStr "1.0";
     project_root := "/r";
     profile_name := Some "dev";
     source_paths := ["models"];
     macro_paths := ["macros"];
     data_paths := ["data"];
     test_paths := ["test"];
     analysis_paths := [];
     docs_paths := ["models"; "data"; "snapshots"; "macros"];
     asset_paths := [];
     target_path := "target";
     snapshot_paths := ["snapshots"];
     clean_targets := ["target"];
     log_path := "logs";
     modules_path := "dbt_modules";
     quoting := [];
     models := [];
     on_run_start := [];
     on_run_end := [];
     seeds := [];
     snapshots := [];
     sources := [];
     vars := {| vars_of := [] |};
     dbt_version := [];
     packages := [];
     selectors := [];
     query_comment := {| Reference.comment := "run by dbt"; Reference.append := false |};
     config_version := VInt 2 |}.

Definition with_modules_path `{ExternalTypes} (p : Project) (dir : string) : Project :=
  {| project_name := project_name p;
     version := version p;
     project_root := project_root p;
     profile_name := profile_name p;
     source_paths := source_paths p;
     macro_paths := macro_paths p;
     data_paths := data_paths p;
     test_paths := test_paths p;
     analysis_paths := analysis_paths p;
     docs_paths := docs_paths p;
     asset_paths := asset_paths p;
     target_path := target_path p;
     snapshot_paths := snapshot_paths p;
     clean_targets := clean_targets p;
     log_path := log_path p;
     modules_path := dir;
     quoting := quoting p;
     models := models p;
     on_run_start := on_run_start p;
     on_run_end := on_run_end p;
     seeds := seeds p;
     snapshots := snapshots p;
     sources := sources p;
     vars := vars p;
     dbt_version := dbt_version p;
     packages := packages p;
     selectors := selectors p;
     query_comment := query_comment p;
     config_version := config_version p |}.

Definition with_project_name `{ExternalTypes} (p : Project) (name : string) : Project :=
  {| project_name := name;
     version := version p;
     project_root := project_root p;
     profile_name := profile_name p;
     source_paths := source_paths p;
     macro_paths := macro_paths p;
     data_paths := data_paths p;
     test_paths := test_paths p;
     analysis_paths := analysis_paths p;
     docs_paths := docs_paths p;
     asset_paths := asset_paths p;
     target_path := target_path p;
     snapshot_paths := snapshot_paths p;
     clean_targets := clean_targets p;
     log_path := log_path p;
     modules_path := modules_path p;
     quoting := quoting p;
     models := models p;
     on_run_start := on_run_start p;
     on_run_end := on_run_end p;
     seeds := seeds p;
     snapshots := snapshots p;
     sources := sources p;
     vars := vars p;
     dbt_version := dbt_version p;
     packages := packages p;
     selectors := selectors p;
     query_comment := query_comment p;
     config_version := config_version p |}.

Definition with_version `{ExternalTypes} (p : Project) (v : value) : Project :=
  {| project_name := project_name p;
     version := v;
     project_root := project_root p;
     profile_name := profile_name p;
     source_paths := source_paths p;
     macro_paths := macro_paths p;
     data_paths := data_paths p;
     test_paths := test_paths p;
     analysis_paths := analysis_paths p;
     docs_paths := docs_paths p;
     asset_paths := asset_paths p;
     target_path := target_path p;
     snapshot_paths := snapshot_paths p;
     clean_targets := clean_targets p;
     log_path := log_path p;
     modules_path := modules_path p;
     quoting := quoting p;
     models := models p;
     on_run_start := on_run_start p;
     on_run_end := on_run_end p;
     seeds := seeds p;
     snapshots := snapshots p;
     sources := sources p;
     vars := vars p;
     dbt_version := dbt_version p;
     packages := packages p;
     selectors := selectors p;
     query_comment := query_comment p;
     config_version := config_version p |}.

(** A class that derives from [Project], as the runtime configuration of
    the package does. *)
Definition DerivedClass : pyclass :=
  {| cls_name := "RuntimeConfig"; cls_ancestors := ["Project"; "object"] |}.

(** The resolved project as an instance of [Project] and of the derived
    class. *)
Definition as_project (p : @Project Reference.types) : @instance Reference.types :=
  {| class_of := ProjectClass; state := p |}.

Definition as_derived (p : @Project Reference.types) : @instance Reference.types :=
  {| class_of := DerivedClass; state := p |}.

(** A project whose version is the NaN object [obj]. *)
Definition nan_project (obj : nat) : @Project Reference.types :=
  with_version sample_project (VFloat S754_nan obj).

(** The resolved project under a name that is not an identifier. *)
Definition misnamed_project : @Project Reference.types :=
  with_project_name sample_project "my-project".

Definition node_of (package : string) : IsFQNResource :=
  {| fqn := [package; "model"]; resource_type := "model"; package_name := package |}.

End Inputs.

(** ** Selectors

    [SelectorConfig] is a mapping from selector names to selection specs;
    the project reads it through membership, indexing and the list of its
    names. *)
Section Selectors.
Context `{T : ExternalTypes}.
Variable SelectionSpec : Type.
Variable selector_lookup : SelectorConfig -> string -> option SelectionSpec.
Variable selector_names : SelectorConfig -> list string.

Definition get_selector (self : Project) (name : string) : result SelectionSpec :=
  match selector_lookup (selectors self) name with
  | None =>
      Raise (RuntimeException
               ("Could not find selector named " ++ name ++ ", expected one of " ++
                str_list_of_str (selector_names (selectors self))))
  | Some spec => Ok spec
  end.

End Selectors.

(** ** More vocabulary *)

(** The keys [to_project_config] writes, in the order it writes them. *)
Definition canonical_keys : list string :=
  ["name"; "version"; "project-root"; "profile"; "source-paths"; "macro-paths";
   "data-paths"; "test-paths"; "analysis-paths"; "docs-paths"; "asset-paths";
   "target-path"; "snapshot-paths"; "clean-targets"; "log-path"; "quoting"; "models";
   "on-run-start"; "on-run-end"; "seeds"; "snapshots"; "sources"; "vars";
   "require-dbt-version"; "config-version"].

Fixpoint distinct (keys : list string) : bool :=
  match keys with
  | [] => true
  | k :: rest => negb (existsb (String.eqb k) rest) && distinct rest
  end.

(** A value as the interpreter can hold it: no mapping binds a key twice,
    and nothing contains itself. *)
Fixpoint well_formed (v : value) : bool :=
  match v with
  | VList l => forallb well_formed l
  | VDict d => distinct (dict_keys d) && forallb (fun kv => well_formed (snd kv)) d
  | VAlias _ => false
  | _ => true
  end.

(** Neither null nor a bare string. *)
Definition is_container_or_scalar (v : value) : bool :=
  match v with
  | VNone | VStr _ => false
  | _ => true
  end.

Definition not_null (v : value) : bool :=
  match v with
  | VNone => false
  | _ => true
  end.

Definition with_selectors `{ExternalTypes} (p : Project) (sels : SelectorConfig) : Project :=
  {| project_name := project_name p;
     version := version p;
     project_root := project_root p;
     profile_name := profile_name p;
     source_paths := source_paths p;
     macro_paths := macro_paths p;
     data_paths := data_paths p;
     test_paths := test_paths p;
     analysis_paths := analysis_paths p;
     docs_paths := docs_paths p;
     asset_paths := asset_paths p;
     target_path := target_path p;
     snapshot_paths := snapshot_paths p;
     clean_targets := clean_targets p;
     log_path := log_path p;
     modules_path := modules_path p;
     quoting := quoting p;
     models := models p;
     on_run_start := on_run_start p;
     on_run_end := on_run_end p;
     seeds := seeds p;
     snapshots := snapshots p;
     sources := sources p;
     vars := vars p;
     dbt_version := dbt_version p;
     packages := packages p;
     selectors := sels;
     query_comment := query_comment p;
     config_version := config_version p |}.

(** A renderer that passes every tree through, for running the loader. *)
Definition plain_renderer : DbtProjectYamlRenderer :=
  {| renderer_version := VNone;
     render_data := fun _ v => Ok v;
     package_render_data := fun _ v => Ok v;
     selector_render_data := fun _ v => Ok v |}.

(** * Properties *)

Import Reference.
Import Inputs.

(** ** Text lemmas *)

Lemma append_assoc_str (a b c : string) : ((a ++ b) ++ c = a ++ (b ++ c))%string.
Proof. induction a as [|x a IH]; simpl; [reflexivity | now rewrite IH]. Qed.

Lemma append_empty_r (a : string) : (a ++ "")%string = a.
Proof. induction a as [|x a IH]; simpl; [reflexivity | now rewrite IH]. Qed.

Lemma occurs_in_refl (x : string) : occurs_in x x.
Proof. exists "", "". simpl. now rewrite append_empty_r. Qed.

Lemma occurs_in_append_l (x s t : string) : occurs_in x s -> occurs_in x (s ++ t)%string.
Proof.
  intros (b & a & ->). exists b, (a ++ t)%string.
  now rewrite !append_assoc_str.
Qed.

Lemma occurs_in_append_r (x s t : string) : occurs_in x t -> occurs_in x (s ++ t)%string.
Proof.
  intros (b & a & ->). exists (s ++ b)%string, a.
  now rewrite !append_assoc_str.
Qed.

Lemma occurs_in_trans (x y s : string) : occurs_in x y -> occurs_in y s -> occurs_in x s.
Proof.
  intros (b & a & ->) (b' & a' & ->).
  exists (b' ++ b)%string, (a ++ a')%string. now rewrite !append_assoc_str.
Qed.

Lemma occurs_in_concat (sep x : string) (l : list string) :
  In x l -> occurs_in x (String.concat sep l).
Proof.
  induction l as [|y l IH]; simpl; [tauto|].
  intros [-> | Hin].
  - destruct l; [apply occurs_in_refl | apply occurs_in_append_l, occurs_in_refl].
  - destruct l as [|z l]; [destruct Hin|].
    apply occurs_in_append_r, occurs_in_append_r, IH, Hin.
Qed.

Lemma occurs_in_str_list (x : string) (xs : list string) :
  In x xs -> occurs_in (repr_str x) (str_list_of_str xs).
Proof.
  intros Hin. unfold str_list_of_str, join_comma.
  apply occurs_in_append_r, occurs_in_append_l, occurs_in_concat, in_map, Hin.
Qed.

Create HintDb occurs.
#[local] Hint Resolve occurs_in_refl occurs_in_append_l occurs_in_append_r : occurs.

Lemma impossible_names (package spec : string) :
  occurs_in package (IMPOSSIBLE_VERSION_ERROR package spec) /\
  occurs_in spec (IMPOSSIBLE_VERSION_ERROR package spec).
Proof. unfold IMPOSSIBLE_VERSION_ERROR. split; auto 12 with occurs. Qed.

Lemma invalid_names (package installed spec : string) :
  occurs_in package (INVALID_VERSION_ERROR package installed spec) /\
  occurs_in installed (INVALID_VERSION_ERROR package installed spec) /\
  occurs_in spec (INVALID_VERSION_ERROR package installed spec).
Proof. unfold INVALID_VERSION_ERROR. repeat split; auto 12 with occurs. Qed.

Lemma version_errors_differ (p q installed spec spec' : string) :
  IMPOSSIBLE_VERSION_ERROR p spec <> INVALID_VERSION_ERROR q installed spec'.
Proof. unfold IMPOSSIBLE_VERSION_ERROR, INVALID_VERSION_ERROR. simpl. discriminate. Qed.

Section VersionGate.
Context `{E : Externals}.

(** C1. [validate_version] checks in two stages. When the required
    specifiers are not compatible with one another it raises the
    impossible-version error, which names the project and every constraint
    string, and does so whatever version is installed. Otherwise, when the
    installed version is not compatible with them, it raises the
    incompatible-version error, which names the installed version and the
    required list and is never the same error as the first. Otherwise it
    returns. *)
Theorem validate_version_two_stage (required : list VersionSpecifier) (name : string) :
  (versions_compatible required = false ->
     (forall installed,
        validate_version (E := with_installed E installed) required name
        = Raise (impossible_version_error required name)) /\
     validate_version required name = Raise (impossible_version_error required name)) /\
  (versions_compatible required = true ->
   versions_compatible (get_installed_version :: required) = false ->
     validate_version required name
     = Raise (invalid_version_error get_installed_version required name)) /\
  (versions_compatible required = true ->
   versions_compatible (get_installed_version :: required) = true ->
     validate_version required name = Ok tt) /\
  (forall msg path project,
     impossible_version_error required name = DbtProjectError msg path project ->
     occurs_in name msg /\
     forall x, In x required -> occurs_in (repr_str (to_version_string x)) msg) /\
  (forall msg path project,
     invalid_version_error get_installed_version required name
     = DbtProjectError msg path project ->
     occurs_in name msg /\
     occurs_in (to_version_string get_installed_version) msg /\
     occurs_in (str_list_of_str (map to_version_string required)) msg) /\
  (forall installed required' name',
     impossible_version_error required name
     <> invalid_version_error installed required' name').
Proof.
  unfold validate_version, impossible_version_error, invalid_version_error.
  split; [|split; [|split; [|split; [|split]]]].
  - intros H0. split; [intros installed; simpl|]; now rewrite H0.
  - intros H1 H2. now rewrite H1, H2.
  - intros H1 H2. now rewrite H1, H2.
  - intros msg path project H0. injection H0 as <- _ _. split.
    + apply impossible_names.
    + intros x Hx. eapply occurs_in_trans; [|apply impossible_names].
      apply occurs_in_str_list, in_map, Hx.
  - intros msg path project H0. injection H0 as <- _ _. apply invalid_names.
  - intros installed required' name' Heq.
    apply (f_equal exn_message) in Heq. cbn [exn_message] in Heq.
    exact (version_errors_differ _ _ _ _ _ Heq).
Qed.

End VersionGate.

(** The truth table of the version gate on the reference ranges: [>2.0.0]
    with [<1.0.0] can never be met, [>=1.0.0] rejects an installed 0.9.0 and
    accepts an installed 1.5.0. *)
Lemma validate_version_two_stage_witness :
  let R := Reference.externals [] in
  let gt2 := {| Semver.op := Semver.GT; Semver.ver := Semver.ver (Semver.exactly 2 0 0) |} in
  let lt1 := {| Semver.op := Semver.LT; Semver.ver := Semver.ver (Semver.exactly 1 0 0) |} in
  let ge1 := {| Semver.op := Semver.GE; Semver.ver := Semver.ver (Semver.exactly 1 0 0) |} in
  validate_version (E := with_installed R (Semver.exactly 0 9 0)) [gt2; lt1] "pkg"
  = Raise (impossible_version_error [gt2; lt1] "pkg") /\
  validate_version (E := with_installed R (Semver.exactly 0 9 0)) [ge1] "pkg"
  = Raise (invalid_version_error (E := R) (Semver.exactly 0 9 0) [ge1] "pkg") /\
  validate_version (E := with_installed R (Semver.exactly 1 5 0)) [ge1] "pkg" = Ok tt.
Proof.
  intros R gt2 lt1 ge1. split; [|split].
  - apply (proj1 (validate_version_two_stage (E := R) [gt2; lt1] "pkg")). reflexivity.
  - apply (proj1 (proj2 (validate_version_two_stage
                           (E := with_installed R (Semver.exactly 0 9 0)) [ge1] "pkg")));
      reflexivity.
  - apply (proj1 (proj2 (proj2 (validate_version_two_stage
                                  (E := with_installed R (Semver.exactly 1 5 0)) [ge1] "pkg"))));
      reflexivity.
Defined.

(** ** Results and handlers *)

Lemma bind_ok {A B : Type} (r : result A) (k : A -> result B) (b : B) :
  bind r k = Ok b -> exists a, r = Ok a /\ k a = Ok b.
Proof. destruct r as [a|e]; simpl; [eauto | discriminate]. Qed.

Lemma try_except_ok {A : Type} (r : result A) (h : exn -> option exn) (a : A) :
  try_except r h = Ok a -> r = Ok a.
Proof. destruct r as [x|e]; simpl; [auto | destruct (h e); discriminate]. Qed.

Lemma wrap_validation_error_ok `{E : Externals} {A : Type} (r : result A) (a : A) :
  wrap_validation_error r = Ok a -> r = Ok a.
Proof. apply try_except_ok. Qed.

(** ** The config-version gate of [partial_load] *)

Lemma int_equals_two (z : Z) : py_eq (VInt z) (VInt 2) = true <-> z = 2%Z.
Proof.
  cbn. rewrite Qeq_bool_iff. unfold Qeq. simpl. lia.
Qed.

(** What compares equal to 2: the integer 2 and the floats that denote 2. *)
Lemma equals_two_iff (v : value) :
  py_eq v (VInt 2) = true <->
  v = VInt 2 \/
  exists f obj,
    v = VFloat f obj /\ number_eqb (float_number f) (NumQ (inject_Z 2)) = true.
Proof.
  split.
  - destruct v as [|b|z|f obj| | | |]; try discriminate.
    + destruct b; discriminate.
    + intros Hz. apply int_equals_two in Hz. subst z. now left.
    + intros Hf. right. exists f, obj. split; [reflexivity | exact Hf].
  - intros [-> | (f & obj & -> & Hf)]; [reflexivity | exact Hf].
Qed.

Section ConfigVersionGate.
Context `{E : Externals}.

(** C2, as the code has it. [partial_load] reads ['config-version'] off
    the raw mapping, taking 1 when the key is absent. A value that does not
    compare equal to 2 raises the project error that names it and the path
    of the project file, and then [from_project_root] fails with that error
    whatever the renderer, which is never run. A value that compares equal
    to 2 yields the partial project carrying that value, the raw mapping,
    the name and the profile. The values that compare equal to 2 are the
    integer 2 and the floats that denote 2. *)
Theorem partial_load_config_version_gate
    (project_root : string) (verify_version : bool) (project_dict : pydict) :
  _raw_project_from (os_path_normpath project_root) = Ok project_dict ->
  let root := os_path_normpath project_root in
  let config_version := dict_get_default "config-version" (VInt 1) project_dict in
  (dict_get "config-version" project_dict = None -> config_version = VInt 1) /\
  (py_eq config_version (VInt 2) = false ->
     partial_load project_root verify_version
     = Raise (DbtProjectError
                ("Invalid config version: " ++ py_str config_version ++ ", expected 2")
                (Some (os_path_join root "dbt_project.yml")) None) /\
     (forall renderer,
        from_project_root project_root renderer verify_version
        = Raise (invalid_config_version config_version root)) /\
     occurs_in (py_str config_version)
       (exn_message (invalid_config_version config_version root))) /\
  (py_eq config_version (VInt 2) = true ->
     partial_load project_root verify_version
     = Ok {| pp_config_version := config_version;
             pp_profile_name := dict_get_default "profile" VNone project_dict;
             pp_project_name := dict_get_default "name" VNone project_dict;
             pp_project_root := root;
             pp_project_dict := project_dict;
             pp_verify_version := verify_version |}) /\
  (py_eq config_version (VInt 2) = true <->
   config_version = VInt 2 \/
   exists f obj, config_version = VFloat f obj /\
                 number_eqb (float_number f) (NumQ (inject_Z 2)) = true).
Proof.
  intros Hraw root config_version.
  split; [|split; [|split]].
  - intros Hnone. unfold config_version, dict_get_default. now rewrite Hnone.
  - intros Hne.
    assert (Hload : partial_load project_root verify_version
                    = Raise (invalid_config_version config_version root)).
    { unfold partial_load. fold root. unfold root at 1. rewrite Hraw. simpl.
      fold config_version. unfold py_ne. now rewrite Hne. }
    split; [exact Hload|split].
    + intros renderer. unfold from_project_root. now rewrite Hload.
    + unfold invalid_config_version. cbn [exn_message].
      apply occurs_in_append_r, occurs_in_append_l, occurs_in_refl.
  - intros Heq. unfold partial_load. fold root. unfold root at 1. rewrite Hraw. simpl.
    fold config_version. unfold py_ne. now rewrite Heq.
  - apply equals_two_iff.
Qed.

End ConfigVersionGate.

(** A project file whose [config-version] is the float 2.0 loads with
    that float as its config version: a value other than the integer 2
    passes the gate. *)
Lemma partial_load_float_two_passes :
  let E := externals [("/proj/dbt_project.yml", VDict float_two_project)] in
  dict_get "config-version" float_two_project = Some (VFloat float_two 0) /\
  VFloat float_two 0 <> VInt 2 /\
  partial_load "/proj" false
  = Ok {| pp_config_version := VFloat float_two 0;
          pp_profile_name := VNone;
          pp_project_name := VStr "p";
          pp_project_root := "/proj";
          pp_project_dict := float_two_project;
          pp_verify_version := false |}.
Proof. split; [reflexivity | split; [discriminate | vm_compute; reflexivity]]. Qed.

Lemma partial_load_config_version_gate_witness :
  let E := externals
             [("/one/dbt_project.yml", VDict [("name", VStr "p")]);
              ("/two/dbt_project.yml",
               VDict [("name", VStr "p"); ("profile", VStr "dev"); ("config-version", VInt 2)])] in
  partial_load "/one" false
  = Raise (DbtProjectError "Invalid config version: 1, expected 2"
             (Some "/one/dbt_project.yml") None) /\
  partial_load "/two" true
  = Ok {| pp_config_version := VInt 2;
          pp_profile_name := VStr "dev";
          pp_project_name := VStr "p";
          pp_project_root := "/two";
          pp_project_dict :=
            [("name", VStr "p"); ("profile", VStr "dev"); ("config-version", VInt 2)];
          pp_verify_version := true |}.
Proof.
  intros E. split.
  - apply (proj1 (proj1 (proj2 (partial_load_config_version_gate (E := E)
                                  "/one" false [("name", VStr "p")] eq_refl)) eq_refl)).
  - apply (proj1 (proj2 (proj2 (partial_load_config_version_gate (E := E) "/two" true
                                  [("name", VStr "p"); ("profile", VStr "dev");
                                   ("config-version", VInt 2)] eq_refl))) eq_refl).
Defined.

(** ** The stages of [from_project_config] *)

Section Assembly.
Context `{E : Externals}.

(** When every stage before the self-check passes, what is left is the
    self-check of the assembled project. *)
Lemma from_project_config_run
    (project_dict : pydict) (packages_dict selectors_dict : value)
    (required_dbt_version : option (list VersionSpecifier))
    (required : list VersionSpecifier) (project_dict' : value) (cfg : ProjectContract)
    (root : string) (pkgs : PackageConfig) (sels : SelectorConfig) :
  required_version_stage project_dict required_dbt_version = Ok required ->
  _preprocess project_dict = Ok project_dict' ->
  ProjectContract_from_dict project_dict' = Ok cfg ->
  cfg_project_root cfg = Some root ->
  py_eq (cfg_config_version cfg) (VInt 2) = true ->
  package_config_from_data packages_dict = Ok pkgs ->
  selector_config_from_data selectors_dict = Ok sels ->
  from_project_config project_dict packages_dict selectors_dict required_dbt_version
  = (validate (assembled cfg root required pkgs sels) ;;;
     Ok (assembled cfg root required pkgs sels)).
Proof.
  unfold required_version_stage, from_project_config, wrap_validation_error.
  intros H1 H2 H3 H4 H5 H6 H7.
  rewrite H1. cbn [bind]. rewrite H2. cbn [bind try_except].
  rewrite H3. cbn [bind try_except]. rewrite H4. cbn [bind].
  unfold py_ne. rewrite H5.
  cbn [bind negb]. rewrite H6. cbn [bind try_except].
  rewrite H7. cbn [bind try_except]. reflexivity.
Qed.

(** A project comes back only when every stage passed, and it is the
    assembled one. *)
Lemma from_project_config_ok
    (project_dict : pydict) (packages_dict selectors_dict : value)
    (required_dbt_version : option (list VersionSpecifier)) (p : Project) :
  from_project_config project_dict packages_dict selectors_dict required_dbt_version
  = Ok p ->
  exists required project_dict' cfg root pkgs sels,
    required_version_stage project_dict required_dbt_version = Ok required /\
    _preprocess project_dict = Ok project_dict' /\
    ProjectContract_from_dict project_dict' = Ok cfg /\
    cfg_project_root cfg = Some root /\
    py_eq (cfg_config_version cfg) (VInt 2) = true /\
    package_config_from_data packages_dict = Ok pkgs /\
    selector_config_from_data selectors_dict = Ok sels /\
    validate p = Ok tt /\
    p = assembled cfg root required pkgs sels.
Proof.
  unfold from_project_config. intros Hrun.
  apply bind_ok in Hrun. destruct Hrun as (required & Hreq & Hrun).
  apply bind_ok in Hrun. destruct Hrun as (d' & Hpre & Hrun). apply try_except_ok in Hpre.
  apply bind_ok in Hrun. destruct Hrun as (cfg & Hcfg & Hrun).
  apply wrap_validation_error_ok in Hcfg.
  apply bind_ok in Hrun. destruct Hrun as (root & Hroot & Hrun).
  destruct (cfg_project_root cfg) as [root'|] eqn:Hr; [|discriminate].
  injection Hroot as ->.
  apply bind_ok in Hrun. destruct Hrun as ([] & Hver & Hrun).
  unfold py_ne in Hver.
  destruct (py_eq (cfg_config_version cfg) (VInt 2)) eqn:Hv; [|discriminate].
  apply bind_ok in Hrun. destruct Hrun as (pkgs & Hpk & Hrun).
  apply wrap_validation_error_ok in Hpk.
  apply bind_ok in Hrun. destruct Hrun as (sels & Hsel & Hrun).
  apply wrap_validation_error_ok in Hsel.
  apply bind_ok in Hrun. destruct Hrun as ([] & Hval & Hrun).
  injection Hrun as <-.
  exists required, d', cfg, root, pkgs, sels.
  repeat (split; [assumption|]). reflexivity.
Qed.

(** C3. A project returned by [from_project_config] carries, for every
    optional field the checked contract leaves unset, the literal default:
    source-paths [models], macro-paths [macros], data-paths [data],
    test-paths [test], analysis-paths empty, snapshot-paths [snapshots],
    asset-paths empty, target-path target, log-path logs, on-run-start and
    on-run-end empty; clean-targets defaults to the one-element list of the
    resolved target-path, docs-paths to the resolved source, data, snapshot,
    analysis and macro paths in that order. A field the contract sets is
    kept. *)
Theorem from_project_config_defaults
    (project_dict : pydict) (packages_dict selectors_dict : value)
    (required_dbt_version : option (list VersionSpecifier)) (p : Project) :
  from_project_config project_dict packages_dict selectors_dict required_dbt_version
  = Ok p ->
  exists project_dict' cfg,
    _preprocess project_dict = Ok project_dict' /\
    ProjectContract_from_dict project_dict' = Ok cfg /\
    (cfg_source_paths cfg = None -> source_paths p = ["models"]) /\
    (cfg_macro_paths cfg = None -> macro_paths p = ["macros"]) /\
    (cfg_data_paths cfg = None -> data_paths p = ["data"]) /\
    (cfg_test_paths cfg = None -> test_paths p = ["test"]) /\
    (cfg_analysis_paths cfg = None -> analysis_paths p = []) /\
    (cfg_snapshot_paths cfg = None -> snapshot_paths p = ["snapshots"]) /\
    (cfg_asset_paths cfg = None -> asset_paths p = []) /\
    (cfg_target_path cfg = None -> target_path p = "target") /\
    (cfg_log_path cfg = None -> log_path p = "logs") /\
    (cfg_on_run_start cfg = None -> on_run_start p = []) /\
    (cfg_on_run_end cfg = None -> on_run_end p = []) /\
    (cfg_clean_targets cfg = None -> clean_targets p = [target_path p]) /\
    (cfg_docs_paths cfg = None ->
       docs_paths p = source_paths p ++ data_paths p ++ snapshot_paths p ++
                      analysis_paths p ++ macro_paths p) /\
    (forall l, cfg_source_paths cfg = Some l -> source_paths p = l) /\
    (forall l, cfg_macro_paths cfg = Some l -> macro_paths p = l) /\
    (forall l, cfg_data_paths cfg = Some l -> data_paths p = l) /\
    (forall l, cfg_test_paths cfg = Some l -> test_paths p = l) /\
    (forall l, cfg_analysis_paths cfg = Some l -> analysis_paths p = l) /\
    (forall l, cfg_snapshot_paths cfg = Some l -> snapshot_paths p = l) /\
    (forall l, cfg_asset_paths cfg = Some l -> asset_paths p = l) /\
    (forall s, cfg_target_path cfg = Some s -> target_path p = s) /\
    (forall s, cfg_log_path cfg = Some s -> log_path p = s) /\
    (forall l, cfg_on_run_start cfg = Some l -> on_run_start p = l) /\
    (forall l, cfg_on_run_end cfg = Some l -> on_run_end p = l) /\
    (forall l, cfg_clean_targets cfg = Some l -> clean_targets p = l) /\
    (forall l, cfg_docs_paths cfg = Some l -> docs_paths p = l).
Proof.
  intros Hrun. apply from_project_config_ok in Hrun.
  destruct Hrun as (required & d' & cfg & root & pkgs & sels & _ & Hpre & Hcfg & _ & _ & _ & _ & _ & ->).
  exists d', cfg. split; [exact Hpre|]. split; [exact Hcfg|].
  unfold assembled, _all_source_paths; cbn [source_paths macro_paths data_paths test_paths
    analysis_paths snapshot_paths asset_paths target_path log_path on_run_start on_run_end
    clean_targets docs_paths].
  repeat match goal with
         | |- _ /\ _ => split
         | |- forall _, _ = Some _ -> _ => let Hs := fresh in intros ? Hs; rewrite Hs; reflexivity
         | |- _ = None -> _ => let Hn := fresh in intros Hn; rewrite Hn; reflexivity
         end.
Qed.

(** *** What the traversal can raise *)

Lemma mapM_indexed_raise (f : nat -> value -> result value) (P : exn -> Prop) :
  (forall i v e, f i v = Raise e -> P e) ->
  forall l i e, mapM_indexed f i l = Raise e -> P e.
Proof.
  intros Hf l. induction l as [|v l IH]; intros i e; simpl; [discriminate|].
  destruct (f i v) as [y|e'] eqn:Hy; simpl.
  - destruct (mapM_indexed f (S i) l) as [ys|e''] eqn:Hys; simpl; [discriminate|].
    intros [= <-]. eapply IH, Hys.
  - intros [= <-]. eapply Hf, Hy.
Qed.

Lemma mapM_items_raise (f : string -> value -> result value) (P : exn -> Prop) :
  (forall k v e, f k v = Raise e -> P e) ->
  forall d e, mapM_items f d = Raise e -> P e.
Proof.
  intros Hf d. induction d as [|[k v] d IH]; intros e; simpl; [discriminate|].
  destruct (f k v) as [y|e'] eqn:Hy; simpl.
  - destruct (mapM_items f d) as [ys|e''] eqn:Hys; simpl; [discriminate|].
    intros [= <-]. apply IH. reflexivity.
  - intros [= <-]. eapply Hf, Hy.
Qed.

Lemma _deep_map_raise (func : value -> keypath -> value) (depth : nat) :
  forall v kp e, _deep_map depth func v kp = Raise e -> e = cycle_in_deep_map.
Proof.
  induction depth as [|depth IH]; intros v kp e; simpl.
  - now intros [= <-].
  - assert (Hnode :
      match func v kp with
      | VList l =>
          l' <- mapM_indexed
                  (fun idx v0 => _deep_map depth func v0 (kp ++ [KIdx idx])) 0 l ;;
          Ok (VList l')
      | VDict d =>
          d' <- mapM_items (fun k v0 => _deep_map depth func v0 (kp ++ [KStr k])) d ;;
          Ok (VDict d')
      | VAlias _ => Raise cycle_in_deep_map
      | atom => Ok atom
      end = Raise e -> e = cycle_in_deep_map).
    { destruct (func v kp) as [| | | | |l|d|up]; try discriminate.
      - destruct (mapM_indexed _ 0 l) as [l'|e'] eqn:Hl; simpl; [discriminate|].
        intros [= <-].
        eapply (mapM_indexed_raise _ (fun e => e = cycle_in_deep_map)); [|exact Hl].
        intros i w e0. apply IH.
      - destruct (mapM_items _ d) as [d'|e'] eqn:Hd; simpl; [discriminate|].
        intros [= <-].
        eapply (mapM_items_raise _ (fun e => e = cycle_in_deep_map)); [|exact Hd].
        intros k w e0. apply IH.
      - now intros [= <-]. }
    destruct v; try exact Hnode. now intros [= <-].
Qed.

Lemma _preprocess_raise (project_dict : pydict) (e : exn) :
  _preprocess project_dict = Raise e -> e = cycle_in_deep_map.
Proof. apply _deep_map_raise. Qed.

Lemma wrap_validation_error_raise {A : Type} (r : result A) (message : string)
    (path : list string) :
  wrap_validation_error r <> Raise (ValidationError message path).
Proof.
  unfold wrap_validation_error. destruct r as [a|e]; simpl; [discriminate|].
  destruct e; discriminate.
Qed.

(** C10, as the code has it. When the required versions are settled
    (handed in, or parsed from the mapping), the mapping passes
    preprocessing and the schema check, and the checked contract has a
    project root and a config version that does not compare equal to 2,
    [from_project_config] raises a bare validation error that names the
    version, not a project error. The failures of the schema check, of the
    packages, of the selectors and of the self-check never come out as
    validation errors: a validation error that leaves the routine is this
    one, or one raised while the required versions were read from the
    mapping. A failure to settle the required versions comes out as it
    is, before anything else is looked at. *)
Theorem from_project_config_bare_validation_error
    (project_dict : pydict) (packages_dict selectors_dict : value)
    (required_dbt_version : option (list VersionSpecifier)) :
  (forall required project_dict' cfg root,
     required_version_stage project_dict required_dbt_version = Ok required ->
     _preprocess project_dict = Ok project_dict' ->
     ProjectContract_from_dict project_dict' = Ok cfg ->
     cfg_project_root cfg = Some root ->
     py_eq (cfg_config_version cfg) (VInt 2) = false ->
     from_project_config project_dict packages_dict selectors_dict required_dbt_version
     = Raise (ValidationError
                ("Got unsupported config_version=" ++ py_str (cfg_config_version cfg)) []) /\
     is_DbtProjectError (unsupported_config_version cfg) = false) /\
  (forall message path,
     from_project_config project_dict packages_dict selectors_dict required_dbt_version
     = Raise (ValidationError message path) ->
     (required_dbt_version = None /\
      _get_required_version project_dict false = Raise (ValidationError message path)) \/
     (exists required project_dict' cfg root,
        required_version_stage project_dict required_dbt_version = Ok required /\
        _preprocess project_dict = Ok project_dict' /\
        ProjectContract_from_dict project_dict' = Ok cfg /\
        cfg_project_root cfg = Some root /\
        py_eq (cfg_config_version cfg) (VInt 2) = false /\
        ValidationError message path = unsupported_config_version cfg)) /\
  (forall e,
     required_version_stage project_dict required_dbt_version = Raise e ->
     from_project_config project_dict packages_dict selectors_dict required_dbt_version
     = Raise e).
Proof.
  split; [|split].
  - intros required d' cfg root H1 H2 H3 H4 H5. split; [|reflexivity].
    unfold required_version_stage in H1.
    unfold from_project_config, wrap_validation_error.
    rewrite H1. cbn [bind]. rewrite H2. cbn [bind try_except].
    rewrite H3. cbn [bind try_except]. rewrite H4. cbn [bind].
    unfold py_ne. rewrite H5. reflexivity.
  - intros message path. unfold from_project_config.
    fold (required_version_stage project_dict required_dbt_version).
    destruct (required_version_stage project_dict required_dbt_version)
      as [required|e0] eqn:Hreq; cbn [bind].
    2:{ intros [= ->]. left. unfold required_version_stage in Hreq.
        destruct required_dbt_version; [discriminate | auto]. }
    destruct (_preprocess project_dict) as [d'|e] eqn:Hpre; cbn [bind try_except].
    2:{ apply _preprocess_raise in Hpre. subst e. discriminate. }
    destruct (wrap_validation_error (ProjectContract_from_dict d')) as [cfg|e] eqn:Hcfg;
      cbn [bind].
    2:{ intros [= ->]. now apply wrap_validation_error_raise in Hcfg. }
    apply wrap_validation_error_ok in Hcfg.
    destruct (cfg_project_root cfg) as [root|] eqn:Hroot; cbn [bind]; [|discriminate].
    unfold py_ne.
    destruct (py_eq (cfg_config_version cfg) (VInt 2)) eqn:Hv; cbn [bind negb].
    + destruct (wrap_validation_error (package_config_from_data packages_dict))
        as [pkgs|e] eqn:Hpk; cbn [bind].
      2:{ intros [= ->]. now apply wrap_validation_error_raise in Hpk. }
      destruct (wrap_validation_error (selector_config_from_data selectors_dict))
        as [sels|e] eqn:Hsel; cbn [bind].
      2:{ intros [= ->]. now apply wrap_validation_error_raise in Hsel. }
      unfold validate.
      match goal with
      | |- context [wrap_validation_error ?r] =>
          destruct (wrap_validation_error r) as [ok|e] eqn:Hval; cbn [bind]
      end; [discriminate|].
      intros [= ->]. now apply wrap_validation_error_raise in Hval.
    + intros Heq. right. exists required, d', cfg, root.
      repeat (split; [assumption || reflexivity|]).
      unfold unsupported_config_version. congruence.
  - intros e Hreq. unfold from_project_config.
    fold (required_version_stage project_dict required_dbt_version).
    now rewrite Hreq.
Qed.

End Assembly.

Lemma from_project_config_defaults_witness :
  let E := externals [] in
  exists p,
    from_project_config minimal_project VNone VNone None = Ok p /\
    source_paths p = ["models"] /\ macro_paths p = ["macros"] /\
    data_paths p = ["data"] /\ test_paths p = ["test"] /\
    analysis_paths p = [] /\ snapshot_paths p = ["snapshots"] /\
    asset_paths p = [] /\ target_path p = "target" /\ log_path p = "logs" /\
    on_run_start p = [] /\ on_run_end p = [] /\
    clean_targets p = ["target"] /\
    docs_paths p = ["models"; "data"; "snapshots"; "macros"].
Proof.
  intros E.
  destruct (from_project_config minimal_project VNone VNone None) as [p|e] eqn:Hrun;
    [|vm_compute in Hrun; discriminate].
  exists p. split; [reflexivity|].
  destruct (from_project_config_defaults minimal_project VNone VNone None p Hrun)
    as (d' & cfg & Hpre & Hcfg & D).
  vm_compute in Hpre. injection Hpre as <-.
  vm_compute in Hcfg. injection Hcfg as <-.
  destruct D as (D1 & D2 & D3 & D4 & D5 & D6 & D7 & D8 & D9 & D10 & D11 & D12 & D13 & _).
  rewrite (D13 eq_refl), (D12 eq_refl), (D1 eq_refl), (D2 eq_refl), (D3 eq_refl),
    (D4 eq_refl), (D5 eq_refl), (D6 eq_refl), (D7 eq_refl), (D8 eq_refl), (D9 eq_refl),
    (D10 eq_refl), (D11 eq_refl).
  repeat split.
Defined.

(** Two mappings that pass the schema check with config version 1. The
    one without a project root raises the project error of the missing
    root; the one whose required version does not parse, called without
    versions, raises the project error of the version parser. Neither
    raises a validation error. *)
Lemma from_project_config_v1_project_errors :
  let E := externals [] in
  (exists project_dict' cfg,
     _preprocess rootless_v1_project = Ok project_dict' /\
     ProjectContract_from_dict project_dict' = Ok cfg /\
     py_eq (cfg_config_version cfg) (VInt 2) = false /\
     from_project_config rootless_v1_project VNone VNone (Some [])
     = Raise (DbtProjectError "cfg must have a project root!" None None)) /\
  (exists project_dict' cfg,
     _preprocess bogus_version_v1_project = Ok project_dict' /\
     ProjectContract_from_dict project_dict' = Ok cfg /\
     cfg_project_root cfg = Some "/r" /\
     py_eq (cfg_config_version cfg) (VInt 2) = false /\
     from_project_config bogus_version_v1_project VNone VNone None
     = Raise (DbtProjectError ("Could not parse version " ++ dquote ++ "bogus" ++ dquote)
                None None)).
Proof.
  intros E. split.
  - eexists. eexists.
    split; [vm_compute; reflexivity|].
    split; [vm_compute; reflexivity|].
    split; vm_compute; reflexivity.
  - eexists. eexists.
    split; [vm_compute; reflexivity|].
    split; [vm_compute; reflexivity|].
    split; [reflexivity|].
    split; vm_compute; reflexivity.
Qed.

Lemma from_project_config_bare_validation_error_witness :
  let E := externals [] in
  from_project_config v1_project VNone VNone (Some [])
  = Raise (ValidationError "Got unsupported config_version=1" []).
Proof.
  intros E.
  destruct (_preprocess v1_project) as [d'|e] eqn:Hpre; [|vm_compute in Hpre; discriminate].
  destruct (ProjectContract_from_dict d') as [cfg|e] eqn:Hcfg.
  2:{ vm_compute in Hpre. injection Hpre as <-. vm_compute in Hcfg. discriminate. }
  assert (Hroot : cfg_project_root cfg = Some "/r").
  { vm_compute in Hpre. injection Hpre as <-. vm_compute in Hcfg. now injection Hcfg as <-. }
  assert (Hv : cfg_config_version cfg = VInt 1).
  { vm_compute in Hpre. injection Hpre as <-. vm_compute in Hcfg. now injection Hcfg as <-. }
  assert (Hne : py_eq (cfg_config_version cfg) (VInt 2) = false) by (rewrite Hv; reflexivity).
  rewrite (proj1 (proj1 (from_project_config_bare_validation_error v1_project VNone VNone
                           (Some [])) [] d' cfg "/r" eq_refl Hpre Hcfg Hroot Hne)).
  rewrite Hv. reflexivity.
Defined.

Section SelfCheck.
Context `{E : Externals}.

(** C6, as the code has it. A project returned by [from_project_config]
    has passed the self-check: its serialised form validates against the
    contract. When the validator refuses the serialised form of a project
    with a validation error, [validate] raises the project error built
    from the validator's message; [from_project_config] lets that error
    out as it is; and it is the very error the routine raises when the
    input itself fails the schema check with the same validator error. *)
Theorem from_project_config_self_check
    (project_dict : pydict) (packages_dict selectors_dict : value)
    (required_dbt_version : option (list VersionSpecifier)) :
  (forall p,
     from_project_config project_dict packages_dict selectors_dict required_dbt_version
     = Ok p ->
     validate p = Ok tt /\
     exists cfg', ProjectContract_from_dict (VDict (to_project_config p false)) = Ok cfg') /\
  (forall p message path,
     ProjectContract_from_dict (VDict (to_project_config p false))
     = Raise (ValidationError message path) ->
     validate p = Raise (schema_error (ValidationError message path))) /\
  (forall required project_dict' cfg root pkgs sels message path,
     required_version_stage project_dict required_dbt_version = Ok required ->
     _preprocess project_dict = Ok project_dict' ->
     ProjectContract_from_dict project_dict' = Ok cfg ->
     cfg_project_root cfg = Some root ->
     py_eq (cfg_config_version cfg) (VInt 2) = true ->
     package_config_from_data packages_dict = Ok pkgs ->
     selector_config_from_data selectors_dict = Ok sels ->
     ProjectContract_from_dict
       (VDict (to_project_config (assembled cfg root required pkgs sels) false))
     = Raise (ValidationError message path) ->
     from_project_config project_dict packages_dict selectors_dict required_dbt_version
     = Raise (schema_error (ValidationError message path))) /\
  (forall required project_dict' message path,
     required_version_stage project_dict required_dbt_version = Ok required ->
     _preprocess project_dict = Ok project_dict' ->
     ProjectContract_from_dict project_dict' = Raise (ValidationError message path) ->
     from_project_config project_dict packages_dict selectors_dict required_dbt_version
     = Raise (schema_error (ValidationError message path))).
Proof.
  split; [|split; [|split]].
  - intros p Hrun. apply from_project_config_ok in Hrun.
    destruct Hrun as (_ & _ & _ & _ & _ & _ & _ & _ & _ & _ & _ & _ & _ & Hval & _).
    split; [exact Hval|].
    unfold validate in Hval. apply bind_ok in Hval. destruct Hval as (cfg' & Hcfg & _).
    apply wrap_validation_error_ok in Hcfg. eauto.
  - intros p message path Hfail.
    unfold validate, wrap_validation_error. rewrite Hfail. reflexivity.
  - intros required d' cfg root pkgs sels message path H1 H2 H3 H4 H5 H6 H7 Hfail.
    rewrite (from_project_config_run _ _ _ _ _ _ _ _ _ _ H1 H2 H3 H4 H5 H6 H7).
    unfold validate, wrap_validation_error. rewrite Hfail. reflexivity.
  - intros required d' message path H1 H2 Hfail.
    unfold required_version_stage in H1.
    unfold from_project_config, wrap_validation_error.
    rewrite H1. cbn [bind]. rewrite H2. cbn [bind try_except].
    rewrite Hfail. reflexivity.
Qed.

End SelfCheck.

(** A project whose name the contract does not take fails the self-check,
    and the error is the one [from_project_config] raises for a project
    mapping that gives that name and so fails the schema check: the same
    kind of error with the same message. *)
Lemma self_check_error_not_distinct :
  let E := externals [] in
  let shared :=
    DbtProjectError
      "at path ['name']: 'my-project' does not match '^[^\\d\\W]\\w*$'" None None in
  project_name misnamed_project = "my-project" /\
  validate misnamed_project = Raise shared /\
  (exists project_dict' message path,
     _preprocess misnamed_mapping = Ok project_dict' /\
     ProjectContract_from_dict project_dict' = Raise (ValidationError message path)) /\
  from_project_config misnamed_mapping VNone VNone (Some []) = Raise shared.
Proof.
  intros E shared. split; [reflexivity|]. split; [|split].
  - vm_compute. reflexivity.
  - eexists. eexists. eexists. split; vm_compute; reflexivity.
  - vm_compute. reflexivity.
Qed.

Lemma from_project_config_self_check_witness :
  let E := externals [] in
  let refused :=
    ValidationError
      (repr_str "my-project" ++ " does not match " ++ repr_str name_pattern) ["name"] in
  (exists p, from_project_config minimal_project VNone VNone None = Ok p /\
             validate p = Ok tt) /\
  validate misnamed_project = Raise (schema_error refused) /\
  from_project_config misnamed_mapping VNone VNone (Some []) = Raise (schema_error refused).
Proof.
  intros E refused.
  pose proof (from_project_config_self_check minimal_project VNone VNone None)
    as (Hreturned & _).
  pose proof (from_project_config_self_check misnamed_mapping VNone VNone (Some []))
    as (_ & Hvalidate & _ & Hschema).
  split; [|split].
  - destruct (from_project_config minimal_project VNone VNone None) as [p|e] eqn:Hrun;
      [|vm_compute in Hrun; discriminate].
    exists p. split; [reflexivity | apply (Hreturned p eq_refl)].
  - apply Hvalidate. vm_compute. reflexivity.
  - eapply Hschema.
    + reflexivity.
    + vm_compute; reflexivity.
    + vm_compute; reflexivity.
Defined.

(** ** Mappings *)

Lemma dict_get_set (k k' : string) (v : value) (d : pydict) :
  dict_get k (dict_set k' v d) = if String.eqb k k' then Some v else dict_get k d.
Proof.
  induction d as [|[k0 v0] d IH]; simpl.
  - reflexivity.
  - destruct (String.eqb_spec k' k0) as [->|Hne]; simpl.
    + destruct (String.eqb k k0); reflexivity.
    + rewrite IH. destruct (String.eqb_spec k k0) as [->|Hne'].
      * apply String.eqb_neq in Hne. rewrite String.eqb_sym in Hne. now rewrite Hne.
      * reflexivity.
Qed.

Lemma dict_get_none_keys (k : string) (d : pydict) :
  ~ In k (dict_keys d) -> dict_get k d = None.
Proof.
  induction d as [|[k0 v0] d IH]; simpl; [reflexivity|].
  intros Hnot. destruct (String.eqb_spec k k0) as [->|_]; [tauto|].
  apply IH. tauto.
Qed.

Lemma dict_get_update (k : string) (d e : pydict) :
  NoDup (dict_keys e) ->
  dict_get k (dict_update d e)
  = match dict_get k e with
    | Some v => Some v
    | None => dict_get k d
    end.
Proof.
  unfold dict_update. revert d.
  induction e as [|[k0 v0] e IH]; intros d Hnd; simpl; [reflexivity|].
  inversion Hnd as [|? ? Hnot Hnd']; subst.
  rewrite (IH _ Hnd'), dict_get_set.
  destruct (String.eqb_spec k k0) as [->|_]; [|reflexivity].
  now rewrite (dict_get_none_keys _ _ Hnot).
Qed.

Lemma dict_get_in (k : string) (v : value) (d : pydict) :
  dict_get k d = Some v -> In (k, v) d.
Proof.
  induction d as [|[k0 v0] d IH]; simpl; [discriminate|].
  destruct (String.eqb_spec k k0) as [->|_].
  - intros [= ->]. now left.
  - intros Hget. right. auto.
Qed.

(** ** Serialisation and equality *)

Section Canonical.
Context `{E : Externals}.

(** The serialised form does not depend on the modules directory. *)
Lemma to_project_config_modules_path (p : Project) (dir : string) (with_packages : bool) :
  to_project_config (with_modules_path p dir) with_packages
  = to_project_config p with_packages.
Proof. reflexivity. Qed.

(** C7, as the code has it. [to_project_config] puts each of these fields
    in the returned tree under its hyphenated key: name, version,
    project-root, profile, the path lists, target-path, clean-targets,
    log-path, quoting, models, seeds, snapshots, sources, the run hooks,
    vars, require-dbt-version and config-version. The query comment goes
    under [query-comment] only when the stored setting is truthy. With
    [with_packages], the serialised packages are merged over that tree, so
    a key they do not bind reads as without them and a key they bind reads
    as they set it. *)
Theorem to_project_config_fields (self : Project) :
  let tree := to_project_config self false in
  dict_get "name" tree = Some (VStr (project_name self)) /\
  dict_get "version" tree = Some (version self) /\
  dict_get "project-root" tree = Some (VStr (project_root self)) /\
  dict_get "profile" tree = Some (opt_str (profile_name self)) /\
  dict_get "source-paths" tree = Some (str_list (source_paths self)) /\
  dict_get "macro-paths" tree = Some (str_list (macro_paths self)) /\
  dict_get "data-paths" tree = Some (str_list (data_paths self)) /\
  dict_get "test-paths" tree = Some (str_list (test_paths self)) /\
  dict_get "analysis-paths" tree = Some (str_list (analysis_paths self)) /\
  dict_get "docs-paths" tree = Some (str_list (docs_paths self)) /\
  dict_get "asset-paths" tree = Some (str_list (asset_paths self)) /\
  dict_get "target-path" tree = Some (VStr (target_path self)) /\
  dict_get "snapshot-paths" tree = Some (str_list (snapshot_paths self)) /\
  dict_get "clean-targets" tree = Some (str_list (clean_targets self)) /\
  dict_get "log-path" tree = Some (VStr (log_path self)) /\
  dict_get "quoting" tree = Some (VDict (quoting self)) /\
  dict_get "models" tree = Some (VDict (models self)) /\
  dict_get "on-run-start" tree = Some (str_list (on_run_start self)) /\
  dict_get "on-run-end" tree = Some (str_list (on_run_end self)) /\
  dict_get "seeds" tree = Some (VDict (seeds self)) /\
  dict_get "snapshots" tree = Some (VDict (snapshots self)) /\
  dict_get "sources" tree = Some (VDict (sources self)) /\
  dict_get "vars" tree = Some (VDict (vars_of (vars self))) /\
  dict_get "require-dbt-version" tree
  = Some (str_list (map to_version_string (dbt_version self))) /\
  dict_get "config-version" tree = Some (config_version self) /\
  dict_get "query-comment" tree
  = (if QueryComment_bool (query_comment self)
     then Some (QueryComment_to_dict (query_comment self))
     else None) /\
  (forall key,
     NoDup (dict_keys (PackageConfig_to_dict (packages self))) ->
     dict_get key (to_project_config self true)
     = match dict_get key (PackageConfig_to_dict (packages self)) with
       | Some v => Some v
       | None => dict_get key tree
       end).
Proof.
  intros tree. subst tree. unfold to_project_config.
  destruct (QueryComment_bool (query_comment self));
    repeat (split; [reflexivity|]);
    intros key Hnd; apply dict_get_update, Hnd.
Qed.

End Canonical.

(** Two projects that differ in their modules directory serialise to the
    same tree, with and without packages, and no key of that tree holds the
    directory. *)
Lemma to_project_config_drops_modules_path :
  let E := externals [] in
  let moved := with_modules_path sample_project "elsewhere" in
  modules_path sample_project <> modules_path moved /\
  (forall with_packages,
     to_project_config sample_project with_packages
     = to_project_config moved with_packages) /\
  (forall with_packages key,
     dict_get key (to_project_config sample_project with_packages)
     <> Some (VStr (modules_path sample_project))).
Proof.
  intros E moved. split; [discriminate|]. split; [reflexivity|].
  intros with_packages key Hget. apply dict_get_in in Hget.
  destruct with_packages; vm_compute in Hget;
    repeat (destruct Hget as [Hget|Hget]; [discriminate|]); exact Hget.
Qed.

Lemma to_project_config_fields_witness :
  let E := externals [] in
  dict_get "source-paths" (to_project_config sample_project true)
  = Some (VList [VStr "models"]) /\
  dict_get "packages" (to_project_config sample_project true) = Some (VList []).
Proof.
  intros E.
  pose proof (to_project_config_fields sample_project) as F. cbv zeta in F.
  repeat match type of F with _ = _ /\ _ => destruct F as [_ F] end.
  split.
  - rewrite (F "source-paths"); [reflexivity|].
    repeat constructor; simpl; tauto.
  - rewrite (F "packages"); [reflexivity|].
    repeat constructor; simpl; tauto.
Defined.

(** ** Scoped variables *)

(** C5, as the code has it. [vars_for] returns the overlay of the whole
    [vars] mapping and of what [vars] holds under the package name of the
    node (the empty mapping when it holds nothing there), both held as
    they are; the adapter type plays no part. When [vars] holds nothing
    under that name the overlay reads as [vars] does. When it holds a
    mapping, the bucket of the package, a name the bucket binds reads as
    the bucket has it, any other name reads as [vars] has it, and a name
    bound by neither is a key error; since the global bucket is the whole
    [vars] mapping, the package name is a name of the overlay too. When it
    holds anything else, a plain variable that has the name of the
    package, that value is handed to the overlay as its second source:
    nothing checks that it is a bucket. *)
Theorem vars_for_overlay (self : VarProvider) (node : IsFQNResource)
    (adapter_type : string) :
  let merged := vars_for self node adapter_type in
  md_sources merged
  = [VDict (vars_of self);
     dict_get_default (package_name node) (VDict []) (vars_of self)] /\
  (forall other_adapter, vars_for self node other_adapter = merged) /\
  (dict_get (package_name node) (vars_of self) = None ->
   md_sources merged = [VDict (vars_of self); VDict []] /\
   resolves_to merged (vars_of self)) /\
  (forall bucket,
     dict_get (package_name node) (vars_of self) = Some (VDict bucket) ->
     md_sources merged = [VDict (vars_of self); VDict bucket] /\
     (forall name,
        MultiDict_getitem merged name
        = match dict_get name bucket with
          | Some v => Ok v
          | None =>
              match dict_get name (vars_of self) with
              | Some v => Ok v
              | None => Raise (OtherException ("KeyError: " ++ name))
              end
          end) /\
     MultiDict_getitem merged (package_name node)
     = match dict_get (package_name node) bucket with
       | Some v => Ok v
       | None => Ok (VDict bucket)
       end) /\
  (forall v,
     dict_get (package_name node) (vars_of self) = Some v ->
     (forall bucket, v <> VDict bucket) ->
     md_sources merged = [VDict (vars_of self); v]).
Proof.
  intros merged.
  assert (Hsrc : md_sources merged
                 = [VDict (vars_of self);
                    dict_get_default (package_name node) (VDict []) (vars_of self)])
    by reflexivity.
  assert (Hget : forall bucket,
     md_sources merged = [VDict (vars_of self); VDict bucket] ->
     forall name,
       MultiDict_getitem merged name
       = match dict_get name bucket with
         | Some v => Ok v
         | None =>
             match dict_get name (vars_of self) with
             | Some v => Ok v
             | None => Raise (OtherException ("KeyError: " ++ name))
             end
         end).
  { intros bucket Hb name. unfold MultiDict_getitem. rewrite Hb. cbn.
    destruct (dict_get name bucket); [reflexivity|].
    destruct (dict_get name (vars_of self)); reflexivity. }
  split; [exact Hsrc|]. split; [reflexivity|]. split; [|split].
  - intros Hnone.
    assert (Hb : md_sources merged = [VDict (vars_of self); VDict []]).
    { rewrite Hsrc. unfold dict_get_default. now rewrite Hnone. }
    split; [exact Hb|]. intros name. rewrite (Hget [] Hb). cbn.
    destruct (dict_get name (vars_of self)); reflexivity.
  - intros bucket Hsome.
    assert (Hb : md_sources merged = [VDict (vars_of self); VDict bucket]).
    { rewrite Hsrc. unfold dict_get_default. now rewrite Hsome. }
    split; [exact Hb|]. split; [exact (Hget bucket Hb)|].
    rewrite (Hget bucket Hb), Hsome. reflexivity.
  - intros v Hsome _. rewrite Hsrc. unfold dict_get_default. now rewrite Hsome.
Qed.

(** With global variables a = 1 and b = 2 and the bucket {b: 9} for
    [pkg], the overlay for a node of [pkg] is not the mapping
    {a: 1, b: 9} and the overlay for a node of another package is not
    {a: 1, b: 2}: each also binds [pkg] to the bucket. *)
Lemma vars_for_keeps_package_key :
  let self := {| vars_of := scoped_vars |} in
  MultiDict_getitem (vars_for self (node_of "pkg") "any") "pkg"
  = Ok (VDict [("b", VInt 9)]) /\
  MultiDict_keys (vars_for self (node_of "pkg") "any") = Ok ["b"; "a"; "pkg"] /\
  ~ resolves_to (vars_for self (node_of "pkg") "any") [("a", VInt 1); ("b", VInt 9)] /\
  MultiDict_getitem (vars_for self (node_of "other") "any") "pkg"
  = Ok (VDict [("b", VInt 9)]) /\
  ~ resolves_to (vars_for self (node_of "other") "any") [("a", VInt 1); ("b", VInt 2)].
Proof.
  intros self. split; [reflexivity|]. split; [reflexivity|]. split; [|split].
  - intros Hres. specialize (Hres "pkg"). vm_compute in Hres. discriminate.
  - reflexivity.
  - intros Hres. specialize (Hres "pkg"). vm_compute in Hres. discriminate.
Qed.

Lemma vars_for_overlay_witness :
  let self := {| vars_of := scoped_vars |} in
  MultiDict_getitem (vars_for self (node_of "pkg") "any") "a" = Ok (VInt 1) /\
  MultiDict_getitem (vars_for self (node_of "pkg") "any") "b" = Ok (VInt 9) /\
  MultiDict_getitem (vars_for self (node_of "other") "any") "a" = Ok (VInt 1) /\
  MultiDict_getitem (vars_for self (node_of "other") "any") "b" = Ok (VInt 2) /\
  resolves_to (vars_for self (node_of "other") "any") scoped_vars /\
  md_sources (vars_for self (node_of "a") "any") = [VDict scoped_vars; VInt 1].
Proof.
  intros self.
  pose proof (vars_for_overlay self (node_of "pkg") "any") as P.
  pose proof (vars_for_overlay self (node_of "other") "any") as O.
  pose proof (vars_for_overlay self (node_of "a") "any") as A.
  cbv zeta in P, O, A.
  destruct P as (_ & _ & _ & P & _). destruct O as (_ & _ & O & _).
  destruct A as (_ & _ & _ & _ & A).
  destruct (P [("b", VInt 9)] eq_refl) as (_ & Pget & _).
  destruct (O eq_refl) as (_ & Oall).
  split; [rewrite Pget; reflexivity|]. split; [rewrite Pget; reflexivity|].
  split; [rewrite Oall; reflexivity|]. split; [rewrite Oall; reflexivity|].
  split; [exact Oall|].
  apply (A (VInt 1) eq_refl). discriminate.
Defined.

(** ** The traversal under the preprocessing rules *)

Lemma keypath_eqb_length (p q : keypath) :
  List.length p <> List.length q -> keypath_eqb p q = false.
Proof.
  revert q. induction p as [|a p IH]; intros [|b q]; simpl; try congruence.
  intros Hlen. rewrite IH by congruence. apply andb_false_r.
Qed.

Lemma mapM_indexed_same (f : nat -> value -> result value) (l : list value) :
  (forall i v, In v l -> f i v = Ok v) ->
  forall i, mapM_indexed f i l = Ok l.
Proof.
  induction l as [|v l IH]; intros Hf i; simpl; [reflexivity|].
  rewrite (Hf i v) by now left. simpl.
  rewrite IH by (intros; apply Hf; now right). reflexivity.
Qed.

Lemma mapM_items_map (f : string -> value -> result value) (g : string -> value -> value)
    (d : pydict) :
  (forall k v, In (k, v) d -> f k v = Ok (g k v)) ->
  mapM_items f d = Ok (map (fun kv => (fst kv, g (fst kv) (snd kv))) d).
Proof.
  induction d as [|[k v] d IH]; intros Hf; simpl; [reflexivity|].
  rewrite (Hf k v) by now left. simpl.
  rewrite IH by (intros; apply Hf; now right). reflexivity.
Qed.

Lemma map_items_same (d : pydict) :
  map (fun kv : string * value => (fst kv, snd kv)) d = d.
Proof. induction d as [|[k v] d IH]; simpl; [reflexivity | now rewrite IH]. Qed.

Lemma depth_item (x : value) (l : list value) :
  In x l -> value_depth x <= fold_right (fun x acc => Nat.max (value_depth x) acc) 0 l.
Proof.
  induction l as [|y l IH]; simpl; [tauto|].
  intros [-> | Hin]; [lia | specialize (IH Hin); lia].
Qed.

Lemma depth_entry (k : string) (x : value) (d : pydict) :
  In (k, x) d ->
  value_depth x <= fold_right (fun kv acc => Nat.max (value_depth (snd kv)) acc) 0 d.
Proof.
  induction d as [|[k' y] d IH]; simpl; [tauto|].
  intros [[= -> ->] | Hin]; [lia | specialize (IH Hin); lia].
Qed.

Lemma acyclic_item (x : value) (l : list value) :
  forallb acyclic l = true -> In x l -> acyclic x = true.
Proof. intros Hall Hin. rewrite forallb_forall in Hall. auto. Qed.

Lemma acyclic_entry (k : string) (x : value) (d : pydict) :
  forallb (fun kv => acyclic (snd kv)) d = true -> In (k, x) d -> acyclic x = true.
Proof. intros Hall Hin. rewrite forallb_forall in Hall. apply (Hall (k, x) Hin). Qed.

Section Preprocessing.
Context `{E : Externals}.

Lemma quiet_child (kp : keypath) (k : pathkey) : quiet kp -> quiet (kp ++ [k]).
Proof. intros Hq ext w. rewrite <- app_assoc. apply Hq. Qed.

Lemma handler_at_none (table : list (keypath * (value -> value))) (kp : keypath) :
  Forall (fun ph => keypath_eqb kp (fst ph) = false) table -> handler_at table kp = None.
Proof.
  induction 1 as [|[p h] table Hp _ IH]; simpl; [reflexivity|].
  simpl in Hp. now rewrite Hp.
Qed.

Lemma handlers_short : Forall (fun ph => List.length (fst ph) <= 2) handlers.
Proof. repeat constructor. Qed.

Lemma converter_deep (a b c : pathkey) (rest : keypath) (w : value) :
  converter w (a :: b :: c :: rest) = w.
Proof.
  unfold converter. rewrite handler_at_none; [reflexivity|].
  eapply Forall_impl; [|apply handlers_short].
  intros [p h] Hlen. apply keypath_eqb_length. simpl in *. lia.
Qed.

Lemma quiet_deep (a b : pathkey) : forall ext w, ext <> [] -> converter w ([a; b] ++ ext) = w.
Proof. intros [|c rest] w Hne; [congruence|]. apply converter_deep. Qed.

Lemma converter_key_index (k : string) (i : nat) (w : value) :
  converter w [KStr k; KIdx i] = w.
Proof.
  unfold converter, handlers. cbn.
  repeat match goal with
         | |- context [String.eqb k ?s] => destruct (String.eqb k s); cbn
         end; reflexivity.
Qed.

Ltac split_keys k :=
  repeat match goal with
         | |- context [String.eqb k ?s] =>
             destruct (String.eqb_spec k s); [subst k|]; cbn
         end.

Lemma converter_top (k : string) (w : value) :
  converter w [KStr k]
  = if one_of ["on-run-start"; "on-run-end"] k then hook_rule w
    else if one_of ["models"; "seeds"; "snapshots"] k then mapping_rule w
    else w.
Proof.
  unfold converter, handlers, one_of. cbn.
  split_keys k; try congruence; destruct w; reflexivity.
Qed.

Lemma converter_block (k k2 : string) (w : value) :
  converter w [KStr k; KStr k2]
  = if one_of ["models"; "seeds"; "snapshots"] k then block_entry k k2 w else w.
Proof.
  unfold converter, handlers, one_of, block_entry. cbn.
  split_keys k; try congruence; split_keys k2; try congruence; destruct w; reflexivity.
Qed.

Lemma _deep_map_unfold (depth : nat) (func : value -> keypath -> value)
    (v : value) (kp : keypath) :
  _deep_map (S depth) func v kp
  = match v with
    | VAlias _ => Raise cycle_in_deep_map
    | _ =>
        match func v kp with
        | VList l =>
            l' <- mapM_indexed
                    (fun idx v0 => _deep_map depth func v0 (kp ++ [KIdx idx])) 0 l ;;
            Ok (VList l')
        | VDict d =>
            d' <- mapM_items (fun k v0 => _deep_map depth func v0 (kp ++ [KStr k])) d ;;
            Ok (VDict d')
        | VAlias _ => Raise cycle_in_deep_map
        | atom => Ok atom
        end
    end.
Proof. reflexivity. Qed.

(** Below a quiet path the traversal rebuilds the tree as it is. *)
Lemma _deep_map_quiet (depth : nat) :
  forall (v : value) (kp : keypath),
    quiet kp -> acyclic v = true -> value_depth v < depth ->
    _deep_map depth converter v kp = Ok v.
Proof.
  induction depth as [|depth IH]; intros v kp Hq Hac Hd; [lia|].
  assert (Hconv : converter v kp = v).
  { specialize (Hq [] v). now rewrite app_nil_r in Hq. }
  destruct v as [| | | | |l|d|up]; simpl; rewrite ?Hconv; try reflexivity.
  - rewrite mapM_indexed_same; [reflexivity|].
    intros i x Hin. apply IH.
    + now apply quiet_child.
    + eapply acyclic_item; eauto.
    + simpl in Hd. pose proof (depth_item x l Hin). lia.
  - rewrite (mapM_items_map _ (fun _ x => x)); [now rewrite map_items_same|].
    intros k x Hin. apply IH.
    + now apply quiet_child.
    + eapply acyclic_entry; eauto.
    + simpl in Hd. pose proof (depth_entry k x d Hin). lia.
  - discriminate.
Qed.

(** At a path with nothing registered below it, the traversal returns
    what the rule at the path makes of the node. *)
Lemma _deep_map_leaf_rule (depth : nat) (v : value) (kp : keypath) :
  (forall ext w, ext <> [] -> converter w (kp ++ ext) = w) ->
  acyclic v = true -> acyclic (converter v kp) = true ->
  value_depth (converter v kp) < depth ->
  _deep_map depth converter v kp = Ok (converter v kp).
Proof.
  intros Hq Hv Hac Hd. destruct depth as [|depth]; [lia|].
  assert (Hchild : forall k, quiet (kp ++ [k])).
  { intros k ext w. rewrite <- app_assoc. apply Hq. discriminate. }
  assert (Hnode :
    match converter v kp with
    | VList l =>
        l' <- mapM_indexed
                (fun idx v0 => _deep_map depth converter v0 (kp ++ [KIdx idx])) 0 l ;;
        Ok (VList l')
    | VDict d =>
        d' <- mapM_items (fun k v0 => _deep_map depth converter v0 (kp ++ [KStr k])) d ;;
        Ok (VDict d')
    | VAlias _ => Raise cycle_in_deep_map
    | atom => Ok atom
    end = Ok (converter v kp)).
  { destruct (converter v kp) as [| | | | |l|d|up]; try reflexivity.
    - rewrite mapM_indexed_same; [reflexivity|].
      intros i x Hin. apply _deep_map_quiet.
      + apply Hchild.
      + eapply acyclic_item; eauto.
      + simpl in Hd. pose proof (depth_item x l Hin). lia.
    - rewrite (mapM_items_map _ (fun _ x => x)); [now rewrite map_items_same|].
      intros k x Hin. apply _deep_map_quiet.
      + apply Hchild.
      + eapply acyclic_entry; eauto.
      + simpl in Hd. pose proof (depth_entry k x d Hin). lia.
    - discriminate. }
  destruct v; try exact Hnode. discriminate.
Qed.

Lemma hook_rule_acyclic (v : value) : acyclic v = true -> acyclic (hook_rule v) = true.
Proof. destruct v; simpl; auto. Qed.

Lemma hook_rule_depth (v : value) : value_depth (hook_rule v) <= S (value_depth v).
Proof. destruct v; simpl; lia. Qed.

Lemma mapping_rule_acyclic (v : value) : acyclic v = true -> acyclic (mapping_rule v) = true.
Proof. destruct v; simpl; auto. Qed.

Lemma mapping_rule_depth (v : value) : value_depth (mapping_rule v) <= S (value_depth v).
Proof. destruct v; simpl; lia. Qed.

Lemma block_entry_acyclic (k k2 : string) (v : value) :
  acyclic v = true -> acyclic (block_entry k k2 v) = true.
Proof.
  unfold block_entry. intros Hv.
  repeat match goal with
         | |- context [if ?c then _ else _] => destruct c
         end; auto using hook_rule_acyclic, mapping_rule_acyclic.
Qed.

Lemma block_entry_depth (k k2 : string) (v : value) :
  value_depth (block_entry k k2 v) <= S (value_depth v).
Proof.
  unfold block_entry.
  repeat match goal with
         | |- context [if ?c then _ else _] => destruct c
         end; auto using hook_rule_depth, mapping_rule_depth.
Qed.

(** An entry of a per-resource-type block. *)
Lemma _deep_map_block_entry (depth : nat) (k k2 : string) (v : value) :
  acyclic v = true -> S (value_depth v) < depth ->
  _deep_map depth converter v [KStr k; KStr k2]
  = Ok (if one_of ["models"; "seeds"; "snapshots"] k then block_entry k k2 v else v).
Proof.
  intros Hv Hd. rewrite <- converter_block.
  apply _deep_map_leaf_rule.
  - apply quiet_deep.
  - exact Hv.
  - rewrite converter_block. destruct (one_of _ k); auto using block_entry_acyclic.
  - rewrite converter_block. destruct (one_of _ k); [|lia].
    pose proof (block_entry_depth k k2 v). lia.
Qed.

(** An entry of the project mapping. *)
Lemma _deep_map_top_entry (depth : nat) (k : string) (v : value) :
  acyclic v = true -> S (value_depth v) < depth ->
  _deep_map depth converter v [KStr k] = Ok (top_entry k v).
Proof.
  intros Hv Hd. unfold top_entry.
  destruct (one_of ["on-run-start"; "on-run-end"] k) eqn:Hhook.
  - (* a run hook: nothing is registered below it *)
    assert (Hconv : converter v [KStr k] = hook_rule v)
      by (rewrite converter_top, Hhook; reflexivity).
    rewrite <- Hconv. apply _deep_map_leaf_rule.
    + intros [|b [|c rest]] w Hne; [congruence| |apply converter_deep].
      destruct b as [k2|i]; [|apply converter_key_index].
      cbn [app]. rewrite converter_block.
      unfold one_of in *. cbn in *.
      destruct (String.eqb_spec k "on-run-start") as [->|_]; [reflexivity|].
      destruct (String.eqb_spec k "on-run-end") as [->|_]; [reflexivity|discriminate].
    + exact Hv.
    + rewrite Hconv. now apply hook_rule_acyclic.
    + rewrite Hconv. pose proof (hook_rule_depth v). lia.
  - destruct (one_of ["models"; "seeds"; "snapshots"] k) eqn:Hblock.
    + (* a per-resource-type block *)
      assert (Hconv : converter v [KStr k] = mapping_rule v)
        by (rewrite converter_top, Hhook, Hblock; reflexivity).
      destruct depth as [|depth]; [lia|].
      rewrite _deep_map_unfold.
      destruct v as [| | | | |l|d|up]; rewrite ?Hconv; cbn [mapping_rule];
        try reflexivity.
      * rewrite mapM_indexed_same; [reflexivity|].
        intros i x Hin. apply _deep_map_quiet.
        -- intros ext w. cbn [app]. destruct ext as [|c rest];
             [apply converter_key_index | apply converter_deep].
        -- eapply acyclic_item; eauto.
        -- simpl in Hd. pose proof (depth_item x l Hin). lia.
      * rewrite (mapM_items_map _ (fun k2 x => block_entry k k2 x)); [reflexivity|].
        intros k2 x Hin. cbn [app].
        rewrite _deep_map_block_entry, Hblock; [reflexivity| |].
        -- eapply acyclic_entry; eauto.
        -- simpl in Hd. pose proof (depth_entry k2 x d Hin). lia.
      * simpl in Hv. discriminate.
    + (* any other key: nothing is registered at it or below it *)
      apply _deep_map_quiet; [|exact Hv|lia].
      intros [|b [|c rest]] w; cbn [app].
      * rewrite converter_top, Hhook, Hblock. reflexivity.
      * destruct b as [k2|i]; [|apply converter_key_index].
        rewrite converter_block, Hblock. reflexivity.
      * apply converter_deep.
Qed.

(** C4. On a project mapping that does not contain itself and is nested
    less deeply than the traversal allows, [_preprocess] returns the
    mapping with each entry rewritten by the rule registered at its path
    and every other node as it was: under [on-run-start] and [on-run-end]
    a null becomes an empty sequence and a string a one-element sequence;
    under [models], [seeds] and [snapshots] a null becomes an empty
    mapping, and inside such a block a null [vars] becomes an empty
    mapping, a null or string [pre-hook] or [post-hook] becomes a
    sequence, and under [seeds] a null [column_types] becomes an empty
    mapping. *)
Theorem preprocess_rules (project_dict : pydict) :
  acyclic (VDict project_dict) = true ->
  value_depth (VDict project_dict) + 2 <= recursion_limit ->
  _preprocess project_dict = Ok (VDict (preprocessed project_dict)).
Proof.
  intros Hac Hd. unfold _preprocess, deep_map.
  destruct recursion_limit as [|depth]; [lia|].
  simpl. rewrite (mapM_items_map _ top_entry); [reflexivity|].
  intros k v Hin. cbn [app]. apply _deep_map_top_entry.
  - simpl in Hac. eapply acyclic_entry; eauto.
  - simpl in Hd. pose proof (depth_entry k v project_dict Hin). lia.
Qed.

End Preprocessing.

(** ** Self-referential input *)

Lemma mapM_indexed_raises (f : nat -> value -> result value) (c : exn) (l : list value) :
  (forall i v e, f i v = Raise e -> e = c) ->
  (exists x, In x l /\ forall i, f i x = Raise c) ->
  forall i, mapM_indexed f i l = Raise c.
Proof.
  intros Honly. induction l as [|v l IH]; intros (x & Hin & Hx) i; [destruct Hin|].
  simpl. destruct (f i v) as [y|e] eqn:Hy; simpl.
  - destruct Hin as [-> | Hin]; [rewrite Hx in Hy; discriminate|].
    rewrite IH by eauto. reflexivity.
  - now rewrite (Honly _ _ _ Hy).
Qed.

Lemma mapM_items_raises (f : string -> value -> result value) (c : exn) (d : pydict) :
  (forall k v e, f k v = Raise e -> e = c) ->
  (exists k x, In (k, x) d /\ f k x = Raise c) ->
  mapM_items f d = Raise c.
Proof.
  intros Honly. induction d as [|[k v] d IH]; intros (k' & x & Hin & Hx); [destruct Hin|].
  simpl. destruct (f k v) as [y|e] eqn:Hy; simpl.
  - destruct Hin as [[= -> ->] | Hin]; [rewrite Hx in Hy; discriminate|].
    rewrite IH by eauto. reflexivity.
  - now rewrite (Honly _ _ _ Hy).
Qed.

Lemma handlers_keep_containers :
  Forall (fun ph : keypath * (value -> value) =>
            (forall l, snd ph (VList l) = VList l) /\
            (forall d, snd ph (VDict d) = VDict d)) handlers.
Proof. repeat constructor. Qed.

Lemma handler_at_in (table : list (keypath * (value -> value))) (kp : keypath)
    (h : value -> value) :
  handler_at table kp = Some h -> exists p, In (p, h) table.
Proof.
  induction table as [|[p h'] table IH]; simpl; [discriminate|].
  destruct (keypath_eqb kp p).
  - intros [= ->]. eauto.
  - intros Hh. destruct (IH Hh) as (q & Hq). eauto.
Qed.

Lemma converter_container (kp : keypath) :
  (forall l, converter (VList l) kp = VList l) /\
  (forall d, converter (VDict d) kp = VDict d).
Proof.
  unfold converter. destruct (handler_at handlers kp) as [h|] eqn:Hh; [|split; reflexivity].
  apply handler_at_in in Hh. destruct Hh as (p & Hin).
  pose proof handlers_keep_containers as Hall. rewrite Forall_forall in Hall.
  exact (Hall _ Hin).
Qed.

(** A tree that contains itself somewhere makes the traversal raise, at
    any path and whatever depth is allowed. *)
Lemma _deep_map_cycle (v : value) :
  acyclic v = false ->
  forall depth kp, _deep_map depth converter v kp = Raise cycle_in_deep_map.
Proof.
  induction v as [| | | | |l IH|d IH|up] using value_ind; simpl; try discriminate;
    intros Hcyc [|depth] kp; try reflexivity; rewrite _deep_map_unfold.
  - rewrite (proj1 (converter_container kp)).
    rewrite (mapM_indexed_raises _ cycle_in_deep_map); [reflexivity| |].
    + intros i x e. apply _deep_map_raise.
    + assert (Hex : exists x, In x l /\ acyclic x = false).
      { clear IH. induction l as [|y l IHl]; simpl in Hcyc; [discriminate|].
        destruct (acyclic y) eqn:Hy.
        - destruct (IHl Hcyc) as (x & Hin & Hx). exists x. split; [now right|exact Hx].
        - exists y. split; [now left|exact Hy]. }
      destruct Hex as (x & Hin & Hx). exists x. split; [exact Hin|].
      intros i. rewrite Forall_forall in IH. now apply IH.
  - rewrite (proj2 (converter_container kp)).
    rewrite (mapM_items_raises _ cycle_in_deep_map); [reflexivity| |].
    + intros k x e. apply _deep_map_raise.
    + assert (Hex : exists k x, In (k, x) d /\ acyclic x = false).
      { clear IH. induction d as [|[k y] d IHd]; simpl in Hcyc; [discriminate|].
        destruct (acyclic y) eqn:Hy.
        - destruct (IHd Hcyc) as (k' & x & Hin & Hx). exists k', x.
          split; [now right|exact Hx].
        - exists k, y. split; [now left|exact Hy]. }
      destruct Hex as (k & x & Hin & Hx). exists k, x. split; [exact Hin|].
      rewrite Forall_forall in IH. now apply (IH (k, x) Hin).
Qed.

Section Cycle.
Context `{E : Externals}.

(** C9. Once the required versions are settled, a recursion error raised
    by preprocessing makes [from_project_config] raise the project error
    'Cycle detected: Project input has a reference to itself', which
    carries the offending mapping; a project mapping that contains itself
    always ends this way. The error is a project error, not the recursion
    error itself, and it differs from every schema-validation error and
    from every project error raised without a project attached, such as
    those for a missing or unparsable project file. *)
Theorem from_project_config_cycle
    (project_dict : pydict) (packages_dict selectors_dict : value)
    (required_dbt_version : option (list VersionSpecifier))
    (required : list VersionSpecifier) :
  required_version_stage project_dict required_dbt_version = Ok required ->
  (forall msg,
     _preprocess project_dict = Raise (RecursionException msg) ->
     from_project_config project_dict packages_dict selectors_dict required_dbt_version
     = Raise (cycle_detected project_dict)) /\
  (acyclic (VDict project_dict) = false ->
     from_project_config project_dict packages_dict selectors_dict required_dbt_version
     = Raise (cycle_detected project_dict)) /\
  exn_message (cycle_detected project_dict)
  = "Cycle detected: Project input has a reference to itself" /\
  is_DbtProjectError (cycle_detected project_dict) = true /\
  (forall msg, cycle_detected project_dict <> RecursionException msg) /\
  (forall e, cycle_detected project_dict <> schema_error e) /\
  (forall msg path, cycle_detected project_dict <> DbtProjectError msg path None).
Proof.
  intros Hreq. unfold required_version_stage in Hreq.
  assert (Hraise : forall msg,
     _preprocess project_dict = Raise (RecursionException msg) ->
     from_project_config project_dict packages_dict selectors_dict required_dbt_version
     = Raise (cycle_detected project_dict)).
  { intros msg Hpre. unfold from_project_config. rewrite Hreq. cbn [bind].
    rewrite Hpre. reflexivity. }
  split; [exact Hraise|]. split; [|repeat split; discriminate].
  intros Hcyc. apply (Hraise "Cycle detected in deep_map").
  unfold _preprocess, deep_map. now apply _deep_map_cycle.
Qed.

End Cycle.

Lemma from_project_config_cycle_witness :
  let E := externals [] in
  from_project_config self_referential_project VNone VNone (Some [])
  = Raise (DbtProjectError "Cycle detected: Project input has a reference to itself"
             None (Some (VDict self_referential_project))).
Proof.
  intros E.
  apply (proj1 (proj2 (from_project_config_cycle self_referential_project VNone VNone
                         (Some []) [] eq_refl))).
  reflexivity.
Defined.

Lemma preprocess_rules_witness :
  let E := externals [] in
  _preprocess unprocessed_project
  = Ok (VDict
          [("on-run-start", VList [VStr "grant select"]); ("on-run-end", VList []);
           ("models", VDict []);
           ("seeds", VDict [("vars", VDict []); ("pre-hook", VList [VStr "s"]);
                            ("column_types", VDict []); ("quote_columns", VBool true)]);
           ("snapshots", VDict [("column_types", VNone); ("post-hook", VList [VStr "t"])]);
           ("sources", VNone); ("name", VStr "p")]).
Proof.
  intros E.
  apply (preprocess_rules unprocessed_project eq_refl).
  apply Nat.leb_le. reflexivity.
Defined.

(** ** The reference version ranges meet their description *)

Module SemverFacts.
Import Semver.

Ltac order :=
  unfold satisfies, lower_end, version_max, version_leb, version_ltb, version_eqb,
    version_compare, next, zero in *;
  repeat match goal with
         | v : version |- _ => destruct v
         | s : specifier |- _ => destruct s
         | m : matcher |- _ => destruct m
         end;
  cbn [major minor patch op ver] in *;
  repeat match goal with
         | |- context [Nat.compare ?a ?b] => destruct (Nat.compare_spec a b)
         | H : context [Nat.compare ?a ?b] |- _ => destruct (Nat.compare_spec a b)
         end;
  subst; try reflexivity; try discriminate; try lia; try (f_equal; lia).

Lemma version_leb_refl (a : version) : version_leb a a = true.
Proof. order. Qed.

Lemma version_leb_trans (a b c : version) :
  version_leb a b = true -> version_leb b c = true -> version_leb a c = true.
Proof. intros; order. Qed.

Lemma version_leb_total (a b : version) : version_leb a b = false -> version_leb b a = true.
Proof. intros; order. Qed.

Lemma version_eqb_eq (a b : version) : version_eqb a b = true -> a = b.
Proof. intros; order. Qed.

Lemma zero_least (a : version) : version_leb zero a = true.
Proof. order. Qed.

(** The lower end of a region is below every version in it. *)
Lemma lower_end_least (v : version) (s : specifier) :
  satisfies v s = true -> version_leb (lower_end s) v = true.
Proof. intros; order. Qed.

(** A region is an interval. *)
Lemma region_convex (v m : version) (s : specifier) :
  satisfies v s = true -> version_leb (lower_end s) m = true ->
  version_leb m v = true -> satisfies m s = true.
Proof. intros; order. Qed.

Lemma version_max_l (a b : version) : version_leb a (version_max a b) = true.
Proof.
  unfold version_max. destruct (version_leb a b) eqn:Hab; [exact Hab|].
  apply version_leb_refl.
Qed.

Lemma version_max_r (a b : version) : version_leb b (version_max a b) = true.
Proof.
  unfold version_max. destruct (version_leb a b) eqn:Hab; [apply version_leb_refl|].
  now apply version_leb_total.
Qed.

Lemma version_max_least (a b v : version) :
  version_leb a v = true -> version_leb b v = true ->
  version_leb (version_max a b) v = true.
Proof. unfold version_max. destruct (version_leb a b); auto. Qed.

Lemma highest_lower_end_above (specs : list specifier) (s : specifier) :
  In s specs -> version_leb (lower_end s) (highest_lower_end specs) = true.
Proof.
  induction specs as [|t specs IH]; simpl; [tauto|].
  intros [-> | Hin]; [apply version_max_l|].
  eapply version_leb_trans; [apply IH, Hin | apply version_max_r].
Qed.

Lemma highest_lower_end_least (specs : list specifier) (v : version) :
  (forall s, In s specs -> version_leb (lower_end s) v = true) ->
  version_leb (highest_lower_end specs) v = true.
Proof.
  induction specs as [|t specs IH]; simpl; intros Hall; [apply zero_least|].
  apply version_max_least; [apply Hall; now left|].
  apply IH. intros s Hin. apply Hall. now right.
Qed.

(** A set of constraints is compatible exactly when some version lies in
    every constraint's region. *)
Lemma versions_compatible_iff (specs : list specifier) :
  versions_compatible specs = true <->
  exists v, forall s, In s specs -> satisfies v s = true.
Proof.
  unfold versions_compatible. rewrite forallb_forall. split; [eauto|].
  intros (v & Hv) s Hin.
  apply (region_convex v); [auto | now apply highest_lower_end_above|].
  apply highest_lower_end_least. intros t Ht. apply lower_end_least. auto.
Qed.

(** With an exact version put in front, the set is compatible exactly
    when that version lies in every constraint's region. *)
Lemma installed_compatible_iff (installed : version) (specs : list specifier) :
  versions_compatible ({| op := EQ; ver := installed |} :: specs) = true <->
  forall s, In s specs -> satisfies installed s = true.
Proof.
  rewrite versions_compatible_iff. split.
  - intros (v & Hv) s Hin.
    assert (Heq : v = installed).
    { apply version_eqb_eq. apply (Hv {| op := EQ; ver := installed |}). now left. }
    subst v. apply Hv. now right.
  - intros Hall. exists installed. intros s [<- | Hin]; [|auto].
    unfold satisfies. cbn [op ver]. unfold version_eqb.
    destruct installed as [a b c]. unfold version_compare. cbn [major minor patch].
    now rewrite !Nat.compare_refl.
Qed.

End SemverFacts.

(** * Further properties *)

(** * Further properties of the loader *)

(** ** Locating and reading the project file *)

Section ProjectFile.
Context `{E : Externals}.

(** X1. When the project file is missing, [partial_load] raises the
    project error that names the path it looked at, and
    [from_project_root] fails the same way whatever the renderer; when the
    file cannot be read or parsed the loader's error comes out unchanged;
    when it parses to anything but a mapping the error says so. The path
    is the root normalised twice, joined with the fixed file name. *)
Theorem partial_load_project_file (project_root : string) (verify_version : bool) :
  let path :=
    os_path_join (os_path_normpath (os_path_normpath project_root)) "dbt_project.yml" in
  (path_exists path = false ->
     partial_load project_root verify_version
     = Raise (DbtProjectError ("no dbt_project.yml found at expected path " ++ path)
                None None) /\
     forall renderer,
       from_project_root project_root renderer verify_version
       = Raise (DbtProjectError ("no dbt_project.yml found at expected path " ++ path)
                  None None)) /\
  (path_exists path = true ->
   forall e, _load_yaml path = Raise e ->
     partial_load project_root verify_version = Raise e) /\
  (path_exists path = true ->
   forall v, _load_yaml path = Ok v -> (forall d, v <> VDict d) ->
     partial_load project_root verify_version
     = Raise (DbtProjectError "dbt_project.yml does not parse to a dictionary"
                None None)).
Proof.
  intros path. split; [|split].
  - intros Hmiss.
    assert (Hload : partial_load project_root verify_version
                    = Raise (DbtProjectError
                               ("no dbt_project.yml found at expected path " ++ path)
                               None None)).
    { unfold partial_load, _raw_project_from. fold path. rewrite Hmiss. reflexivity. }
    split; [exact Hload|].
    intros renderer. unfold from_project_root. now rewrite Hload.
  - intros Hex e He. unfold partial_load, _raw_project_from. fold path.
    rewrite Hex. cbn [negb]. rewrite He. reflexivity.
  - intros Hex v Hv Hnot. unfold partial_load, _raw_project_from. fold path.
    rewrite Hex. cbn [negb]. rewrite Hv. cbn [bind].
    destruct v; try reflexivity. now destruct (Hnot d).
Qed.

(** ** The packages file *)

(** X2. [package_config_from_data] never raises a validation error: a
    validator failure comes out as the project error whose message holds
    the validator's message and the pointer to the documentation, any
    other outcome of the validator comes out as it is, and no data at all
    ([None]) is parsed as [{'packages': []}]. So the handler
    [from_project_config] puts around the call never fires. *)
Theorem package_config_from_data_errors (packages_data : value) :
  package_config_from_data VNone
  = package_config_from_data (VDict [("packages", VList [])]) /\
  (forall message path,
     package_config_from_data packages_data <> Raise (ValidationError message path)) /\
  wrap_validation_error (package_config_from_data packages_data)
  = package_config_from_data packages_data /\
  (forall message path,
     packages_data <> VNone ->
     PackageConfig_from_dict packages_data = Raise (ValidationError message path) ->
     package_config_from_data packages_data
     = Raise (DbtProjectError (MALFORMED_PACKAGE_ERROR message) None None) /\
     occurs_in message (MALFORMED_PACKAGE_ERROR message) /\
     occurs_in "https://docs.getdbt.com/docs/package-management"
       (MALFORMED_PACKAGE_ERROR message)) /\
  (forall r,
     packages_data <> VNone ->
     PackageConfig_from_dict packages_data = r ->
     (forall message path, r <> Raise (ValidationError message path)) ->
     package_config_from_data packages_data = r).
Proof.
  assert (Hnever : forall message path,
     package_config_from_data packages_data <> Raise (ValidationError message path)).
  { intros message path. unfold package_config_from_data, try_except.
    match goal with |- context [PackageConfig_from_dict ?d] =>
      destruct (PackageConfig_from_dict d) as [c|e] end; [discriminate|].
    destruct e; discriminate. }
  split; [reflexivity|]. split; [exact Hnever|]. split; [|split].
  - unfold wrap_validation_error, try_except.
    destruct (package_config_from_data packages_data) as [c|e] eqn:Hr; [reflexivity|].
    destruct e; try reflexivity. now destruct (Hnever message relative_path).
  - intros message path Hnn Hfail.
    split; [|split].
    + unfold package_config_from_data.
      destruct packages_data; try congruence; cbv beta zeta iota; rewrite Hfail;
        reflexivity.
    + unfold MALFORMED_PACKAGE_ERROR. auto 20 with occurs.
    + unfold MALFORMED_PACKAGE_ERROR. auto 20 with occurs.
  - intros r Hnn Hr Hnot. unfold package_config_from_data.
    assert (Hsame : try_except (PackageConfig_from_dict packages_data)
              (fun e => match e with
                        | ValidationError message _ =>
                            Some (DbtProjectError (MALFORMED_PACKAGE_ERROR message) None None)
                        | _ => None
                        end) = r).
    { rewrite Hr. destruct r as [c|e]; [reflexivity|]. simpl.
      destruct e; try reflexivity. now destruct (Hnot message relative_path). }
    destruct packages_data; try congruence; cbv beta zeta iota; exact Hsame.
Qed.

(** X3. Once the config-version gate is passed, [from_project_root]
    reads the packages file and then the selectors file before it renders
    anything: a failure to read either comes out unchanged whatever the
    renderer. A missing packages file is no failure: the load goes on with
    [None] for the packages. *)
Theorem from_project_root_reads_files_first
    (project_root : string) (verify_version : bool) (partial : PartialProject) :
  partial_load project_root verify_version = Ok partial ->
  let root := pp_project_root partial in
  (forall e renderer,
     package_data_from_root root = Raise e ->
     from_project_root project_root renderer verify_version = Raise e) /\
  (forall packages_dict e renderer,
     package_data_from_root root = Ok packages_dict ->
     selector_data_from_root root = Raise e ->
     from_project_root project_root renderer verify_version = Raise e) /\
  (forall renderer,
     path_exists (resolve_path_from_base "packages.yml" root) = false ->
     from_project_root project_root renderer verify_version
     = (selectors_dict <- selector_data_from_root root ;;
        render_from_dict root (pp_project_dict partial) VNone selectors_dict
          (set_version renderer (pp_config_version partial))
          (pp_verify_version partial))).
Proof.
  intros Hload root. unfold from_project_root, render, package_data_from_root.
  rewrite Hload. cbn [bind]. fold root. split; [|split].
  - intros e renderer ->. reflexivity.
  - intros pk e renderer -> ->. reflexivity.
  - intros renderer ->. reflexivity.
Qed.

End ProjectFile.

Lemma partial_load_project_file_witness :
  let E := externals [("/list/dbt_project.yml", VList [VStr "p"])] in
  partial_load "/none" false
  = Raise (DbtProjectError
             "no dbt_project.yml found at expected path /none/dbt_project.yml"
             None None) /\
  partial_load "/list" false
  = Raise (DbtProjectError "dbt_project.yml does not parse to a dictionary" None None).
Proof.
  intros E.
  pose proof (partial_load_project_file "/none" false) as N. cbv zeta in N.
  pose proof (partial_load_project_file "/list" false) as L. cbv zeta in L.
  destruct N as (N & _). destruct L as (_ & _ & L). split.
  - apply N. reflexivity.
  - apply (L eq_refl (VList [VStr "p"])); [reflexivity | discriminate].
Defined.

Lemma package_config_from_data_errors_witness :
  let E := externals [] in
  package_config_from_data (VDict [("packages", VStr "oops")])
  = Raise (DbtProjectError
             (MALFORMED_PACKAGE_ERROR "value is not of type 'array'") None None).
Proof.
  intros E.
  destruct (package_config_from_data_errors (VDict [("packages", VStr "oops")]))
    as (_ & _ & _ & M & _).
  apply (M "value is not of type 'array'" ["packages"]); [discriminate | reflexivity].
Defined.

Lemma from_project_root_reads_files_first_witness :
  let E := externals [("/r/dbt_project.yml", VDict minimal_project)] in
  from_project_root "/r" plain_renderer false
  = render_from_dict "/r" minimal_project VNone VNone
      (set_version plain_renderer (VInt 2)) false.
Proof.
  intros E.
  destruct (partial_load "/r" false) as [partial|e] eqn:Hload;
    [|vm_compute in Hload; discriminate].
  destruct (from_project_root_reads_files_first "/r" false partial Hload)
    as (_ & _ & Missing).
  vm_compute in Hload. injection Hload as <-.
  rewrite (Missing plain_renderer eq_refl). reflexivity.
Defined.

(** ** Reading the required versions *)

Lemma split_on_not_nil (c : ascii) (s : string) : split_on c s <> [].
Proof.
  induction s as [|c' s IH]; simpl; [discriminate|].
  destruct (Ascii.eqb c' c); [discriminate|].
  destruct (split_on c s); discriminate.
Qed.

Lemma concat_cons (sep x : string) (l : list string) :
  l <> [] -> String.concat sep (x :: l) = (x ++ sep ++ String.concat sep l)%string.
Proof. destruct l; [congruence | reflexivity]. Qed.

(** Joining the pieces with the separator gives the text back. *)
Lemma split_on_join (c : ascii) (s : string) :
  String.concat (String c "") (split_on c s) = s.
Proof.
  induction s as [|c' s IH]; simpl; [reflexivity|].
  destruct (Ascii.eqb_spec c' c) as [->|Hne].
  - rewrite concat_cons by apply split_on_not_nil. rewrite IH. reflexivity.
  - destruct (split_on c s) as [|h t] eqn:Hs; [now destruct (split_on_not_nil c s)|].
    destruct t as [|h' t].
    + cbn [String.concat] in *. now rewrite IH.
    + rewrite concat_cons by discriminate.
      rewrite concat_cons in IH by discriminate.
      cbn [String.append]. f_equal. exact IH.
Qed.

(** No piece holds the separator. *)
Lemma split_on_pieces (c : ascii) (s : string) :
  Forall (fun piece => contains_char c piece = false) (split_on c s).
Proof.
  induction s as [|c' s IH]; simpl; [repeat constructor|].
  destruct (Ascii.eqb_spec c' c) as [->|Hne].
  - constructor; [reflexivity | exact IH].
  - destruct (split_on c s) as [|h t]; [repeat constructor|].
    + simpl. apply Ascii.eqb_neq in Hne. rewrite Ascii.eqb_sym in Hne. now rewrite Hne.
    + inversion IH as [|? ? Hh Ht]; subst. constructor; [|exact Ht].
      simpl. apply Ascii.eqb_neq in Hne. rewrite Ascii.eqb_sym in Hne.
      now rewrite Hne, Hh.
Qed.

(** A text without the separator is one piece. *)
Lemma split_on_whole (c : ascii) (s : string) :
  contains_char c s = false -> split_on c s = [s].
Proof.
  induction s as [|c' s IH]; simpl; [reflexivity|].
  intros Hno. apply orb_false_elim in Hno. destruct Hno as [Hc Hs].
  rewrite Ascii.eqb_sym in Hc. rewrite Hc, (IH Hs). reflexivity.
Qed.

Lemma mapM_ok {A B : Type} (f : A -> result B) (l : list A) (r : list B) :
  mapM f l = Ok r -> Forall2 (fun x y => f x = Ok y) l r.
Proof.
  revert r. induction l as [|x l IH]; simpl; intros r Hr.
  - injection Hr as <-. constructor.
  - destruct (f x) as [y|e] eqn:Hy; [|discriminate]. simpl in Hr.
    destruct (mapM f l) as [ys|e] eqn:Hys; [|discriminate]. simpl in Hr.
    injection Hr as <-. constructor; auto.
Qed.

Lemma mapM_raise {A B : Type} (f : A -> result B) (l : list A) (e : exn) :
  mapM f l = Raise e -> exists x, In x l /\ f x = Raise e.
Proof.
  induction l as [|x l IH]; simpl; [discriminate|].
  destruct (f x) as [y|e'] eqn:Hy; simpl.
  - destruct (mapM f l) as [ys|e''] eqn:Hys; simpl; [discriminate|].
    intros [= <-]. destruct (IH eq_refl) as (x' & Hin & Hx). eauto.
  - intros [= <-]. eauto.
Qed.

Section RequiredVersions.
Context `{E : Externals}.

(** X4. A version requirement given as one string is read as the list of
    its comma-separated pieces: joining the pieces with commas gives the
    string back, no piece holds a comma, and a string without a comma is a
    single requirement. A list yields one specifier per entry, in order,
    and fails with the error of an entry that does not parse. A number,
    a boolean or a float cannot be iterated and raises a type error. *)
Theorem parse_versions_forms (root : pydict) (s : string) :
  _parse_versions root (VStr s)
  = _parse_versions root (VList (map VStr (split_on ","%char s))) /\
  String.concat "," (split_on ","%char s) = s /\
  Forall (fun piece => contains_char ","%char piece = false) (split_on ","%char s) /\
  (contains_char ","%char s = false ->
   _parse_versions root (VStr s) = (v <- from_version_string (VStr s) ;; Ok [v])) /\
  (forall l r, _parse_versions root (VList l) = Ok r ->
               Forall2 (fun x y => from_version_string x = Ok y) l r) /\
  (forall l e, _parse_versions root (VList l) = Raise e ->
               exists x, In x l /\ from_version_string x = Raise e) /\
  (forall z b f obj, exists msg,
     _parse_versions root (VInt z) = Raise (TypeError msg) /\
     _parse_versions root (VBool b) = Raise (TypeError msg) /\
     _parse_versions root (VFloat f obj) = Raise (TypeError msg)).
Proof.
  split; [reflexivity|]. split; [apply split_on_join|]. split; [apply split_on_pieces|].
  split; [|split; [|split]].
  - intros Hno. unfold _parse_versions. cbn [bind]. rewrite (split_on_whole _ _ Hno).
    cbn [map mapM]. destruct (from_version_string (VStr s)); reflexivity.
  - intros l r Hr. now apply mapM_ok.
  - intros l e He. now apply mapM_raise.
  - intros z b f obj. eexists. repeat split.
Qed.

(** X5. A project that says nothing about the required version, or
    gives null for it, is read as if it required ['>=0.0.0']. *)
Theorem get_required_version_default (rendered_project : pydict) (verify_version : bool) :
  dict_get "require-dbt-version" rendered_project = None \/
  dict_get "require-dbt-version" rendered_project = Some VNone ->
  _get_required_version rendered_project verify_version
  = _get_required_version
      (dict_set "require-dbt-version" (VStr ">=0.0.0") rendered_project) verify_version.
Proof.
  intros Habsent. unfold _get_required_version, dict_get_default.
  rewrite !dict_get_set.
  change (String.eqb "require-dbt-version" "require-dbt-version") with true.
  change (String.eqb "name" "require-dbt-version") with false.
  destruct Habsent as [-> | ->]; reflexivity.
Qed.

(** X6. When [_get_required_version] returns with verification on, the
    project has a name, the requirements are compatible with one another
    and the installed version is compatible with them, and the same list
    comes back with verification off. With verification off the installed
    version plays no part. With verification on, requirements that parse
    and a project without a name raise the missing-name error. *)
Theorem get_required_version_verified (rendered_project : pydict) :
  (forall required,
     _get_required_version rendered_project true = Ok required ->
     (exists name, dict_get "name" rendered_project = Some name) /\
     versions_compatible required = true /\
     versions_compatible (get_installed_version :: required) = true /\
     _get_required_version rendered_project false = Ok required) /\
  (forall installed,
     _get_required_version (E := with_installed E installed) rendered_project false
     = _get_required_version rendered_project false) /\
  (forall required,
     _get_required_version rendered_project false = Ok required ->
     dict_get "name" rendered_project = None ->
     _get_required_version rendered_project true
     = Raise (DbtProjectError
                ("Required " ++ dquote ++ "name" ++ dquote ++
                 " field not present in project") None None)).
Proof.
  split; [|split].
  - intros required Hrun. unfold _get_required_version in *.
    apply bind_ok in Hrun. destruct Hrun as (v & Hparse & Hrun).
    apply bind_ok in Hrun. destruct Hrun as ([] & Hcheck & Hrun).
    injection Hrun as <-. rewrite Hparse. cbn [bind].
    destruct (dict_get "name" rendered_project) as [name|]; [|discriminate].
    unfold validate_version in Hcheck.
    destruct (versions_compatible v); [|discriminate].
    destruct (versions_compatible (get_installed_version :: v)); [|discriminate].
    repeat split. eauto.
  - reflexivity.
  - intros required Hrun Hname. unfold _get_required_version in *.
    apply bind_ok in Hrun. destruct Hrun as (v & Hparse & _).
    rewrite Hparse, Hname. reflexivity.
Qed.

End RequiredVersions.

Lemma parse_versions_forms_witness :
  let E := externals [] in
  _parse_versions [] (VStr ">=0.17.0,<0.19.0")
  = Ok [{| Semver.op := Semver.GE; Semver.ver := Semver.ver (Semver.exactly 0 17 0) |};
        {| Semver.op := Semver.LT; Semver.ver := Semver.ver (Semver.exactly 0 19 0) |}] /\
  _parse_versions [] (VStr "0.18.1")
  = (v <- from_version_string (VStr "0.18.1") ;; Ok [v]).
Proof.
  intros E.
  destruct (parse_versions_forms [] ">=0.17.0,<0.19.0") as (Hlist & _).
  destruct (parse_versions_forms [] "0.18.1") as (_ & _ & _ & Hone & _).
  split; [rewrite Hlist; reflexivity | apply Hone; reflexivity].
Defined.

Lemma get_required_version_default_witness :
  let E := externals [] in
  _get_required_version minimal_project false
  = Ok [{| Semver.op := Semver.GE; Semver.ver := Semver.ver (Semver.exactly 0 0 0) |}].
Proof.
  intros E.
  rewrite (get_required_version_default minimal_project false (or_introl eq_refl)).
  reflexivity.
Defined.

Lemma get_required_version_verified_witness :
  let E := externals [] in
  versions_compatible
    [{| Semver.op := Semver.GE; Semver.ver := Semver.ver (Semver.exactly 0 0 0) |}]
  = true /\
  _get_required_version [("version", VStr "1.0")] true
  = Raise (DbtProjectError
             ("Required " ++ dquote ++ "name" ++ dquote ++ " field not present in project")
             None None).
Proof.
  intros E.
  destruct (get_required_version_verified minimal_project) as (Hok & _).
  destruct (get_required_version_verified [("version", VStr "1.0")]) as (_ & _ & Hname).
  split.
  - apply (Hok [{| Semver.op := Semver.GE;
                   Semver.ver := Semver.ver (Semver.exactly 0 0 0) |}]).
    reflexivity.
  - eapply Hname; reflexivity.
Defined.

(** ** Rendering and the path of an error *)

Section Rendering.
Context `{E : Externals}.

Lemma with_project_path_raise {A : Type} (project_root : string) (r : result A)
    (msg : string) (path : option string) (project : option value) :
  with_project_path project_root r = Raise (DbtProjectError msg path project) ->
  (r = Raise (DbtProjectError msg None project) /\
   path = Some (os_path_join project_root "dbt_project.yml")) \/
  (r = Raise (DbtProjectError msg path project) /\ path <> None).
Proof.
  unfold with_project_path, try_except. destruct r as [a|e]; [discriminate|].
  destruct e as [m p pr| | | | | |]; try discriminate.
  destruct p as [p|]; intros [= <- <- <-].
  - right. split; [reflexivity | discriminate].
  - left. split; reflexivity.
Qed.

Lemma with_project_path_other {A : Type} (project_root : string) (r : result A) (e : exn) :
  is_DbtProjectError e = false ->
  (with_project_path project_root r = Raise e <-> r = Raise e).
Proof.
  intros He. unfold with_project_path, try_except. destruct r as [a|e']; [split; discriminate|].
  destruct e' as [m p pr| | | | | |]; try tauto.
  destruct p; split; intros [= <-]; try reflexivity; discriminate.
Qed.

(** X7. Once the three trees are rendered, every project error that
    leaves [render_from_dict] carries a path: the path of the project file
    when the error was raised without one, its own path otherwise. Errors
    of other kinds come out exactly when the version check or the assembly
    raised them. The tree both work on has the project root written over
    whatever the rendering put under ['project-root']. *)
Theorem render_from_dict_error_path
    (project_root : string) (project_dict : pydict) (packages_dict selectors_dict : value)
    (renderer : DbtProjectYamlRenderer) (verify_version : bool)
    (rendered : pydict) (rendered_packages rendered_selectors : value) :
  render_data renderer (renderer_version renderer) (VDict project_dict)
  = Ok (VDict rendered) ->
  package_render_data renderer (renderer_version renderer) packages_dict
  = Ok rendered_packages ->
  selector_render_data renderer (renderer_version renderer) selectors_dict
  = Ok rendered_selectors ->
  let tree := dict_set "project-root" (VStr project_root) rendered in
  let inner :=
    dbt_version <- _get_required_version tree verify_version ;;
    from_project_config tree rendered_packages rendered_selectors (Some dbt_version) in
  dict_get "project-root" tree = Some (VStr project_root) /\
  (forall msg path project,
     render_from_dict project_root project_dict packages_dict selectors_dict renderer
       verify_version = Raise (DbtProjectError msg path project) ->
     path <> None /\
     (inner = Raise (DbtProjectError msg None project) ->
      path = Some (os_path_join project_root "dbt_project.yml"))) /\
  (forall e,
     is_DbtProjectError e = false ->
     (render_from_dict project_root project_dict packages_dict selectors_dict renderer
        verify_version = Raise e <-> inner = Raise e)) /\
  (forall p,
     render_from_dict project_root project_dict packages_dict selectors_dict renderer
       verify_version = Ok p <-> inner = Ok p).
Proof.
  intros Hr Hp Hs tree inner.
  assert (Hrun : render_from_dict project_root project_dict packages_dict selectors_dict
                   renderer verify_version = with_project_path project_root inner).
  { unfold render_from_dict. rewrite Hr. cbn [bind]. rewrite Hp. cbn [bind].
    rewrite Hs. reflexivity. }
  split; [|split; [|split]].
  - unfold tree. rewrite dict_get_set. now rewrite String.eqb_refl.
  - intros msg path project Hraise. rewrite Hrun in Hraise.
    apply with_project_path_raise in Hraise.
    destruct Hraise as [[Hin ->] | [Hin Hpath]].
    + split; [discriminate | reflexivity].
    + split; [exact Hpath|]. intros Hin'. rewrite Hin in Hin'.
      injection Hin' as ->. now destruct Hpath.
  - intros e He. rewrite Hrun. now apply with_project_path_other.
  - intros p. rewrite Hrun. unfold with_project_path, try_except.
    destruct inner as [a|e]; [tauto|].
    destruct e as [m pa pr| | | | | |]; try (split; discriminate).
    destruct pa; split; discriminate.
Qed.

(** X8. [from_project_root] sets the renderer's version itself, to the
    config version it read: the version the renderer comes with makes no
    difference to the outcome. *)
Theorem from_project_root_sets_version
    (project_root : string) (renderer : DbtProjectYamlRenderer) (verify_version : bool)
    (v : value) :
  from_project_root project_root (set_version renderer v) verify_version
  = from_project_root project_root renderer verify_version /\
  (forall partial,
     partial_load project_root verify_version = Ok partial ->
     from_project_root project_root renderer verify_version
     = render partial (set_version renderer (pp_config_version partial)) /\
     py_eq (pp_config_version partial) (VInt 2) = true).
Proof.
  split.
  - unfold from_project_root.
    destruct (partial_load project_root verify_version) as [partial|e]; reflexivity.
  - intros partial Hload. split.
    + unfold from_project_root. now rewrite Hload.
    + unfold partial_load in Hload.
      apply bind_ok in Hload. destruct Hload as (d & _ & Hload).
      unfold py_ne in Hload.
      destruct (py_eq (dict_get_default "config-version" (VInt 1) d) (VInt 2)) eqn:Heq;
        [|discriminate].
      injection Hload as <-. exact Heq.
Qed.

(** X9. With verification on, a rendered project whose requirements parse
    but cannot be met together, or are not met by the installed version,
    fails in [render_from_dict] with the gate's message and the path of the
    project file, whatever the packages and selectors are; with
    verification off the gate is not run and the outcome is that of the
    assembly. *)
Theorem render_from_dict_version_gate
    (project_root : string) (project_dict : pydict) (packages_dict selectors_dict : value)
    (renderer : DbtProjectYamlRenderer)
    (rendered : pydict) (rendered_packages rendered_selectors : value)
    (required : list VersionSpecifier) (name : value) :
  render_data renderer (renderer_version renderer) (VDict project_dict)
  = Ok (VDict rendered) ->
  package_render_data renderer (renderer_version renderer) packages_dict
  = Ok rendered_packages ->
  selector_render_data renderer (renderer_version renderer) selectors_dict
  = Ok rendered_selectors ->
  let tree := dict_set "project-root" (VStr project_root) rendered in
  let path := Some (os_path_join project_root "dbt_project.yml") in
  _get_required_version tree false = Ok required ->
  dict_get "name" tree = Some name ->
  (versions_compatible required = false ->
   render_from_dict project_root project_dict packages_dict selectors_dict renderer true
   = Raise (DbtProjectError
              (IMPOSSIBLE_VERSION_ERROR (py_str name)
                 (str_list_of_str (map to_version_string required))) path None)) /\
  (versions_compatible required = true ->
   versions_compatible (get_installed_version :: required) = false ->
   render_from_dict project_root project_dict packages_dict selectors_dict renderer true
   = Raise (DbtProjectError
              (INVALID_VERSION_ERROR (py_str name) (to_version_string get_installed_version)
                 (str_list_of_str (map to_version_string required))) path None)) /\
  (versions_compatible required = true ->
   versions_compatible (get_installed_version :: required) = true ->
   render_from_dict project_root project_dict packages_dict selectors_dict renderer true
   = render_from_dict project_root project_dict packages_dict selectors_dict renderer
       false) /\
  render_from_dict project_root project_dict packages_dict selectors_dict renderer false
  = with_project_path project_root
      (from_project_config tree rendered_packages rendered_selectors (Some required)).
Proof.
  intros Hr Hp Hs tree path Hreq Hname.
  assert (Hrun : forall verify,
    render_from_dict project_root project_dict packages_dict selectors_dict renderer verify
    = with_project_path project_root
        (dbt_version <- _get_required_version tree verify ;;
         from_project_config tree rendered_packages rendered_selectors (Some dbt_version))).
  { intros verify. unfold render_from_dict. rewrite Hr. cbn [bind]. rewrite Hp. cbn [bind].
    rewrite Hs. reflexivity. }
  assert (Hparse : exists v,
    try_except (_parse_versions tree
                  match dict_get_default "require-dbt-version" VNone tree with
                  | VNone => VStr ">=0.0.0"
                  | required => required
                  end)
      (fun e => match e with
                | SemverException msg => Some (DbtProjectError msg None None)
                | _ => None
                end) = Ok v /\ v = required).
  { unfold _get_required_version in Hreq.
    apply bind_ok in Hreq. destruct Hreq as (v & Hv & Hreq).
    cbn [bind] in Hreq. injection Hreq as <-. eauto. }
  destruct Hparse as (v & Hv & ->).
  assert (Hverify : _get_required_version tree true
                    = (validate_version required (py_str name) ;;; Ok required)).
  { unfold _get_required_version. rewrite Hv. cbn [bind]. now rewrite Hname. }
  split; [|split; [|split]].
  - intros Hbad. rewrite Hrun, Hverify. unfold validate_version. rewrite Hbad. reflexivity.
  - intros Hok Hbad. rewrite Hrun, Hverify. unfold validate_version.
    rewrite Hok, Hbad. reflexivity.
  - intros Hok Hok'. rewrite !Hrun, Hverify, Hreq. unfold validate_version.
    rewrite Hok, Hok'. reflexivity.
  - rewrite Hrun, Hreq. reflexivity.
Qed.

End Rendering.

Lemma render_from_dict_error_path_witness :
  let E := externals [] in
  render_from_dict "/r" [("version", VStr "1.0")] VNone VNone plain_renderer false
  = Raise (DbtProjectError "at path []: 'name' is a required property"
             (Some "/r/dbt_project.yml") None).
Proof.
  intros E.
  destruct (render_from_dict_error_path "/r" [("version", VStr "1.0")] VNone VNone
              plain_renderer false [("version", VStr "1.0")] VNone VNone
              eq_refl eq_refl eq_refl) as (_ & Hpath & _).
  destruct (render_from_dict "/r" [("version", VStr "1.0")] VNone VNone plain_renderer false)
    as [p|e] eqn:Hrun; [vm_compute in Hrun; discriminate|].
  destruct e as [msg path project| | | | | |]; try (vm_compute in Hrun; discriminate).
  destruct (Hpath msg path project eq_refl) as (_ & Hfile).
  assert (Hmsg : msg = "at path []: 'name' is a required property" /\ project = None).
  { vm_compute in Hrun. injection Hrun as <- _ <-. split; reflexivity. }
  destruct Hmsg as (-> & ->).
  rewrite Hfile; [reflexivity|]. vm_compute. reflexivity.
Defined.

Lemma from_project_root_sets_version_witness :
  let E := externals [("/r/dbt_project.yml", VDict minimal_project)] in
  from_project_root "/r" (set_version plain_renderer (VInt 1)) false
  = from_project_root "/r" plain_renderer false /\
  exists partial,
    partial_load "/r" false = Ok partial /\
    py_eq (pp_config_version partial) (VInt 2) = true.
Proof.
  intros E.
  destruct (from_project_root_sets_version "/r" plain_renderer false (VInt 1))
    as (Hsame & Hgate).
  split; [exact Hsame|].
  destruct (partial_load "/r" false) as [partial|e] eqn:Hload;
    [|vm_compute in Hload; discriminate].
  exists partial. split; [reflexivity|]. apply (Hgate partial eq_refl).
Defined.

Lemma render_from_dict_version_gate_witness :
  let E := externals [] in
  let project : pydict :=
    [("name", VStr "p"); ("version", VStr "1.0"); ("config-version", VInt 2);
     ("require-dbt-version", VList [VStr ">=1.0.0"; VStr "<2.0.0"])] in
  let required :=
    [{| Semver.op := Semver.GE; Semver.ver := Semver.ver (Semver.exactly 1 0 0) |};
     {| Semver.op := Semver.LT; Semver.ver := Semver.ver (Semver.exactly 2 0 0) |}] in
  render_from_dict "/r" project VNone VNone plain_renderer true
  = Raise (DbtProjectError
             (INVALID_VERSION_ERROR "p" "=0.18.1" "['>=1.0.0', '<2.0.0']")
             (Some "/r/dbt_project.yml") None).
Proof.
  intros E project required.
  destruct (render_from_dict_version_gate (E := E) "/r" project VNone VNone plain_renderer
              project VNone VNone required (VStr "p") eq_refl eq_refl eq_refl
              eq_refl eq_refl) as (_ & Hinvalid & _).
  rewrite Hinvalid; reflexivity.
Defined.

(** ** What a returned project holds *)

Section Returned.
Context `{E : Externals}.

(** X10. A project returned by [from_project_config] has a config version
    that compares equal to 2, the very value the checked contract holds,
    and writes it as it stands; its name, root, packages and selectors are
    those of the checked contract and of the parsed collaborator data; its
    required versions are the ones handed in, when some are; and where the
    contract leaves them unset its modules directory is ['dbt_modules'],
    its quoting the empty mapping and its variables the empty mapping. *)
Theorem from_project_config_returns
    (project_dict : pydict) (packages_dict selectors_dict : value)
    (required_dbt_version : option (list VersionSpecifier)) (p : Project) :
  from_project_config project_dict packages_dict selectors_dict required_dbt_version
  = Ok p ->
  py_eq (config_version p) (VInt 2) = true /\
  dict_get "config-version" (to_project_config p false) = Some (config_version p) /\
  package_config_from_data packages_dict = Ok (packages p) /\
  selector_config_from_data selectors_dict = Ok (selectors p) /\
  (forall v, required_dbt_version = Some v -> dbt_version p = v) /\
  exists project_dict' cfg,
    _preprocess project_dict = Ok project_dict' /\
    ProjectContract_from_dict project_dict' = Ok cfg /\
    config_version p = cfg_config_version cfg /\
    cfg_project_root cfg = Some (project_root p) /\
    project_name p = cfg_name cfg /\
    version p = cfg_version cfg /\
    profile_name p = cfg_profile cfg /\
    (cfg_modules_path cfg = None -> modules_path p = "dbt_modules") /\
    (forall s, cfg_modules_path cfg = Some s -> modules_path p = s) /\
    (cfg_quoting cfg = None -> quoting p = []) /\
    (forall q, cfg_quoting cfg = Some q -> quoting p = Quoting_to_dict q) /\
    (cfg_vars cfg = None -> vars_of (vars p) = []) /\
    (forall d, cfg_vars cfg = Some d -> vars_of (vars p) = d) /\
    models p = cfg_models cfg /\ seeds p = cfg_seeds cfg /\
    snapshots p = cfg_snapshots cfg /\ sources p = cfg_sources cfg.
Proof.
  intros Hrun. apply from_project_config_ok in Hrun.
  destruct Hrun as (required & d' & cfg & root & pkgs & sels &
                    Hreq & Hpre & Hcfg & Hroot & Hv & Hpk & Hsel & _ & ->).
  split; [exact Hv|]. split.
  { unfold to_project_config.
    destruct (QueryComment_bool _); reflexivity. }
  split; [exact Hpk|]. split; [exact Hsel|]. split.
  { intros v ->. simpl in Hreq. now injection Hreq as <-. }
  exists d', cfg. split; [exact Hpre|]. split; [exact Hcfg|].
  unfold assembled; cbn [project_root project_name version profile_name modules_path
    quoting vars vars_of models seeds snapshots sources config_version].
  split; [reflexivity|]. split; [exact Hroot|].
  repeat match goal with
         | |- _ /\ _ => split
         | |- forall _, _ = Some _ -> _ => let Hs := fresh in intros ? Hs; rewrite Hs
         | |- _ = None -> _ => let Hn := fresh in intros Hn; rewrite Hn
         end; reflexivity.
Qed.

(** X11. [from_project_config] settles the project before it looks at
    the packages, and the packages before the selectors. When the project
    part does not pass (the required versions, the preprocessing, the
    schema check, the project root or the config version fails), the
    outcome is the same whatever packages and selectors are handed in;
    when it passes and the packages do not parse, the outcome is the same
    whatever the selectors are. *)
Theorem from_project_config_order
    (project_dict : pydict) (required_dbt_version : option (list VersionSpecifier)) :
  (~ (exists required project_dict' cfg root,
        required_version_stage project_dict required_dbt_version = Ok required /\
        _preprocess project_dict = Ok project_dict' /\
        ProjectContract_from_dict project_dict' = Ok cfg /\
        cfg_project_root cfg = Some root /\
        py_eq (cfg_config_version cfg) (VInt 2) = true) ->
   forall packages_dict selectors_dict packages_dict' selectors_dict',
     from_project_config project_dict packages_dict selectors_dict required_dbt_version
     = from_project_config project_dict packages_dict' selectors_dict'
         required_dbt_version) /\
  (forall packages_dict e,
     package_config_from_data packages_dict = Raise e ->
     forall selectors_dict selectors_dict',
       from_project_config project_dict packages_dict selectors_dict required_dbt_version
       = from_project_config project_dict packages_dict selectors_dict'
           required_dbt_version).
Proof.
  split.
  - intros Hfail pk sel pk' sel'. unfold from_project_config.
    fold (required_version_stage project_dict required_dbt_version).
    destruct (required_version_stage project_dict required_dbt_version)
      as [required|e] eqn:Hreq; [cbn [bind]|reflexivity].
    destruct (_preprocess project_dict) as [d'|e] eqn:Hpre; cbn [bind try_except];
      [|destruct e; reflexivity].
    unfold wrap_validation_error at 1 4.
    destruct (ProjectContract_from_dict d') as [cfg|e] eqn:Hcfg; cbn [bind try_except];
      [|destruct e; reflexivity].
    destruct (cfg_project_root cfg) as [root|] eqn:Hroot; cbn [bind]; [|reflexivity].
    unfold py_ne.
    destruct (py_eq (cfg_config_version cfg) (VInt 2)) eqn:Hv; cbn [bind negb];
      [|reflexivity].
    exfalso. apply Hfail. exists required, d', cfg, root. auto.
  - intros pk e Hpk sel sel'. unfold from_project_config.
    destruct (match required_dbt_version with
              | Some v => Ok v
              | None => _get_required_version project_dict false
              end) as [required|e0]; [cbn [bind]|reflexivity].
    destruct (try_except (_preprocess project_dict) _) as [d'|e1]; cbn [bind];
      [|reflexivity].
    destruct (wrap_validation_error (ProjectContract_from_dict d')) as [cfg|e2];
      cbn [bind]; [|reflexivity].
    destruct (cfg_project_root cfg) as [root|]; cbn [bind]; [|reflexivity].
    destruct (py_ne (cfg_config_version cfg) (VInt 2)); cbn [bind]; [reflexivity|].
    rewrite Hpk. unfold wrap_validation_error, try_except.
    destruct e; reflexivity.
Qed.

(** X12. The source paths of a project are its source, data, snapshot,
    analysis and macro paths, in that order and nothing else: a path is
    among them exactly when it is in one of the five lists, and there are
    as many as the five lists hold together. A project returned by
    [from_project_config] whose contract sets no docs paths documents
    exactly its source paths. *)
Theorem all_source_paths_members (p : Project) :
  (forall x,
     In x (all_source_paths p) <->
     In x (source_paths p) \/ In x (data_paths p) \/ In x (snapshot_paths p) \/
     In x (analysis_paths p) \/ In x (macro_paths p)) /\
  List.length (all_source_paths p)
  = List.length (source_paths p) + List.length (data_paths p) +
    List.length (snapshot_paths p) + List.length (analysis_paths p) +
    List.length (macro_paths p) /\
  (forall project_dict packages_dict selectors_dict required_dbt_version project_dict' cfg,
     from_project_config project_dict packages_dict selectors_dict required_dbt_version
     = Ok p ->
     _preprocess project_dict = Ok project_dict' ->
     ProjectContract_from_dict project_dict' = Ok cfg ->
     cfg_docs_paths cfg = None ->
     docs_paths p = all_source_paths p).
Proof.
  split; [|split].
  - intros x. unfold all_source_paths, _all_source_paths. rewrite !in_app_iff. tauto.
  - unfold all_source_paths, _all_source_paths. rewrite !length_app. lia.
  - intros d pk sel req d' cfg Hrun Hpre Hcfg Hdocs.
    apply from_project_config_ok in Hrun.
    destruct Hrun as (required & d'' & cfg' & root & pkgs & sels &
                      _ & Hpre' & Hcfg' & _ & _ & _ & _ & _ & ->).
    rewrite Hpre in Hpre'. injection Hpre' as <-.
    rewrite Hcfg in Hcfg'. injection Hcfg' as <-.
    unfold all_source_paths, assembled. cbn. now rewrite Hdocs.
Qed.

End Returned.

Lemma from_project_config_returns_witness :
  let E := externals [] in
  (exists p,
     from_project_config minimal_project VNone VNone None = Ok p /\
     config_version p = VInt 2 /\ modules_path p = "dbt_modules" /\
     quoting p = [] /\ vars_of (vars p) = []) /\
  (exists p,
     from_project_config float_two_mapping VNone VNone None = Ok p /\
     config_version p = VFloat float_two 0 /\
     dict_get "config-version" (to_project_config p false) = Some (VFloat float_two 0)).
Proof.
  intros E. split.
  - destruct (from_project_config minimal_project VNone VNone None) as [p|e] eqn:Hrun;
      [|vm_compute in Hrun; discriminate].
    exists p. split; [reflexivity|].
    destruct (from_project_config_returns minimal_project VNone VNone None p Hrun)
      as (_ & _ & _ & _ & _ & d' & cfg & Hpre & Hcfg & Hcv & _ & _ & _ & _ &
          Hmod & _ & Hq & _ & Hvars & _).
    vm_compute in Hpre. injection Hpre as <-.
    vm_compute in Hcfg. injection Hcfg as <-.
    split; [exact Hcv|]. split; [exact (Hmod eq_refl)|].
    split; [exact (Hq eq_refl) | exact (Hvars eq_refl)].
  - destruct (from_project_config float_two_mapping VNone VNone None) as [p|e] eqn:Hrun;
      [|vm_compute in Hrun; discriminate].
    exists p. split; [reflexivity|].
    destruct (from_project_config_returns float_two_mapping VNone VNone None p Hrun)
      as (_ & Hwritten & _ & _ & _ & d' & cfg & Hpre & Hcfg & Hcv & _).
    vm_compute in Hpre. injection Hpre as <-.
    vm_compute in Hcfg. injection Hcfg as <-.
    split; [exact Hcv | now rewrite Hwritten, Hcv].
Defined.

Lemma from_project_config_order_witness :
  let E := externals [] in
  from_project_config v1_project VNone VNone (Some [])
  = from_project_config v1_project (VStr "not packages") (VInt 3) (Some []) /\
  from_project_config minimal_project (VStr "not packages") VNone (Some [])
  = from_project_config minimal_project (VStr "not packages") (VInt 3) (Some []).
Proof.
  intros E.
  destruct (from_project_config_order v1_project (Some [])) as (Hproject & _).
  destruct (from_project_config_order minimal_project (Some [])) as (_ & Hpackages).
  split.
  - apply Hproject.
    intros (required & d' & cfg & root & _ & Hpre & Hcfg & _ & Hv).
    vm_compute in Hpre. injection Hpre as <-.
    vm_compute in Hcfg. injection Hcfg as <-.
    vm_compute in Hv. discriminate Hv.
  - eapply Hpackages. vm_compute. reflexivity.
Defined.

Lemma all_source_paths_members_witness :
  let E := externals [] in
  exists p,
    from_project_config minimal_project VNone VNone None = Ok p /\
    docs_paths p = all_source_paths p /\
    In "snapshots" (all_source_paths p).
Proof.
  intros E.
  destruct (from_project_config minimal_project VNone VNone None) as [p|e] eqn:Hrun;
    [|vm_compute in Hrun; discriminate].
  exists p. split; [reflexivity|].
  destruct (all_source_paths_members p) as (Hin & _ & Hdocs).
  split.
  - eapply (Hdocs minimal_project VNone VNone None _ _ Hrun).
    + vm_compute. reflexivity.
    + vm_compute. reflexivity.
    + reflexivity.
  - apply Hin. vm_compute in Hrun. injection Hrun as <-.
    right. right. left. now left.
Defined.

(** ** The serialised tree as a mapping *)

Lemma dict_keys_set (k : string) (v : value) (d : pydict) :
  dict_keys (dict_set k v d)
  = if existsb (String.eqb k) (dict_keys d) then dict_keys d else dict_keys d ++ [k].
Proof.
  induction d as [|[k0 v0] d IH]; simpl; [reflexivity|].
  destruct (String.eqb_spec k k0) as [->|Hne]; simpl; [reflexivity|].
  rewrite IH. destruct (existsb (String.eqb k) (dict_keys d)); reflexivity.
Qed.

Lemma existsb_eqb_in (k : string) (l : list string) :
  existsb (String.eqb k) l = true <-> In k l.
Proof.
  rewrite existsb_exists. split.
  - intros (x & Hin & Heq). apply String.eqb_eq in Heq. now subst.
  - intros Hin. exists k. split; [exact Hin | apply String.eqb_refl].
Qed.

Lemma dict_keys_set_in (k k' : string) (v : value) (d : pydict) :
  In k' (dict_keys (dict_set k v d)) <-> In k' (dict_keys d) \/ k' = k.
Proof.
  rewrite dict_keys_set. destruct (existsb (String.eqb k) (dict_keys d)) eqn:Hk.
  - apply existsb_eqb_in in Hk. split; [tauto|]. intros [Hin | ->]; assumption.
  - rewrite in_app_iff. simpl. intuition (subst; auto).
Qed.

Lemma dict_keys_set_NoDup (k : string) (v : value) (d : pydict) :
  NoDup (dict_keys d) -> NoDup (dict_keys (dict_set k v d)).
Proof.
  intros Hnd. rewrite dict_keys_set.
  destruct (existsb (String.eqb k) (dict_keys d)) eqn:Hk; [exact Hnd|].
  apply NoDup_app; [exact Hnd | repeat constructor; simpl; tauto |].
  intros x Hx [<- | []].
  apply existsb_eqb_in in Hx. congruence.
Qed.

Lemma dict_keys_update_in (k : string) (d e : pydict) :
  In k (dict_keys (dict_update d e)) <-> In k (dict_keys d) \/ In k (dict_keys e).
Proof.
  unfold dict_update. revert d. induction e as [|[k0 v0] e IH]; intros d; simpl.
  - tauto.
  - rewrite IH, dict_keys_set_in. intuition congruence.
Qed.

Lemma dict_keys_update_NoDup (d e : pydict) :
  NoDup (dict_keys d) -> NoDup (dict_keys (dict_update d e)).
Proof.
  unfold dict_update. revert d. induction e as [|[k0 v0] e IH]; intros d Hnd; simpl.
  - exact Hnd.
  - apply IH. now apply dict_keys_set_NoDup.
Qed.

Lemma distinct_NoDup (l : list string) : distinct l = true <-> NoDup l.
Proof.
  induction l as [|k l IH]; simpl.
  - split; [constructor | reflexivity].
  - rewrite andb_true_iff, negb_true_iff, IH. split.
    + intros [Hk Hl]. constructor; [|exact Hl].
      intros Hin. apply existsb_eqb_in in Hin. congruence.
    + intros Hnd. inversion Hnd as [|? ? Hnot Hl]; subst. split; [|exact Hl].
      destruct (existsb (String.eqb k) l) eqn:Hk; [|reflexivity].
      apply existsb_eqb_in in Hk. contradiction.
Qed.

Section Tree.
Context `{E : Externals}.

(** X13. The tree [to_project_config] returns is a well-formed mapping:
    no key occurs twice, with or without the packages. Without them its
    keys are the twenty-five field keys, in the order written, followed by
    [query-comment] when the query comment is truthy; with them the keys
    are those and the keys of the serialised packages, none lost. *)
Theorem to_project_config_keys (self : Project) :
  dict_keys (to_project_config self false)
  = canonical_keys ++
    (if QueryComment_bool (query_comment self) then ["query-comment"] else []) /\
  NoDup (dict_keys (to_project_config self false)) /\
  NoDup (dict_keys (to_project_config self true)) /\
  (forall k,
     In k (dict_keys (to_project_config self true)) <->
     In k (dict_keys (to_project_config self false)) \/
     In k (dict_keys (PackageConfig_to_dict (packages self)))).
Proof.
  assert (Hkeys : dict_keys (to_project_config self false)
                  = canonical_keys ++
                    (if QueryComment_bool (query_comment self)
                     then ["query-comment"] else [])).
  { unfold to_project_config. destruct (QueryComment_bool (query_comment self));
      reflexivity. }
  assert (Hnd : NoDup (dict_keys (to_project_config self false))).
  { rewrite Hkeys. apply distinct_NoDup.
    destruct (QueryComment_bool (query_comment self)); reflexivity. }
  split; [exact Hkeys|]. split; [exact Hnd|]. split.
  - unfold to_project_config in *. cbv zeta in *.
    destruct (QueryComment_bool (query_comment self));
      apply dict_keys_update_NoDup; exact Hnd.
  - intros k. unfold to_project_config. cbv zeta.
    destruct (QueryComment_bool (query_comment self)); apply dict_keys_update_in.
Qed.

End Tree.

(** ** Looking a selector up *)

Section SelectorLookup.
Context `{T : ExternalTypes}.
Variable SelectionSpec : Type.
Variable selector_lookup : SelectorConfig -> string -> option SelectionSpec.
Variable selector_names : SelectorConfig -> list string.

(** X14. [get_selector] returns the selection of a known name, and for
    an unknown one raises a runtime error whose message holds the name
    asked for and every name the project knows. *)
Theorem get_selector_unknown (self : Project) (name : string) :
  (forall spec,
     selector_lookup (selectors self) name = Some spec ->
     get_selector SelectionSpec selector_lookup selector_names self name = Ok spec) /\
  (selector_lookup (selectors self) name = None ->
   let msg := ("Could not find selector named " ++ name ++ ", expected one of " ++
               str_list_of_str (selector_names (selectors self)))%string in
   get_selector SelectionSpec selector_lookup selector_names self name
   = Raise (RuntimeException msg) /\
   occurs_in name msg /\
   (forall known, In known (selector_names (selectors self)) ->
                  occurs_in (repr_str known) msg)).
Proof.
  unfold get_selector. split.
  - intros spec ->. reflexivity.
  - intros Hnone. cbv zeta. rewrite Hnone. split; [reflexivity|]. split.
    + auto 10 with occurs.
    + intros known Hin.
      apply occurs_in_append_r, occurs_in_append_r, occurs_in_append_r.
      now apply occurs_in_str_list.
Qed.

End SelectorLookup.

Lemma get_selector_unknown_witness :
  let self := with_selectors sample_project
                [("fast", VStr "tag:fast"); ("full", VStr "*")] in
  get_selector (T := types) value (fun sels name => dict_get name sels) dict_keys self "nightly"
  = Raise (RuntimeException
             "Could not find selector named nightly, expected one of ['fast', 'full']") /\
  get_selector (T := types) value (fun sels name => dict_get name sels) dict_keys self "full"
  = Ok (VStr "*").
Proof.
  intros self.
  destruct (get_selector_unknown (T := types) value (fun sels name => dict_get name sels) dict_keys
              self "nightly") as (_ & Hunknown).
  destruct (get_selector_unknown (T := types) value (fun sels name => dict_get name sels) dict_keys
              self "full") as (Hknown & _).
  split.
  - destruct (Hunknown eq_refl) as (Hmsg & _). rewrite Hmsg. reflexivity.
  - apply Hknown. reflexivity.
Defined.

(** ** Equality of projects *)

Lemma number_eqb_sym (a b : number) : number_eqb a b = number_eqb b a.
Proof.
  destruct a as [x|s|], b as [y|t|]; simpl; try reflexivity.
  - destruct (Qeq_bool x y) eqn:Hxy, (Qeq_bool y x) eqn:Hyx; try reflexivity.
    + apply Qeq_bool_iff in Hxy. apply Qeq_sym in Hxy. apply Qeq_bool_iff in Hxy. congruence.
    + apply Qeq_bool_iff in Hyx. apply Qeq_sym in Hyx. apply Qeq_bool_iff in Hyx. congruence.
  - destruct s, t; reflexivity.
Qed.

Lemma number_eqb_refl (a : number) : a <> NumNaN -> number_eqb a a = true.
Proof.
  destruct a as [x|s|]; simpl; intros Hnan.
  - apply Qeq_bool_iff. reflexivity.
  - destruct s; reflexivity.
  - now destruct Hnan.
Qed.

Lemma same_nan_sym (a b : value) : same_nan a b = same_nan b a.
Proof.
  destruct a as [| | |[| | |] i| | | |], b as [| | |[| | |] j| | | |]; try reflexivity.
  apply Nat.eqb_sym.
Qed.

Lemma py_eq_number (a b : value) (na : number) :
  as_number a = Some na ->
  py_eq a b = match as_number b with
              | Some nb => number_eqb na nb
              | None => false
              end.
Proof. destruct a; try discriminate; intros [= <-]; destruct b; reflexivity. Qed.

Lemma py_eq_of_number (a : value) (na : number) (b : value) :
  as_number a = Some na -> well_formed b = true ->
  py_eq a b = true -> py_eq b a = true.
Proof.
  intros Ha _ Hab. rewrite (py_eq_number a b na Ha) in Hab.
  destruct (as_number b) as [nb|] eqn:Hb; [|discriminate].
  rewrite (py_eq_number b a nb Hb), Ha. now rewrite number_eqb_sym.
Qed.

Lemma py_eq_dict (d e : pydict) :
  py_eq (VDict d) (VDict e)
  = Nat.eqb (List.length d) (List.length e) &&
    forallb (fun kv => match dict_get (fst kv) e with
                       | Some y => item_eq (snd kv) y
                       | None => false
                       end) d.
Proof.
  simpl. f_equal. induction d as [|[k x] d IH]; simpl; [reflexivity | now rewrite IH].
Qed.

Lemma py_eq_list_cons (x y : value) (l m : list value) :
  py_eq (VList (x :: l)) (VList (y :: m)) = item_eq x y && py_eq (VList l) (VList m).
Proof. reflexivity. Qed.

Lemma dict_get_some_in_keys (k : string) (v : value) (d : pydict) :
  dict_get k d = Some v -> In k (dict_keys d).
Proof. intros Hget. apply dict_get_in in Hget. now apply (in_map fst) in Hget. Qed.

Lemma dict_get_of_in (k : string) (v : value) (d : pydict) :
  NoDup (dict_keys d) -> In (k, v) d -> dict_get k d = Some v.
Proof.
  induction d as [|[k0 v0] d IH]; simpl; [tauto|].
  intros Hnd [[= -> ->] | Hin].
  - now rewrite String.eqb_refl.
  - inversion Hnd as [|? ? Hnot Hnd']; subst.
    destruct (String.eqb_spec k k0) as [->|_]; [|auto].
    destruct Hnot. now apply (in_map fst) in Hin.
Qed.

Lemma in_keys_entry (k : string) (d : pydict) :
  In k (dict_keys d) -> exists v, In (k, v) d.
Proof.
  unfold dict_keys. rewrite in_map_iff. intros ([k' v] & <- & Hin). eauto.
Qed.

(** An item is equal to itself in the eyes of its container, a NaN
    included. *)
Lemma item_eq_refl (v : value) : well_formed v = true -> item_eq v v = true.
Proof.
  unfold item_eq.
  assert (Hnum : forall a na, as_number a = Some na -> na <> NumNaN ->
                              same_nan a a || py_eq a a = true).
  { intros a na Ha Hnan. apply orb_true_iff. right.
    rewrite (py_eq_number a a na Ha), Ha. now apply number_eqb_refl. }
  induction v as [|x|z|f obj|s|l IH|d IH|up] using value_ind; intros Hv.
  - reflexivity.
  - eapply Hnum; [reflexivity | discriminate].
  - eapply Hnum; [reflexivity | discriminate].
  - destruct f as [s0|s0| |s0 m e].
    + eapply Hnum; [reflexivity | discriminate].
    + eapply Hnum; [reflexivity | discriminate].
    + simpl. now rewrite Nat.eqb_refl.
    + eapply Hnum; [reflexivity | cbn [float_number]; discriminate].
  - simpl. apply String.eqb_refl.
  - apply orb_true_iff. right.
    induction l as [|x l IHl]; [reflexivity|].
    rewrite py_eq_list_cons. simpl in Hv. apply andb_true_iff in Hv.
    destruct Hv as [Hx Hl]. inversion IH as [|? ? IHx IHrest]; subst.
    unfold item_eq. rewrite (IHx Hx). simpl. now apply IHl.
  - apply orb_true_iff. right.
    rewrite py_eq_dict, Nat.eqb_refl. simpl.
    simpl in Hv. apply andb_true_iff in Hv. destruct Hv as [Hk Hvals].
    apply distinct_NoDup in Hk. rewrite forallb_forall in Hvals.
    rewrite Forall_forall in IH.
    apply forallb_forall. intros [k x] Hin. simpl.
    rewrite (dict_get_of_in _ _ _ Hk Hin).
    apply (IH (k, x) Hin), (Hvals (k, x) Hin).
  - discriminate.
Qed.

(** A well-formed container is equal to itself, whatever it holds. *)
Lemma py_eq_refl_dict (d : pydict) :
  well_formed (VDict d) = true -> py_eq (VDict d) (VDict d) = true.
Proof.
  intros Hd. pose proof (item_eq_refl (VDict d) Hd) as Hrefl.
  unfold item_eq in Hrefl. exact Hrefl.
Qed.

(** On well-formed values [==] does not depend on the side. *)
Lemma py_eq_sym_true (a : value) :
  forall b, well_formed a = true -> well_formed b = true ->
            py_eq a b = true -> py_eq b a = true.
Proof.
  induction a as [|x|z|f obj|s|l IH|d IH|up] using value_ind; intros b Ha Hb Hab.
  - destruct b; try discriminate. reflexivity.
  - now apply (py_eq_of_number (VBool x) _ b eq_refl).
  - now apply (py_eq_of_number (VInt z) _ b eq_refl).
  - now apply (py_eq_of_number (VFloat f obj) _ b eq_refl).
  - destruct b; try discriminate. simpl in *. now rewrite String.eqb_sym.
  - destruct b as [| | | | |m| |]; try discriminate.
    revert m Hb Hab. induction l as [|x l IHl]; intros [|y m] Hb Hab; try discriminate.
    + reflexivity.
    + rewrite py_eq_list_cons in *. apply andb_true_iff in Hab. destruct Hab as [Hxy Hlm].
      simpl in Ha, Hb. apply andb_true_iff in Ha, Hb.
      destruct Ha as [Hx Hl], Hb as [Hy Hm].
      inversion IH as [|? ? IHx IHrest]; subst.
      apply andb_true_iff. split; [|apply IHl; assumption].
      unfold item_eq in *. apply orb_true_iff in Hxy. apply orb_true_iff.
      destruct Hxy as [Hsame|Heq]; [left; now rewrite same_nan_sym | right; auto].
  - destruct b as [| | | | | |e|]; try discriminate.
    rewrite py_eq_dict in *. apply andb_true_iff in Hab. destruct Hab as [Hlen Hall].
    apply Nat.eqb_eq in Hlen. rewrite forallb_forall in Hall.
    simpl in Ha, Hb. apply andb_true_iff in Ha, Hb.
    destruct Ha as [Hdk Hdv], Hb as [Hek Hev].
    apply distinct_NoDup in Hdk, Hek.
    rewrite forallb_forall in Hdv, Hev. rewrite Forall_forall in IH.
    assert (Hincl : incl (dict_keys e) (dict_keys d)).
    { apply NoDup_length_incl; [exact Hdk | unfold dict_keys; rewrite !length_map; lia |].
      intros k Hk. apply in_keys_entry in Hk. destruct Hk as (x & Hin).
      specialize (Hall (k, x) Hin). simpl in Hall.
      destruct (dict_get k e) as [y|] eqn:Hy; [|discriminate].
      eapply dict_get_some_in_keys, Hy. }
    apply andb_true_iff. split; [apply Nat.eqb_eq; lia|].
    apply forallb_forall. intros [k y] Hin. simpl.
    assert (Hk : In k (dict_keys d)).
    { apply Hincl. now apply (in_map fst) in Hin. }
    apply in_keys_entry in Hk. destruct Hk as (x & Hx).
    rewrite (dict_get_of_in _ _ _ Hdk Hx).
    pose proof (Hall (k, x) Hx) as Hfwd. simpl in Hfwd.
    rewrite (dict_get_of_in _ _ _ Hek Hin) in Hfwd.
    unfold item_eq in *. apply orb_true_iff in Hfwd. apply orb_true_iff.
    destruct Hfwd as [Hsame|Heq]; [left; now rewrite same_nan_sym|right].
    apply (IH (k, x) Hx y); [apply (Hdv (k, x) Hx) | apply (Hev (k, y) Hin) | exact Heq].
  - discriminate.
Qed.

Lemma py_eq_sym (a b : value) :
  well_formed a = true -> well_formed b = true -> py_eq a b = py_eq b a.
Proof.
  intros Ha Hb. destruct (py_eq a b) eqn:Hab, (py_eq b a) eqn:Hba; try reflexivity.
  - rewrite (py_eq_sym_true a b Ha Hb Hab) in Hba. discriminate.
  - rewrite (py_eq_sym_true b a Hb Ha Hba) in Hab. discriminate.
Qed.

Lemma issubclass_refl (c : pyclass) : issubclass c c = true.
Proof. unfold issubclass. now rewrite String.eqb_refl. Qed.

Section Equality.
Context `{E : Externals}.

(** C8, as the code has it. [__eq__] answers true exactly when the other
    object is an instance of the receiver's class, the receiver is an
    instance of the other object's class, and the two serialised forms,
    packages included, compare equal. For two objects of one class it is
    the comparison of the serialised forms: such objects are equal
    whenever their serialised forms are the same well-formed tree,
    whatever else they hold, and an object is equal to itself. An object
    of a class the receiver is not an instance of, or of which it is not
    an instance, is never equal to it, and neither is an object that is
    no project at all. *)
Theorem project_eq_canonical_form (self : instance) (other : pyobject) :
  (__eq__ self other = true <->
   exists o, other = ObjInstance o /\
             isinstance other (class_of self) = true /\
             isinstance (ObjInstance self) (class_of o) = true /\
             py_eq (VDict (to_project_config (state self) true))
                   (VDict (to_project_config (state o) true)) = true) /\
  (forall o, class_of o = class_of self ->
             __eq__ self (ObjInstance o)
             = py_eq (VDict (to_project_config (state self) true))
                     (VDict (to_project_config (state o) true))) /\
  (forall o, class_of o = class_of self ->
             well_formed (VDict (to_project_config (state self) true)) = true ->
             to_project_config (state o) true = to_project_config (state self) true ->
             __eq__ self (ObjInstance o) = true) /\
  (forall o, issubclass (class_of o) (class_of self) = false \/
             issubclass (class_of self) (class_of o) = false ->
             __eq__ self (ObjInstance o) = false) /\
  (forall v, __eq__ self (ObjValue v) = false).
Proof.
  assert (Hsame : forall o, class_of o = class_of self ->
            __eq__ self (ObjInstance o)
            = py_eq (VDict (to_project_config (state self) true))
                    (VDict (to_project_config (state o) true))).
  { intros o Hclass. unfold __eq__, isinstance.
    now rewrite Hclass, issubclass_refl. }
  split; [|split; [exact Hsame|split; [|split]]].
  - split.
    + destruct other as [o|v]; [|discriminate]. unfold __eq__.
      destruct (isinstance (ObjInstance o) (class_of self)) eqn:H1;
        [|discriminate].
      destruct (isinstance (ObjInstance self) (class_of o)) eqn:H2;
        [|discriminate].
      cbn [andb negb]. intros Heq. exists o. auto.
    + intros (o & -> & H1 & H2 & Heq). unfold __eq__. now rewrite H1, H2.
  - intros o Hclass Hwf Hform. rewrite (Hsame o Hclass), Hform.
    now apply py_eq_refl_dict.
  - intros o Hnot. unfold __eq__, isinstance.
    destruct Hnot as [-> | ->]; [reflexivity|].
    now rewrite andb_false_r.
  - reflexivity.
Qed.

(** X15. Equality of projects does not depend on the side when the two
    serialised forms are well-formed mappings, and it cannot tell two
    projects apart by their modules directory or their selectors, which
    the serialised form leaves out. An object that is not a project is
    never equal to one. *)
Theorem project_eq_symmetric (p q : instance) :
  (well_formed (VDict (to_project_config (state p) true)) = true ->
   well_formed (VDict (to_project_config (state q) true)) = true ->
   __eq__ p (ObjInstance q) = __eq__ q (ObjInstance p)) /\
  (forall dir sels,
     let moved (o : instance) :=
       {| class_of := class_of o;
          state := with_modules_path (with_selectors (state o) sels) dir |} in
     __eq__ p (ObjInstance (moved q)) = __eq__ p (ObjInstance q) /\
     __eq__ (moved p) (ObjInstance q) = __eq__ p (ObjInstance q)) /\
  (forall v, __eq__ p (ObjValue v) = false).
Proof.
  split; [|split].
  - intros Hp Hq. unfold __eq__, isinstance.
    rewrite (andb_comm (issubclass (class_of q) (class_of p))).
    destruct (issubclass (class_of p) (class_of q) &&
              issubclass (class_of q) (class_of p)); [|reflexivity].
    cbn [negb]. now apply py_eq_sym.
  - intros dir sels moved. split; reflexivity.
  - reflexivity.
Qed.

End Equality.

(** An instance of a class that derives from [Project] is a project, and
    here its serialised form is that of an instance of [Project] itself;
    yet neither is equal to the other. *)
Lemma project_eq_subclass_instance :
  let E := externals [] in
  let p := as_project sample_project in
  let q := as_derived sample_project in
  isinstance (ObjInstance p) ProjectClass = true /\
  isinstance (ObjInstance q) ProjectClass = true /\
  py_eq (VDict (to_project_config (state p) true))
        (VDict (to_project_config (state q) true)) = true /\
  __eq__ p (ObjInstance q) = false /\
  __eq__ q (ObjInstance p) = false.
Proof. intros E p q. repeat split; vm_compute; reflexivity. Qed.

(** Two projects that differ in where their modules go are equal. *)
Lemma project_eq_ignores_modules_path :
  let E := externals [] in
  sample_project <> with_modules_path sample_project "elsewhere" /\
  __eq__ (as_project sample_project)
    (ObjInstance (as_project (with_modules_path sample_project "elsewhere"))) = true.
Proof. intros E. split; [discriminate | vm_compute; reflexivity]. Qed.

(** A project whose version is a NaN is equal to itself, and to a project
    that holds the same NaN object, but not to one that holds another. *)
Lemma project_eq_nan :
  let E := externals [] in
  __eq__ (as_project (nan_project 1)) (ObjInstance (as_project (nan_project 1))) = true /\
  __eq__ (as_project (nan_project 1))
    (ObjInstance (as_project (with_modules_path (nan_project 1) "elsewhere"))) = true /\
  __eq__ (as_project (nan_project 1)) (ObjInstance (as_project (nan_project 2))) = false /\
  py_eq (VFloat S754_nan 1) (VFloat S754_nan 1) = false.
Proof. intros E. repeat split; vm_compute; reflexivity. Qed.

Lemma project_eq_canonical_form_witness :
  let E := externals [] in
  __eq__ (as_project sample_project)
    (ObjInstance (as_project (with_modules_path sample_project "elsewhere"))) = true /\
  __eq__ (as_project sample_project) (ObjInstance (as_derived sample_project)) = false.
Proof.
  intros E.
  destruct (project_eq_canonical_form (as_project sample_project) (ObjValue VNone))
    as (_ & _ & Hform & Hclass & _).
  split.
  - apply Hform; reflexivity.
  - apply Hclass. right. reflexivity.
Defined.

Lemma project_eq_symmetric_witness :
  let E := externals [] in
  let moved := as_project (with_modules_path sample_project "elsewhere") in
  __eq__ (as_project sample_project) (ObjInstance moved)
  = __eq__ moved (ObjInstance (as_project sample_project)).
Proof.
  intros E moved.
  apply (proj1 (project_eq_symmetric (as_project sample_project) moved)); reflexivity.
Defined.

(** ** What preprocessing guarantees *)

Lemma mapM_indexed_mono (f g : nat -> value -> result value) (l : list value) :
  (forall i v r, In v l -> f i v = Ok r -> g i v = Ok r) ->
  forall i r, mapM_indexed f i l = Ok r -> mapM_indexed g i l = Ok r.
Proof.
  induction l as [|v l IH]; intros Hfg i r; simpl; [auto|].
  destruct (f i v) as [y|e] eqn:Hy; [|discriminate]. simpl.
  destruct (mapM_indexed f (S i) l) as [ys|e] eqn:Hys; [|discriminate]. simpl.
  intros [= <-]. rewrite (Hfg i v y (or_introl eq_refl) Hy). simpl.
  rewrite (IH (fun i v r Hin => Hfg i v r (or_intror Hin)) (S i) ys Hys). reflexivity.
Qed.

Lemma mapM_items_mono (f g : string -> value -> result value) (d : pydict) :
  (forall k v r, In (k, v) d -> f k v = Ok r -> g k v = Ok r) ->
  forall r, mapM_items f d = Ok r -> mapM_items g d = Ok r.
Proof.
  induction d as [|[k v] d IH]; intros Hfg r; simpl; [auto|].
  destruct (f k v) as [y|e] eqn:Hy; [|discriminate]. simpl.
  destruct (mapM_items f d) as [ys|e] eqn:Hys; [|discriminate]. simpl.
  intros [= <-]. rewrite (Hfg k v y (or_introl eq_refl) Hy). simpl.
  rewrite (IH (fun k v r Hin => Hfg k v r (or_intror Hin)) ys eq_refl). reflexivity.
Qed.

(** What the traversal returns within some depth it returns within any
    greater one. *)
Lemma _deep_map_mono (func : value -> keypath -> value) (n : nat) :
  forall m v kp r, n <= m -> _deep_map n func v kp = Ok r -> _deep_map m func v kp = Ok r.
Proof.
  induction n as [|n IH]; intros m v kp r Hle; [discriminate|].
  destruct m as [|m]; [lia|]. rewrite !_deep_map_unfold.
  assert (Hm : n <= m) by lia.
  destruct v; try (intros Hx; discriminate Hx);
    (destruct (func _ kp) as [| | | | |items|entries|up];
     try (intros Hx; exact Hx);
     [ destruct (mapM_indexed _ 0 items) as [items'|e] eqn:Hl;
       [|intros Hx; discriminate Hx];
       cbn [bind]; intros [= <-];
       erewrite mapM_indexed_mono; [reflexivity| |exact Hl];
       intros i x rx _; apply IH; exact Hm
     | destruct (mapM_items _ entries) as [entries'|e] eqn:Hd;
       [|intros Hx; discriminate Hx];
       cbn [bind]; intros [= <-];
       erewrite mapM_items_mono; [reflexivity| |exact Hd];
       intros k x rx _; apply IH; exact Hm ]).
Qed.

(** The project mapping at any sufficient depth. *)
Lemma _deep_map_project (depth : nat) (project_dict : pydict) :
  acyclic (VDict project_dict) = true ->
  value_depth (VDict project_dict) + 2 <= depth ->
  _deep_map depth converter (VDict project_dict) []
  = Ok (VDict (preprocessed project_dict)).
Proof.
  intros Hac Hd. destruct depth as [|depth]; [lia|].
  simpl. rewrite (mapM_items_map _ top_entry); [reflexivity|].
  intros k v Hin. cbn [app]. apply _deep_map_top_entry.
  - simpl in Hac. eapply acyclic_entry; eauto.
  - simpl in Hd. pose proof (depth_entry k v project_dict Hin). lia.
Qed.

Lemma dict_get_map (g : string -> value -> value) (k : string) (d : pydict) :
  dict_get k (map (fun kv => (fst kv, g (fst kv) (snd kv))) d)
  = option_map (g k) (dict_get k d).
Proof.
  induction d as [|[k0 v0] d IH]; simpl; [reflexivity|].
  destruct (String.eqb_spec k k0) as [->|_]; [reflexivity | exact IH].
Qed.

Lemma dict_keys_map (g : string -> value -> value) (d : pydict) :
  dict_keys (map (fun kv => (fst kv, g (fst kv) (snd kv))) d) = dict_keys d.
Proof. unfold dict_keys. rewrite map_map. reflexivity. Qed.

Lemma hook_rule_shape (v : value) : is_container_or_scalar (hook_rule v) = true.
Proof. destruct v; reflexivity. Qed.

Lemma mapping_rule_shape (v : value) : not_null (mapping_rule v) = true.
Proof. destruct v; reflexivity. Qed.

Lemma hook_rule_twice (v : value) : hook_rule (hook_rule v) = hook_rule v.
Proof. destruct v; reflexivity. Qed.

Lemma mapping_rule_twice (v : value) : mapping_rule (mapping_rule v) = mapping_rule v.
Proof. destruct v; reflexivity. Qed.

Lemma block_entry_twice (k k2 : string) (v : value) :
  block_entry k k2 (block_entry k k2 v) = block_entry k k2 v.
Proof.
  unfold block_entry.
  repeat match goal with
         | |- context [if ?c then _ else _] => destruct c
         end; auto using hook_rule_twice, mapping_rule_twice.
Qed.

Lemma top_entry_twice (k : string) (v : value) :
  top_entry k (top_entry k v) = top_entry k v.
Proof.
  unfold top_entry. destruct (one_of ["on-run-start"; "on-run-end"] k);
    [apply hook_rule_twice|].
  destruct (one_of ["models"; "seeds"; "snapshots"] k); [|reflexivity].
  destruct v as [| | | | |l|d|up]; try reflexivity.
  f_equal. rewrite map_map. apply map_ext. intros [k2 x]. simpl.
  now rewrite block_entry_twice.
Qed.

Lemma preprocessed_twice (d : pydict) : preprocessed (preprocessed d) = preprocessed d.
Proof.
  unfold preprocessed. rewrite map_map. apply map_ext. intros [k v]. simpl.
  now rewrite top_entry_twice.
Qed.

Lemma depth_entries_map (g : string -> value -> value) (d : pydict) :
  (forall k v, value_depth (g k v) <= S (value_depth v)) ->
  fold_right (fun kv acc => Nat.max (value_depth (snd kv)) acc) 0
    (map (fun kv => (fst kv, g (fst kv) (snd kv))) d)
  <= S (fold_right (fun kv acc => Nat.max (value_depth (snd kv)) acc) 0 d).
Proof.
  intros Hg. induction d as [|[k v] d IH]; simpl; [lia|].
  specialize (Hg k v). lia.
Qed.

Lemma acyclic_entries_map (g : string -> value -> value) (d : pydict) :
  (forall k v, acyclic v = true -> acyclic (g k v) = true) ->
  forallb (fun kv => acyclic (snd kv)) d = true ->
  forallb (fun kv => acyclic (snd kv))
    (map (fun kv => (fst kv, g (fst kv) (snd kv))) d) = true.
Proof.
  intros Hg. induction d as [|[k v] d IH]; simpl; [reflexivity|].
  rewrite !andb_true_iff. intros [Hv Hd]. auto.
Qed.

Lemma top_entry_acyclic (k : string) (v : value) :
  acyclic v = true -> acyclic (top_entry k v) = true.
Proof.
  unfold top_entry. intros Hv.
  destruct (one_of ["on-run-start"; "on-run-end"] k); [now apply hook_rule_acyclic|].
  destruct (one_of ["models"; "seeds"; "snapshots"] k); [|exact Hv].
  destruct v; try exact Hv; try reflexivity.
  simpl in *. apply acyclic_entries_map; [|exact Hv].
  intros k2 x. apply block_entry_acyclic.
Qed.

Lemma top_entry_depth (k : string) (v : value) :
  value_depth (top_entry k v) <= S (value_depth v).
Proof.
  unfold top_entry.
  destruct (one_of ["on-run-start"; "on-run-end"] k); [apply hook_rule_depth|].
  destruct (one_of ["models"; "seeds"; "snapshots"] k); [|lia].
  destruct v; simpl; try lia.
  pose proof (depth_entries_map (block_entry k) d (block_entry_depth k)). lia.
Qed.

Lemma preprocessed_acyclic (d : pydict) :
  acyclic (VDict d) = true -> acyclic (VDict (preprocessed d)) = true.
Proof. simpl. apply acyclic_entries_map. apply top_entry_acyclic. Qed.

Lemma preprocessed_depth (d : pydict) :
  value_depth (VDict (preprocessed d)) <= S (value_depth (VDict d)).
Proof.
  simpl. pose proof (depth_entries_map top_entry d top_entry_depth).
  unfold preprocessed. lia.
Qed.

Section Guarantees.
Context `{E : Externals}.

(** Whenever [_preprocess] returns, the input did not contain itself and
    the result is the mapping rewritten by the rules. *)
Lemma _preprocess_ok (project_dict : pydict) (r : value) :
  _preprocess project_dict = Ok r ->
  acyclic (VDict project_dict) = true /\ r = VDict (preprocessed project_dict).
Proof.
  intros Hrun.
  assert (Hac : acyclic (VDict project_dict) = true).
  { destruct (acyclic (VDict project_dict)) eqn:Hac; [reflexivity|].
    unfold _preprocess, deep_map in Hrun.
    rewrite (_deep_map_cycle _ Hac) in Hrun. discriminate. }
  split; [exact Hac|].
  unfold _preprocess, deep_map in Hrun.
  pose (m := Nat.max recursion_limit (value_depth (VDict project_dict) + 2)).
  assert (Hm : _deep_map m converter (VDict project_dict) [] = Ok r).
  { eapply _deep_map_mono; [|exact Hrun]. unfold m. lia. }
  rewrite _deep_map_project in Hm; [congruence | exact Hac | unfold m; lia].
Qed.

(** X16. Whenever [_preprocess] returns, the input did not contain
    itself and the result is a mapping with the keys of the input in the
    same order, in which a run hook is never null nor a bare string, a
    per-resource-type block is never null, and inside a block that is a
    mapping [vars] is never null, [pre-hook] and [post-hook] are never
    null nor a bare string and, under [seeds], [column_types] is never
    null. *)
Theorem preprocess_guarantees (project_dict : pydict) (r : value) :
  _preprocess project_dict = Ok r ->
  acyclic (VDict project_dict) = true /\
  exists processed,
    r = VDict processed /\
    dict_keys processed = dict_keys project_dict /\
    (forall k v,
       one_of ["on-run-start"; "on-run-end"] k = true ->
       dict_get k processed = Some v -> is_container_or_scalar v = true) /\
    (forall k v,
       one_of ["models"; "seeds"; "snapshots"] k = true ->
       dict_get k processed = Some v ->
       not_null v = true /\
       forall block,
         v = VDict block ->
         (forall x, dict_get "vars" block = Some x -> not_null x = true) /\
         (forall hook x,
            one_of ["pre-hook"; "post-hook"] hook = true ->
            dict_get hook block = Some x -> is_container_or_scalar x = true) /\
         (k = "seeds" ->
          forall x, dict_get "column_types" block = Some x -> not_null x = true)).
Proof.
  intros Hrun. apply _preprocess_ok in Hrun. destruct Hrun as (Hac & ->).
  split; [exact Hac|]. exists (preprocessed project_dict).
  split; [reflexivity|]. split; [apply dict_keys_map|]. split.
  - intros k v Hk Hget. unfold preprocessed in Hget. rewrite dict_get_map in Hget.
    destruct (dict_get k project_dict) as [v0|]; [|discriminate].
    injection Hget as <-. unfold top_entry. rewrite Hk. apply hook_rule_shape.
  - intros k v Hk Hget. unfold preprocessed in Hget. rewrite dict_get_map in Hget.
    destruct (dict_get k project_dict) as [v0|]; [|discriminate].
    injection Hget as <-. unfold top_entry.
    assert (Hhook : one_of ["on-run-start"; "on-run-end"] k = false).
    { unfold one_of in *. cbn in *.
      repeat match type of Hk with
             | context [String.eqb k ?s] =>
                 destruct (String.eqb_spec k s); [subst k; reflexivity|]; cbn in Hk
             end; discriminate. }
    rewrite Hhook, Hk. split; [destruct v0; reflexivity|].
    intros block Hblock.
    assert (Hentries : exists b0,
              block = map (fun kv => (fst kv, block_entry k (fst kv) (snd kv))) b0).
    { destruct v0; try discriminate.
      - injection Hblock as <-. exists []. reflexivity.
      - injection Hblock as <-. eauto. }
    destruct Hentries as (b0 & ->).
    split; [|split].
    + intros x Hx. rewrite dict_get_map in Hx.
      destruct (dict_get "vars" b0); [|discriminate]. injection Hx as <-.
      apply mapping_rule_shape.
    + intros hook x Hhk Hx. rewrite dict_get_map in Hx.
      destruct (dict_get hook b0); [|discriminate]. injection Hx as <-.
      unfold block_entry. rewrite Hhk.
      destruct (String.eqb_spec hook "vars") as [->|_]; [discriminate Hhk|].
      apply hook_rule_shape.
    + intros -> x Hx. rewrite dict_get_map in Hx.
      destruct (dict_get "column_types" b0); [|discriminate]. injection Hx as <-.
      apply mapping_rule_shape.
Qed.

(** X17. Preprocessing a preprocessed mapping changes nothing: whenever
    a second run returns, it returns the result of the first; and for a
    mapping that does not contain itself and is nested at least three
    levels less deeply than the recursion limit, both runs return. *)
Theorem preprocess_idempotent (project_dict : pydict) :
  (forall processed r,
     _preprocess project_dict = Ok (VDict processed) ->
     _preprocess processed = Ok r ->
     r = VDict processed) /\
  (acyclic (VDict project_dict) = true ->
   value_depth (VDict project_dict) + 3 <= recursion_limit ->
   exists processed,
     _preprocess project_dict = Ok (VDict processed) /\
     _preprocess processed = Ok (VDict processed)).
Proof.
  split.
  - intros processed r H1 H2. apply _preprocess_ok in H1, H2.
    destruct H1 as (_ & [= ->]). destruct H2 as (_ & ->).
    now rewrite preprocessed_twice.
  - intros Hac Hd. exists (preprocessed project_dict).
    unfold _preprocess, deep_map. split.
    + apply _deep_map_project; [exact Hac | lia].
    + rewrite <- (preprocessed_twice project_dict) at 2.
      apply _deep_map_project; [now apply preprocessed_acyclic|].
      pose proof (preprocessed_depth project_dict). lia.
Qed.

End Guarantees.

Lemma preprocess_guarantees_witness :
  let E := externals [] in
  exists processed,
    _preprocess unprocessed_project = Ok (VDict processed) /\
    dict_keys processed = dict_keys unprocessed_project /\
    dict_get "on-run-end" processed = Some (VList []).
Proof.
  intros E.
  destruct (_preprocess unprocessed_project) as [r|e] eqn:Hrun;
    [|vm_compute in Hrun; discriminate].
  destruct (preprocess_guarantees unprocessed_project r Hrun)
    as (_ & processed & -> & Hkeys & _).
  exists processed. split; [reflexivity|]. split; [exact Hkeys|].
  vm_compute in Hrun. injection Hrun as <-. reflexivity.
Defined.

Lemma preprocess_idempotent_witness :
  let E := externals [] in
  exists processed,
    _preprocess unprocessed_project = Ok (VDict processed) /\
    _preprocess processed = Ok (VDict processed).
Proof.
  intros E.
  apply (proj2 (preprocess_idempotent unprocessed_project));
    [reflexivity | vm_compute; lia].
Defined.
